(** * Py86: the VM control plane of [main.py]

    A shallow embedding of class [VM] of [main.py] (configuration store,
    disk provisioning, launch-command synthesis, process start, the QMP
    client and the bundle codec), with the theorems that settle the claims
    of the specification against it.

    Python side effects are made explicit: every method is a function from
    a state (the [VM] object and the [World] it runs in) to an outcome and a
    new state.  A raised exception is the [inl] outcome; the state it leaves
    behind is the one reached when it was raised.

    What the model covers.  One VM object at a time: its configuration is a
    value of its own (two VMs made in one run of the program share the
    nested [disks] and [advanced] objects of [DEFAULT_CONFIG] through
    [dict(DEFAULT_CONFIG)]; nothing here is about two VMs, and of a new
    VM's [disks] and [advanced] only what does not depend on an earlier VM
    is stated).  Paths are texts and the file system maps a path to a
    directory or a file, with no symbolic link, no [..] resolved and no
    normal form taken (a doubled or final slash is kept as written); a
    directory is one entry, with no account of what is below it.  The
    threads [start] launches are recorded, not run.  The external
    programs and libraries (the [qemu-img] tool, the system's choice of a
    free port, the clock, the JSON codec) are inputs: fields of the world,
    or parameters.  Python does more than the model in places: a
    directory is added to an archive with what is below it, an archive
    member may fail to unpack, a stored file may hold a JSON value that is
    no configuration, the extra arguments may hold white space outside
    ASCII, the file system may refuse a size.  These are outside what the
    theorems state; where a theorem would reach them, a hypothesis keeps
    it to what the model has. *)

From Stdlib Require Import ZArith String Ascii List Lia.
From stdpp Require Import base option list gmap strings pretty.

Set Warnings "-register-all,-abstract-large-number".

Local Open Scope string_scope.
Local Open Scope Z_scope.
Local Open Scope list_scope.

(** ** Exceptions *)

Inductive exn : Type :=
  | FileNotFoundError (msg : string)
  | FileExistsError (msg : string)
  | IsADirectoryError (msg : string)
  | RuntimeError (msg : string)
  | OSError (msg : string)
  | OverflowError
  | KeyError (key : string)
  | CalledProcessError (status : Z)
  | JSONDecodeError
  | ReadError
  | TimeoutError.

(** The names the specification gives to the failures the code raises. *)
Definition HypervisorNotFound : exn := FileNotFoundError "qemu not found".
Definition AlreadyRunning : exn := RuntimeError "already running".
Definition NotConnected : exn := RuntimeError "qmp not connected".
Definition EmptyBundle : exn := RuntimeError "empty bundle".
Definition AlreadyExists : exn := FileExistsError "vm exists".

(** ** Strings and paths *)

Definition str_eqb (a b : string) : bool := bool_decide (a = b).

(** Python truthiness of an optional string ([None] and [""] are false). *)
Definition truthy_str (o : option string) : bool :=
  match o with
  | Some s => negb (str_eqb s "")
  | None => false
  end.

(** Python truthiness of an optional integer ([None] and [0] are false). *)
Definition truthy_int (o : option Z) : bool :=
  match o with
  | Some n => negb (Z.eqb n 0)
  | None => false
  end.

Definition truthy_bool (o : option bool) : bool := default false o.

(** [str(n)] for a Python integer. *)
Definition str_of_int (n : Z) : string := pretty n.

(** [s.split("/", 1)[0]]: the text before the first slash. *)
Fixpoint split_head (s : string) : string :=
  match s with
  | EmptyString => EmptyString
  | String c r => if Ascii.eqb c "/" then EmptyString else String c (split_head r)
  end.

(** [Path(s).name]: the last path component, empty components and [.]
    components apart.  [go] carries the component being read and the last
    complete one that counts. *)
Fixpoint basename_go (s cur last : string) : string :=
  match s with
  | EmptyString => if str_eqb cur "" || str_eqb cur "." then last else cur
  | String c r =>
      if Ascii.eqb c "/"
      then basename_go r "" (if str_eqb cur "" || str_eqb cur "." then last else cur)
      else basename_go r (cur +:+ String c EmptyString) last
  end.

Definition basename (s : string) : string := basename_go s "" "".

(** [a / b] of pathlib for the operands the program builds: an absolute
    right operand replaces the left one, an empty or ["."] operand leaves
    it unchanged, anything else is appended after a slash. *)
Definition path_join (a b : string) : string :=
  if String.prefix "/" b then b
  else if str_eqb b "" || str_eqb b "." then a
  else a +:+ "/" +:+ b.

(** [str.split()]: maximal runs of non-whitespace characters. *)
Definition is_space (c : ascii) : bool :=
  let n := nat_of_ascii c in
  ((9 <=? n) && (n <=? 13) || (28 <=? n) && (n <=? 32))%nat.

Fixpoint split_ws_go (s cur : string) : list string :=
  match s with
  | EmptyString => if str_eqb cur "" then [] else [cur]
  | String c r =>
      if is_space c
      then (if str_eqb cur "" then [] else [cur]) ++ split_ws_go r ""
      else split_ws_go r (cur +:+ String c EmptyString)
  end.

Definition split_ws (s : string) : list string := split_ws_go s "".

(** ** The configuration document *)

(** The [advanced] mapping, by the keys the program reads and writes:
    the two host-allocated ports are integers, the other values are text.
    Every key may be absent. *)
Record Advanced : Type := {
  adv_qmp_port : option Z;
  vnc_port : option Z;
  machine : option string;
  tap_name : option string;
  ovmf_code : option string;
}.

(** [{}] *)
Definition empty_advanced : Advanced := {|
  adv_qmp_port := None; vnc_port := None; machine := None;
  tap_name := None; ovmf_code := None;
|}.

(** [a["qmp_port"] = p] and [a["vnc_port"] = p] *)
Definition set_adv_qmp_port (p : Z) (a : Advanced) : Advanced := {|
  adv_qmp_port := Some p; vnc_port := vnc_port a; machine := machine a;
  tap_name := tap_name a; ovmf_code := ovmf_code a;
|}.

Definition set_vnc_port (p : Z) (a : Advanced) : Advanced := {|
  adv_qmp_port := adv_qmp_port a; vnc_port := Some p; machine := machine a;
  tap_name := tap_name a; ovmf_code := ovmf_code a;
|}.

(** An entry of [config["disks"]]; either key may be missing. *)
Record DiskSpec : Type := {
  d_path : option string;
  d_format : option string;
}.

(** The JSON object [self.config].  Every key may be absent ([None]); a
    key that is present holds a value of the type it has in
    [DEFAULT_CONFIG] (a document with [null], or a value of another type,
    for one of these keys is no [VMConfig]). *)
Record VMConfig : Type := {
  cfg_name : option string;
  created : option string;
  version : option string;
  cpu_cores : option Z;
  memory_mib : option Z;
  disk_gib : option Z;
  disk_format : option string;
  efi : option bool;
  boot_order : option string;
  iso_path : option string;
  extra_args : option string;
  network_mode : option string;
  enable_kvm : option bool;
  graphics : option string;
  display_embed : option bool;
  advanced : option Advanced;
  disks : option (list DiskSpec);
  usb_passthrough : option (list string);
  nested_virt : option bool;
  autostart : option bool;
  vga : option string;
}.

Definition APP_VERSION : string := "beta 0.12".
Definition DEFAULT_DISK_FORMAT : string := "raw".

Definition DEFAULT_CONFIG : VMConfig := {|
  cfg_name := Some "py86-vm";
  created := None;
  version := Some APP_VERSION;
  cpu_cores := Some 2;
  memory_mib := Some 4096;
  disk_gib := Some 32;
  disk_format := Some DEFAULT_DISK_FORMAT;
  efi := Some true;
  boot_order := Some "cdrom,hd,menu";
  iso_path := None;
  extra_args := Some "";
  network_mode := Some "user (NAT)";
  enable_kvm := Some false;
  graphics := Some "sdl";
  display_embed := Some true;
  advanced := Some empty_advanced;
  disks := Some [];
  usb_passthrough := Some [];
  nested_virt := Some false;
  autostart := Some false;
  vga := Some "virtio";
|}.

(** [cfg["disks"] = ds] *)
Definition set_disks (ds : list DiskSpec) (c : VMConfig) : VMConfig := {|
  cfg_name := cfg_name c; created := created c; version := version c;
  cpu_cores := cpu_cores c; memory_mib := memory_mib c; disk_gib := disk_gib c;
  disk_format := disk_format c; efi := efi c; boot_order := boot_order c;
  iso_path := iso_path c; extra_args := extra_args c;
  network_mode := network_mode c; enable_kvm := enable_kvm c;
  graphics := graphics c; display_embed := display_embed c;
  advanced := advanced c; disks := Some ds;
  usb_passthrough := usb_passthrough c; nested_virt := nested_virt c;
  autostart := autostart c; vga := vga c;
|}.

(** [cfg["advanced"] = a] *)
Definition set_advanced (a : Advanced) (c : VMConfig) : VMConfig := {|
  cfg_name := cfg_name c; created := created c; version := version c;
  cpu_cores := cpu_cores c; memory_mib := memory_mib c; disk_gib := disk_gib c;
  disk_format := disk_format c; efi := efi c; boot_order := boot_order c;
  iso_path := iso_path c; extra_args := extra_args c;
  network_mode := network_mode c; enable_kvm := enable_kvm c;
  graphics := graphics c; display_embed := display_embed c;
  advanced := Some a; disks := disks c;
  usb_passthrough := usb_passthrough c; nested_virt := nested_virt c;
  autostart := autostart c; vga := vga c;
|}.

(** [cfg["name"] = n; cfg["created"] = t] *)
Definition set_identity (n t : string) (c : VMConfig) : VMConfig := {|
  cfg_name := Some n; created := Some t; version := version c;
  cpu_cores := cpu_cores c; memory_mib := memory_mib c; disk_gib := disk_gib c;
  disk_format := disk_format c; efi := efi c; boot_order := boot_order c;
  iso_path := iso_path c; extra_args := extra_args c;
  network_mode := network_mode c; enable_kvm := enable_kvm c;
  graphics := graphics c; display_embed := display_embed c;
  advanced := advanced c; disks := disks c;
  usb_passthrough := usb_passthrough c; nested_virt := nested_virt c;
  autostart := autostart c; vga := vga c;
|}.

(** [cfg.get("disks", [])] and [cfg.get("advanced", {})] *)
Definition get_disks (c : VMConfig) : list DiskSpec := default [] (disks c).
Definition get_advanced (c : VMConfig) : Advanced := default empty_advanced (advanced c).

(** ** The world a VM runs in *)

(** What a file holds.  The text [json.dump] writes is identified with the
    document it encodes; a file made by [truncate] is known by its apparent
    size, an image made by [qemu-img] by its format and requested size. *)
Inductive FileData : Type :=
  | FConfig (doc : VMConfig)
  | FSparse (size : Z)
  | FImage (fmt : string) (size : string)
  | FTar (members : list (string * option FileData))
  | FBytes (data : string).

(** A member of a tar archive: its name and, for a regular file, its
    contents ([None] for a directory entry). *)
Definition TarMember : Type := string * option FileData.

Inductive Node : Type :=
  | Dir
  | File (data : FileData).

(** One end of a TCP connection: whether the peer still holds the other
    end, what was written to it, the chunks the next calls of [recv] will
    return, and whether the peer, gone, has answered a write with a reset
    (the write after which every write fails). *)
Record Sock : Type := {
  connected : bool;
  sent : list string;
  inbox : list string;
  reset : bool;
}.

(** A daemon thread started by [start]; its body is not run here. *)
Inductive Task : Type :=
  | ReadStdout (pid : nat)
  | ReadStderr (pid : nat)
  | WaitProc (pid : nat) (has_exit_cb : bool)
  | ConnectQmp.

Record World : Type := {
  home : string;                    (* Path.home() *)
  search_path : gmap string string; (* shutil.which: name -> resolved path *)
  fs : gmap string Node;            (* the file system, by path *)
  free_ports : list Z;              (* ports bind(("127.0.0.1", 0)) hands out *)
  utcnow : string;                  (* datetime.utcnow().isoformat() *)
  qemu_img_status : Z;              (* exit status of a run of qemu-img *)
  spawned : list (list string);     (* Popen: argument vectors, pid = index *)
  exited : gmap nat Z;              (* returncode of the pids that have exited *)
  sockets : gmap nat Sock;
  threads : list Task;
}.

Definition set_fs (f : gmap string Node) (w : World) : World := {|
  home := home w; search_path := search_path w; fs := f;
  free_ports := free_ports w; utcnow := utcnow w;
  qemu_img_status := qemu_img_status w; spawned := spawned w;
  exited := exited w; sockets := sockets w; threads := threads w;
|}.

Definition set_free_ports (p : list Z) (w : World) : World := {|
  home := home w; search_path := search_path w; fs := fs w;
  free_ports := p; utcnow := utcnow w;
  qemu_img_status := qemu_img_status w; spawned := spawned w;
  exited := exited w; sockets := sockets w; threads := threads w;
|}.

Definition set_spawned (l : list (list string)) (w : World) : World := {|
  home := home w; search_path := search_path w; fs := fs w;
  free_ports := free_ports w; utcnow := utcnow w;
  qemu_img_status := qemu_img_status w; spawned := l;
  exited := exited w; sockets := sockets w; threads := threads w;
|}.

Definition set_sockets (s : gmap nat Sock) (w : World) : World := {|
  home := home w; search_path := search_path w; fs := fs w;
  free_ports := free_ports w; utcnow := utcnow w;
  qemu_img_status := qemu_img_status w; spawned := spawned w;
  exited := exited w; sockets := s; threads := threads w;
|}.

Definition add_thread (t : Task) (w : World) : World := {|
  home := home w; search_path := search_path w; fs := fs w;
  free_ports := free_ports w; utcnow := utcnow w;
  qemu_img_status := qemu_img_status w; spawned := spawned w;
  exited := exited w; sockets := sockets w; threads := threads w ++ [t];
|}.

(** The module-level directories. *)
Definition BASE_DIR (w : World) : string := path_join (home w) ".py86".
Definition VMS_DIR (w : World) : string := path_join (BASE_DIR w) "vms".
Definition EXPORTS_DIR (w : World) : string := path_join (BASE_DIR w) "exports".

(** ** The VM object *)

Record VM : Type := {
  name : string;
  config : VMConfig;
  proc : option nat;           (* the Popen handle, by pid *)
  qmp_sock : option nat;       (* the connected control socket *)
  qmp_port : option Z;
  display_window_id : option Z;
}.

Definition set_config (c : VMConfig) (v : VM) : VM := {|
  name := name v; config := c; proc := proc v; qmp_sock := qmp_sock v;
  qmp_port := qmp_port v; display_window_id := display_window_id v;
|}.

Definition set_proc (p : option nat) (v : VM) : VM := {|
  name := name v; config := config v; proc := p; qmp_sock := qmp_sock v;
  qmp_port := qmp_port v; display_window_id := display_window_id v;
|}.

Definition set_qmp_port (p : option Z) (v : VM) : VM := {|
  name := name v; config := config v; proc := proc v; qmp_sock := qmp_sock v;
  qmp_port := p; display_window_id := display_window_id v;
|}.

(** The state a method of [VM] runs in: [self] and the world. *)
Record St : Type := {
  self : VM;
  world : World;
}.

(** ** The monad of effects

    [M S A]: a computation over a state [S] that returns an [A] or raises.
    Module-level functions and the constructor run over [World], methods
    over [St]. *)

Definition M (S A : Type) : Type := S → (exn + A) * S.

Definition ret {S A} (a : A) : M S A := λ s, (inr a, s).
Definition raise {S A} (e : exn) : M S A := λ s, (inl e, s).
Definition bind {S A B} (m : M S A) (k : A → M S B) : M S B :=
  λ s, match m s with
       | (inr a, s') => k a s'
       | (inl e, s') => (inl e, s')
       end.
(** [try: m except: h] *)
Definition catch {S A} (m : M S A) (h : exn → M S A) : M S A :=
  λ s, match m s with
       | (inr a, s') => (inr a, s')
       | (inl e, s') => h e s'
       end.
Definition get {S} : M S S := λ s, (inr s, s).
Definition put {S} (s' : S) : M S unit := λ _, (inr tt, s').

(** A module-level effect, run from inside a method. *)
Definition lift {A} (m : M World A) : M St A :=
  λ s, let '(r, w) := m (world s) in (r, {| self := self s; world := w |}).

Definition get_self : M St VM := λ s, (inr (self s), s).
Definition put_self (v : VM) : M St unit :=
  λ s, (inr tt, {| self := v; world := world s |}).

Declare Scope py_scope.
Delimit Scope py_scope with py.
Notation "x <- m ;; k" := (bind m (λ x, k))
  (at level 100, m at next level, right associativity) : py_scope.
Notation "m ;;; k" := (bind m (λ _, k))
  (at level 100, right associativity) : py_scope.
Local Open Scope py_scope.

(** ** The attributes [__init__] derives from the name *)

Definition vm_path (w : World) (n : string) : string := path_join (VMS_DIR w) n.
Definition config_path (w : World) (n : string) : string := path_join (vm_path w n) "config.json".
Definition disk_dir (w : World) (n : string) : string := path_join (vm_path w n) "disks".
Definition logs_dir (w : World) (n : string) : string := path_join (vm_path w n) "logs".

(** ** The file system *)

(** The directory part of a path: the text before its last slash
    ([None] when there is no slash). *)
Fixpoint dirname_go (s : string) : option string :=
  match s with
  | EmptyString => None
  | String c r =>
      match dirname_go r with
      | Some d => Some (String c d)
      | None => if Ascii.eqb c "/" then Some EmptyString else None
      end
  end.

Definition dirname (s : string) : string := default "" (dirname_go s).

(** The proper ancestors of a path, outermost first. *)
Fixpoint parents_go (pre s : string) : list string :=
  match s with
  | EmptyString => []
  | String c r =>
      (if Ascii.eqb c "/" && negb (str_eqb pre "") then [pre] else [])
        ++ parents_go (pre +:+ String c EmptyString) r
  end.

Definition parents (s : string) : list string := parents_go "" s.

Definition mkdir_if_absent (f : gmap string Node) (p : string) : gmap string Node :=
  match f !! p with
  | None => <[p := Dir]> f
  | Some _ => f
  end.

(** The directories [p.mkdir(parents=True)] leaves behind. *)
Definition makedirs (p : string) (f : gmap string Node) : gmap string Node :=
  foldl mkdir_if_absent f (parents p ++ [p]).

(** [p.exists()] *)
Definition path_exists (p : string) : M World bool :=
  λ w, (inr (bool_decide (is_Some (fs w !! p))), w).

(** [p.mkdir(parents=True, exist_ok=True)] *)
Definition mkdir_p (p : string) : M World unit :=
  λ w, match fs w !! p with
       | Some (File _) => (inl (FileExistsError p), w)
       | _ => (inr tt, set_fs (makedirs p (fs w)) w)
       end.

(** [open(p, "w")] or [open(p, "wb")]: the file is created empty, or
    emptied; its directory must exist. *)
Definition open_w (p : string) : M World unit :=
  λ w, match fs w !! p with
       | Some Dir => (inl (IsADirectoryError p), w)
       | _ =>
           match fs w !! dirname p with
           | Some Dir => (inr tt, set_fs (<[p := File (FSparse 0)]> (fs w)) w)
           | _ => (inl (FileNotFoundError p), w)
           end
       end.

(** What the open file [p] is made to hold. *)
Definition write_file (p : string) (d : FileData) : M World unit :=
  λ w, (inr tt, set_fs (<[p := File d]> (fs w)) w).

(** [f.truncate(size)] on the file just opened at [p]. *)
Definition truncate (p : string) (size : Z) : M World unit :=
  if Z.ltb size 0 then raise (OSError "Invalid argument")
  else if Z.leb (2 ^ 63) size then raise OverflowError
  else write_file p (FSparse size).

(** [shutil.which(cmd)] *)
Definition which (cmd : string) : M World (option string) :=
  λ w, (inr (search_path w !! cmd), w).

(** [find_qemu()] *)
Fixpoint find_qemu_in (candidates : list string) : M World (option string) :=
  match candidates with
  | [] => ret None
  | c :: rest =>
      path <- which c ;;
      if truthy_str path then ret path else find_qemu_in rest
  end.

Definition find_qemu : M World (option string) :=
  find_qemu_in ["qemu-system-x86_64"; "qemu-system-x86_64.exe"].

(** [now_iso()] *)
Definition now_iso : M World string :=
  λ w, (inr (utcnow w +:+ "Z"), w).

(** [subprocess.run([qemu_img, "create", "-f", fmt, target, size], check=True)]:
    the tool is external; a run that exits with status 0 leaves an image of
    the requested format and size at [target]. *)
Definition run_qemu_img_create (fmt target size : string) : M World unit :=
  λ w, if Z.eqb (qemu_img_status w) 0
       then (inr tt, set_fs (<[target := File (FImage fmt size)]> (fs w)) w)
       else (inl (CalledProcessError (qemu_img_status w)), w).

(** ** [VM]: configuration store *)

(** The body of [save_config] once [self.config] is settled:
    [with open(self.config_path, "w") as f: json.dump(self.config, f)]. *)
Definition write_config (n : string) (c : VMConfig) : M World unit :=
  w <- get ;;
  open_w (config_path w n) ;;;
  write_file (config_path w n) (FConfig c).

(** [save_config(self, cfg=None)] *)
Definition save_config (cfg : option VMConfig) : M St unit :=
  match cfg with
  | Some c => (v <- get_self ;; put_self (set_config c v))
  | None => ret tt
  end ;;;
  v <- get_self ;;
  lift (write_config (name v) (config v)).

(** [json.load] of the stored document.  [JSONDecodeError] is what an
    empty or zero-filled file raises; for a file of another kind it
    stands for the failure to read a document from it, whose exception in
    Python depends on the bytes (bytes that are no UTF-8 text raise
    [UnicodeDecodeError]); a file that holds a JSON value that is no
    configuration document is not among the files of the model. *)
Definition load_config (p : string) : M World VMConfig :=
  λ w, match fs w !! p with
       | Some (File (FConfig doc)) => (inr doc, w)
       | Some (File _) => (inl JSONDecodeError, w)
       | Some Dir => (inl (IsADirectoryError p), w)
       | None => (inl (FileNotFoundError p), w)
       end.

Definition ensure_dir (p : string) : M World unit :=
  e <- path_exists p ;;
  if e then ret tt else mkdir_p p.

(** [_load_or_init] followed by [_ensure_disks_list]; the value returned is
    the one bound to [self.config]. *)
Definition _load_or_init (n : string) : M World VMConfig :=
  w <- get ;;
  ensure_dir (vm_path w n) ;;;
  ensure_dir (disk_dir w n) ;;;
  ensure_dir (logs_dir w n) ;;;
  e <- path_exists (config_path w n) ;;
  cfg <- (if e then load_config (config_path w n)
          else (t <- now_iso ;;
                let cfg := set_identity n t DEFAULT_CONFIG in
                write_config n cfg ;;;
                ret cfg)) ;;
  match disks cfg with
  | Some _ => ret cfg
  | None =>
      let cfg' := set_disks [] cfg in
      write_config n cfg' ;;;
      ret cfg'
  end.

(** [VM(name)] *)
Definition VM_init (n : string) : M World VM :=
  cfg <- _load_or_init n ;;
  ret {| name := n; config := cfg; proc := None; qmp_sock := None;
         qmp_port := None; display_window_id := None |}.

(** ** [VM]: disks *)

(** [create_disk(self, name, gib, fmt)] *)
Definition create_disk (dname : string) (gib : Z) (fmt : string) : M St unit :=
  v <- get_self ;;
  w <- lift get ;;
  let target := path_join (disk_dir w (name v)) dname in
  qemu_img <- lift (which "qemu-img") ;;
  (if truthy_str qemu_img && negb (str_eqb fmt "raw")
   then lift (run_qemu_img_create fmt target (str_of_int gib +:+ "G"))
   else lift (open_w target ;;; truncate target (gib * 1024 ^ 3))) ;;;
  v <- get_self ;;
  put_self (set_config
              (set_disks (get_disks (config v)
                            ++ [{| d_path := Some target; d_format := Some fmt |}])
                         (config v)) v) ;;;
  save_config None.

(** [ensure_primary_disk(self)] *)
Definition ensure_primary_disk : M St unit :=
  v <- get_self ;;
  let ds := get_disks (config v) in
  match ds with
  | [] =>
      let fmt := default "raw" (disk_format (config v)) in
      let dname := name v +:+ "-disk0." +:+ fmt in
      create_disk dname (default 32 (disk_gib (config v))) fmt
  | _ :: _ => ret tt
  end.

(** ** [VM]: bundles *)

Definition node_data (nd : Node) : option FileData :=
  match nd with
  | Dir => None
  | File d => Some d
  end.

(** [tarfile.open(dest, "w:gz")]: an archive with no member yet. *)
Definition tar_open_w (dest : string) : M World unit :=
  open_w dest ;;; write_file dest (FTar []).

(** [tar.add(p, arcname=arc)] on the archive being written at [dest].
    The archive itself is never added to itself. *)
Definition tar_add (dest p arc : string) : M World unit :=
  λ w, if str_eqb p dest then (inr tt, w)
       else match fs w !! p with
            | None => (inl (FileNotFoundError p), w)
            | Some nd =>
                match fs w !! dest with
                | Some (File (FTar ms)) =>
                    (inr tt,
                     set_fs (<[dest := File (FTar (ms ++ [(arc, node_data nd)]))]> (fs w)) w)
                | _ => (inl (OSError "Bad file descriptor"), w)
                end
            end.

(** The loop [for d in self.config.get("disks", [])] of [export_bundle]. *)
Fixpoint export_disks (dest vmname : string) (ds : list DiskSpec) : M World unit :=
  match ds with
  | [] => ret tt
  | d :: rest =>
      match d_path d with
      | None => raise (KeyError "path")
      | Some p =>
          e <- path_exists p ;;
          (if e then tar_add dest p (vmname +:+ "/disks/" +:+ basename p)
           else ret tt) ;;;
          export_disks dest vmname rest
      end
  end.

(** What is left at [dest] when the [with] block of [export_bundle] is
    left by an exception: the archive is closed without its end marker.
    The members written so far stay readable; an archive that has no
    member yet is a compressed stream with no tar data in it, which
    [tarfile] refuses to read ([NO_TAR_DATA] stands for its bytes, which
    begin with the gzip magic number). *)
Definition NO_TAR_DATA : FileData := FBytes (String "031" (String "139" EmptyString)).

Definition tar_abort (dest : string) : M World unit :=
  λ w, match fs w !! dest with
       | Some (File (FTar [])) =>
           (inr tt, set_fs (<[dest := File NO_TAR_DATA]> (fs w)) w)
       | _ => (inr tt, w)
       end.

(** The body of the [with] block of [export_bundle]. *)
Definition export_members (dest : string) (include_iso : bool) : M St unit :=
  v <- get_self ;;
  w <- lift get ;;
  lift (tar_add dest (config_path w (name v)) (name v +:+ "/config.json")) ;;;
  lift (export_disks dest (name v) (get_disks (config v))) ;;;
  (if include_iso && truthy_str (iso_path (config v))
   then
     let iso := default "" (iso_path (config v)) in
     e <- lift (path_exists iso) ;;
     if e then lift (tar_add dest iso (name v +:+ "/iso/" +:+ basename iso))
     else ret tt
   else ret tt).

(** [export_bundle(self, dest, include_iso)] *)
Definition export_bundle (dest : string) (include_iso : bool) : M St string :=
  lift (tar_open_w dest) ;;;
  catch (export_members dest include_iso)
        (λ e, lift (tar_abort dest) ;;; raise e) ;;;
  ret dest.

(** [tarfile.open(bundle_path, "r:gz")] and [tar.getmembers()] *)
Definition tar_getmembers (p : string) : M World (list TarMember) :=
  λ w, match fs w !! p with
       | Some (File (FTar ms)) => (inr ms, w)
       | Some (File _) => (inl ReadError, w)
       | Some Dir => (inl (IsADirectoryError p), w)
       | None => (inl (FileNotFoundError p), w)
       end.

(** [os.path.join(a, b)] *)
Definition os_path_join (a b : string) : string :=
  if String.prefix "/" b then b else a +:+ "/" +:+ b.

(** One member unpacked under [root]: a directory is made if it is not
    there, a file is written over whatever has its path; the directories
    on the way are made as needed. *)
Definition extract_member (root : string) (f : gmap string Node) (m : TarMember)
  : gmap string Node :=
  let target := os_path_join root m.1 in
  match m.2 with
  | None => makedirs target f
  | Some d => <[target := File d]> (foldl mkdir_if_absent f (parents target))
  end.

(** [tar.extractall(path=root)] *)
Definition extractall (root : string) (ms : list TarMember) : M World unit :=
  λ w, (inr tt, set_fs (foldl (extract_member root) (fs w) ms) w).

(** [VM.import_bundle(bundle_path)] *)
Definition import_bundle (bundle_path : string) : M World VM :=
  members <- tar_getmembers bundle_path ;;
  match members with
  | [] => raise EmptyBundle
  | m0 :: _ =>
      let root := split_head m0.1 in
      w <- get ;;
      let target_dir := path_join (VMS_DIR w) root in
      e <- path_exists target_dir ;;
      if e then raise AlreadyExists
      else
        extractall (VMS_DIR w) members ;;;
        VM_init root
  end.

(** ** [VM]: the launch command *)

(** [s = socket(); s.bind(("127.0.0.1", 0)); port = s.getsockname()[1];
    s.close()]: the system chooses the port. *)
Definition bind_free_port : M World Z :=
  λ w, match free_ports w with
       | [] => (inl (OSError "Address already in use"), w)
       | p :: rest => (inr p, set_free_ports rest w)
       end.

(** [_allocate_qmp_port(self)] *)
Definition _allocate_qmp_port : M St Z :=
  port <- lift bind_free_port ;;
  v <- get_self ;;
  put_self (set_config
              (set_advanced (set_adv_qmp_port port (get_advanced (config v)))
                            (config v)) v) ;;;
  save_config None ;;;
  ret port.

(** [f"file={path},format={fmt},if=virtio"] for one entry of [disks]. *)
Definition drive_opt (d : DiskSpec) : string :=
  "file=" +:+ default "None" (d_path d)
    +:+ ",format=" +:+ default "raw" (d_format d) +:+ ",if=virtio".

Definition drive_args (ds : list DiskSpec) : list string :=
  flat_map (λ d, ["-drive"; drive_opt d]) ds.

(** The tokens from [-machine] to [-boot]. *)
Definition machine_to_boot_args (cfg : VMConfig) : list string :=
  ["-machine"; default "q35" (machine (get_advanced cfg))]
  ++ (if truthy_bool (enable_kvm cfg) then ["-enable-kvm"] else [])
  ++ (if truthy_bool (nested_virt cfg) then ["-cpu"; "host"] else [])
  ++ ["-smp"; str_of_int (default 2 (cpu_cores cfg))]
  ++ ["-m"; str_of_int (default 4096 (memory_mib cfg))]
  ++ drive_args (get_disks cfg)
  ++ (if truthy_str (iso_path cfg) then ["-cdrom"; default "" (iso_path cfg)] else [])
  ++ ["-boot"; default "cdrom,hd,menu" (boot_order cfg)].

(** The [vnc] branch: the port is taken from [advanced], or allocated and
    stored there. *)
Definition vnc_args : M St (list string) :=
  v <- get_self ;;
  port <- (if truthy_int (vnc_port (get_advanced (config v)))
           then ret (default 0 (vnc_port (get_advanced (config v))))
           else
             p <- lift bind_free_port ;;
             v <- get_self ;;
             put_self (set_config
                         (set_advanced (set_vnc_port p (get_advanced (config v)))
                                       (config v)) v) ;;;
             save_config None ;;;
             ret p) ;;
  ret ["-vnc"; "127.0.0.1:" +:+ str_of_int (port - 5900)].

(** The graphics tokens. *)
Definition graphics_args (embed_window_id : option Z) : M St (list string) :=
  v <- get_self ;;
  let cfg := config v in
  let graphics := default "sdl" (graphics cfg) in
  let display_embed := default true (display_embed cfg) in
  if str_eqb graphics "none" then ret ["-nographic"]
  else if str_eqb graphics "sdl" then
    if display_embed && truthy_int embed_window_id
    then ret ["-display"; "sdl,window-id=" +:+ str_of_int (default 0 embed_window_id)]
    else ret ["-display"; "sdl"]
  else if str_eqb graphics "gtk" then ret ["-display"; "gtk"]
  else if str_eqb graphics "vnc" then vnc_args
  else ret ["-display"; graphics].

(** The network tokens. *)
Definition network_args (cfg : VMConfig) : list string :=
  let nm := default "user (NAT)" (network_mode cfg) in
  if String.prefix "user" nm
  then ["-netdev"; "user,id=net0"; "-device"; "virtio-net-pci,netdev=net0"]
  else if str_eqb nm "bridge"
  then ["-netdev";
        "tap,id=net0,ifname=" +:+ default "tap0" (tap_name (get_advanced cfg))
          +:+ ",script=no,downscript=no";
        "-device"; "virtio-net-pci,netdev=net0"]
  else if str_eqb nm "host-only"
  then ["-netdev"; "user,id=net0,restrict=on"; "-device"; "virtio-net-pci,netdev=net0"]
  else ["-net"; "none"].

(** The tokens after [-qmp]: firmware, extra arguments, debug log. *)
Definition tail_args (w : World) (vmname : string) (cfg : VMConfig) : list string :=
  (if truthy_bool (efi cfg) && truthy_str (ovmf_code (get_advanced cfg))
   then ["-bios"; default "" (ovmf_code (get_advanced cfg))] else [])
  ++ (if truthy_str (Some (default "" (extra_args cfg)))
      then split_ws (default "" (extra_args cfg)) else [])
  ++ ["-D"; path_join (logs_dir w vmname) (vmname +:+ ".log")].

(** [build_qemu_cmd] from [cfg = self.config] on: the command line is
    put together, [qemu] first.  [cfg] is the object [self.config] and not
    a copy of it, so the configuration is read again after every step that
    may have written to it. *)
Definition emit_cmd (qemu : string) (embed_window_id : option Z) : M St (list string) :=
  v <- get_self ;;
  let cmd1 := [qemu] ++ machine_to_boot_args (config v) in
  g <- graphics_args embed_window_id ;;
  v <- get_self ;;
  let cmd2 := cmd1 ++ g ++ network_args (config v) in
  port <- (if truthy_int (adv_qmp_port (get_advanced (config v)))
           then ret (default 0 (adv_qmp_port (get_advanced (config v))))
           else _allocate_qmp_port) ;;
  v <- get_self ;;
  w <- lift get ;;
  ret (cmd2
         ++ ["-qmp"; "tcp:127.0.0.1:" +:+ str_of_int port +:+ ",server,nowait"]
         ++ tail_args w (name v) (config v)).

(** [build_qemu_cmd(self, embed_window_id)] *)
Definition build_qemu_cmd (embed_window_id : option Z) : M St (list string) :=
  qemu <- lift find_qemu ;;
  if negb (truthy_str qemu) then raise HypervisorNotFound
  else
    ensure_primary_disk ;;;
    emit_cmd (default "" qemu) embed_window_id.

(** ** [VM]: the process *)

(** [p.poll()]: [None] while the process runs. *)
Definition poll (pid : nat) : M World (option Z) :=
  λ w, (inr (exited w !! pid), w).

(** [subprocess.Popen(cmd, ...)]: the handle of the new process. *)
Definition Popen (cmd : list string) : M World nat :=
  λ w, (inr (length (spawned w)), set_spawned (spawned w ++ [cmd]) w).

(** [threading.Thread(target=..., daemon=True).start()] *)
Definition start_thread (t : Task) : M World unit :=
  λ w, (inr tt, add_thread t w).

(** [self.proc and self.proc.poll() is None] *)
Definition is_running : M St bool :=
  v <- get_self ;;
  match proc v with
  | None => ret false
  | Some pid =>
      rc <- lift (poll pid) ;;
      ret (bool_decide (rc = None))
  end.

(** [start(self, embed_window_id, stdout_cb, stderr_cb, exit_cb)]; of a
    callback only its presence matters here. *)
Definition start (embed_window_id : option Z) (stdout_cb stderr_cb exit_cb : bool)
  : M St unit :=
  running <- is_running ;;
  if running then raise AlreadyRunning
  else
    cmd <- build_qemu_cmd embed_window_id ;;
    pid <- lift (Popen cmd) ;;
    v <- get_self ;;
    put_self (set_proc (Some pid) v) ;;;
    (if stdout_cb then lift (start_thread (ReadStdout pid)) else ret tt) ;;;
    (if stderr_cb then lift (start_thread (ReadStderr pid)) else ret tt) ;;;
    lift (start_thread (WaitProc pid exit_cb)) ;;;
    v <- get_self ;;
    put_self (set_qmp_port (adv_qmp_port (get_advanced (config v))) v) ;;;
    lift (start_thread ConnectQmp).

(** ** [VM]: the control protocol *)

(** A JSON value. *)
Inductive json : Type :=
  | JNull
  | JBool (b : bool)
  | JInt (n : Z)
  | JStr (s : string)
  | JList (l : list json)
  | JObj (fields : list (string * json)).

(** The library functions [qmp_command] calls: [json.dumps], [json.loads]
    ([None] when it raises) and [bytes.decode("utf-8", "ignore")].  A text
    is held as its UTF-8 bytes, so [str.encode("utf-8")] is the identity. *)
Record PyLib : Type := {
  json_dumps : json → string;
  json_loads : string → option json;
  decode_ignore : string → string;
}.

(** [sock.sendall(data)].  The first write after the peer has closed
    its end is accepted by the system like any other, and lost; the peer's
    answer to it is a reset, and from then on a write raises. *)
Definition sendall (s : nat) (data : string) : M World unit :=
  λ w, match sockets w !! s with
       | Some sk =>
           if connected sk
           then (inr tt,
                 set_sockets (<[s := {| connected := true; sent := sent sk ++ [data];
                                        inbox := inbox sk; reset := reset sk |}]>
                                (sockets w)) w)
           else if reset sk
           then (inl (OSError "Broken pipe"), w)
           else (inr tt,
                 set_sockets (<[s := {| connected := false; sent := sent sk ++ [data];
                                        inbox := inbox sk; reset := true |}]>
                                (sockets w)) w)
       | None => (inl (OSError "Bad file descriptor"), w)
       end.

(** [sock.recv(n)]: at most [n] bytes of what has arrived; nothing from a
    peer that is gone; a timeout when the peer stays silent. *)
Definition recv (s : nat) (n : nat) : M World string :=
  λ w, match sockets w !! s with
       | Some sk =>
           match inbox sk with
           | [] => if connected sk then (inl TimeoutError, w) else (inr "", w)
           | c :: rest =>
               let rest' :=
                 if (String.length c <=? n)%nat then rest
                 else substring n (String.length c - n) c :: rest in
               (inr (substring 0 n c),
                set_sockets (<[s := {| connected := connected sk; sent := sent sk;
                                       inbox := rest'; reset := reset sk |}]>
                               (sockets w)) w)
           end
       | None => (inl (OSError "Bad file descriptor"), w)
       end.

(** [json.loads(text)], which raises on a text that is not JSON. *)
Definition loads {S} (L : PyLib) (text : string) : M S json :=
  match json_loads L text with
  | Some j => ret j
  | None => raise JSONDecodeError
  end.

(** The buffer size [qmp_command] passes to [recv]. *)
Definition RECV_SIZE : nat := 65536.

(** [qmp_command(self, cmd_obj)] *)
Definition qmp_command (L : PyLib) (cmd_obj : json) : M St json :=
  v <- get_self ;;
  match qmp_sock v with
  | None => raise NotConnected
  | Some s =>
      let data := json_dumps L cmd_obj +:+ String "010" EmptyString in
      lift (sendall s data) ;;;
      raw <- lift (recv s RECV_SIZE) ;;
      let resp := decode_ignore L raw in
      catch (loads L resp) (λ _, ret (JObj [("raw", JStr resp)]))
  end.

(** ** [VM]: stopping

    [terminate] and [kill] send a signal to the child process; what the
    process does with it happens later and is not part of a call.  The
    state of these methods is that of the others together with the signals
    sent so far. *)

Inductive Signal : Type :=
  | SIGTERM
  | SIGKILL.

Record Sup : Type := {
  state : St;
  signals : list (nat * Signal);
}.

(** A method of the other kind, run from [stop] or [kill]. *)
Definition lift_st {A} (m : M St A) : M Sup A :=
  λ s, let '(r, st') := m (state s) in (r, {| state := st'; signals := signals s |}).

(** [Popen.send_signal(sig)]: the handle is polled first, and nothing is
    sent to a process that has exited. *)
Definition send_signal (pid : nat) (sig : Signal) : M Sup unit :=
  λ s, match exited (world (state s)) !! pid with
       | None => (inr tt, {| state := state s; signals := signals s ++ [(pid, sig)] |})
       | Some _ => (inr tt, s)
       end.

(** [stop(self)].  The [return] after the power-down request is the flag
    [sent]: the rest of the body runs only when it is false. *)
Definition stop (L : PyLib) : M Sup unit :=
  catch
    (v <- lift_st get_self ;;
     sent <- match qmp_sock v with
             | Some _ =>
                 catch
                   (lift_st (qmp_command L (JObj [("execute", JStr "system_powerdown")])) ;;;
                    ret true)
                   (λ _, ret false)
             | None => ret false
             end ;;
     if sent : bool then ret tt
     else
       v <- lift_st get_self ;;
       match proc v with
       | Some pid => send_signal pid SIGTERM
       | None => ret tt
       end)
    (λ _, ret tt).

(** [kill(self)] *)
Definition kill : M Sup unit :=
  v <- lift_st get_self ;;
  match proc v with
  | Some pid => send_signal pid SIGKILL
  | None => ret tt
  end.

(** ** The module's own directories *)

(** [BASE_DIR.mkdir(parents=True, exist_ok=True)] and the same for
    [VMS_DIR] and [EXPORTS_DIR], run when the module is loaded. *)
Definition module_init : M World unit :=
  w <- get ;;
  mkdir_p (BASE_DIR w) ;;;
  mkdir_p (VMS_DIR w) ;;;
  mkdir_p (EXPORTS_DIR w).

(** ** What the theorems speak of

    The notions the statements below are written with: the entry a disk
    creation registers, the condition that the ports are allocated, the
    members an export is expected to write and the paths an import writes
    to. *)

(** The text [qmp_command] writes for a command, and the value it returns
    for a response. *)
Definition qmp_line (L : PyLib) (cmd_obj : json) : string :=
  json_dumps L cmd_obj +:+ String "010" EmptyString.

Definition qmp_reply (L : PyLib) (raw : string) : json :=
  match json_loads L (decode_ignore L raw) with
  | Some j => j
  | None => JObj [("raw", JStr (decode_ignore L raw))]
  end.

(** The entry [create_disk] registers, and the VM object with it
    registered. *)
Definition new_spec (st : St) (dname fmt : string) : DiskSpec :=
  {| d_path := Some (path_join (disk_dir (world st) (name (self st))) dname);
     d_format := Some fmt |}.

Definition registered (st : St) (dname fmt : string) : VM :=
  set_config (set_disks (get_disks (config (self st)) ++ [new_spec st dname fmt])
                        (config (self st)))
             (self st).

(** The name and the arguments [ensure_primary_disk] passes on. *)
Definition primary_format (st : St) : string :=
  default "raw" (disk_format (config (self st))).

Definition primary_name (st : St) : string :=
  name (self st) +:+ "-disk0." +:+ primary_format st.

(** The ports the command needs are in [advanced]: the control port, and
    the VNC port when the graphics is [vnc]. *)
Definition ports_allocated (c : VMConfig) : Prop :=
  truthy_int (adv_qmp_port (get_advanced c)) = true
  ∧ (default "sdl" (graphics c) = "vnc" →
     truthy_int (vnc_port (get_advanced c)) = true).

(** The archive the claim describes, read off the file system [f] as it is
    before the export: for a registered disk, an entry under [disks/] when
    its file exists (the archive under construction is never an entry of
    itself), and no entry otherwise. *)
Definition disk_member (f : gmap string Node) (dest vmname : string) (d : DiskSpec)
  : option TarMember :=
  match d_path d with
  | None => None
  | Some p =>
      if str_eqb p dest then None
      else match f !! p with
           | Some nd => Some (vmname +:+ "/disks/" +:+ basename p, node_data nd)
           | None => None
           end
  end.

Fixpoint disk_members (f : gmap string Node) (dest vmname : string)
    (ds : list DiskSpec) : list TarMember :=
  match ds with
  | [] => []
  | d :: rest =>
      match disk_member f dest vmname d with
      | Some m => m :: disk_members f dest vmname rest
      | None => disk_members f dest vmname rest
      end
  end.

(** The entry under [iso/]: only when asked for, when an install medium is
    configured, and when its file exists. *)
Definition iso_members (f : gmap string Node) (dest vmname : string)
    (include_iso : bool) (c : VMConfig) : list TarMember :=
  if include_iso && truthy_str (iso_path c)
  then
    let iso := default "" (iso_path c) in
    if str_eqb iso dest then []
    else match f !! iso with
         | Some nd => [(vmname +:+ "/iso/" +:+ basename iso, node_data nd)]
         | None => []
         end
  else [].

(** The path a member is unpacked to, and the paths of the members that
    are regular files. *)
Definition member_target (root : string) (m : TarMember) : string :=
  os_path_join root m.1.

Definition file_targets (root : string) (ms : list TarMember) : list string :=
  member_target root <$> filter (λ m, is_Some m.2) ms.

(** ** What the theorems speak of, continued *)

(** [ensure_dir] on the file system: nothing when the path exists, the
    directory and its ancestors otherwise. *)
Definition with_dir (p : string) (f : gmap string Node) : gmap string Node :=
  if bool_decide (is_Some (f !! p)) then f else makedirs p f.

(** A regular file, a directory at [p]. *)
Definition is_file (f : gmap string Node) (p : string) : bool :=
  match f !! p with Some (File _) => true | _ => false end.

Definition is_dir (f : gmap string Node) (p : string) : bool :=
  match f !! p with Some Dir => true | _ => false end.

(** No proper ancestor of [p] is a regular file, so that [p] can be made
    with its parents. *)
Definition clear_above (f : gmap string Node) (p : string) : bool :=
  forallb (λ q, negb (is_file f q)) (parents p).

(** The components of a path, and a member name that stays under the
    directory it is unpacked in: relative, with no [..] component. *)
Fixpoint components_go (s cur : string) : list string :=
  match s with
  | EmptyString => [cur]
  | String c r =>
      if Ascii.eqb c "/" then cur :: components_go r ""
      else components_go r (cur +:+ String c EmptyString)
  end.

Definition components (s : string) : list string := components_go s "".

Definition stays_inside (s : string) : bool :=
  negb (String.prefix "/" s)
  && forallb (λ c, negb (str_eqb c "..")) (components s).

(** The members [ms] can be unpacked under [root] one after the other:
    none has a regular file for an ancestor, no file goes where a
    directory is, no directory where a file is. *)
Fixpoint unpacks (root : string) (f : gmap string Node) (ms : list TarMember) : bool :=
  match ms with
  | [] => true
  | m :: rest =>
      clear_above f (member_target root m)
      && (match m.2 with
          | Some _ => negb (is_dir f (member_target root m))
          | None => negb (is_file f (member_target root m))
          end)
      && unpacks root (extract_member root f m) rest
  end.

(** No regular file is at [p]. *)
Definition not_file (f : gmap string Node) (p : string) : Prop :=
  ∀ d, f !! p ≠ Some (File d).

(** A configuration without its [disks] and [advanced] objects: the keys
    whose values are numbers, texts and truth values, which no two
    configurations share. *)
Definition own_settings (c : VMConfig) : VMConfig :=
  set_disks [] (set_advanced empty_advanced c).

(** The VM object the constructor returns for a configuration. *)
Definition fresh_vm (n : string) (c : VMConfig) : VM :=
  {| name := n; config := c; proc := None; qmp_sock := None;
     qmp_port := None; display_window_id := None |}.

(** The file system once the three directories of [n] are ensured. *)
Definition with_layout (w : World) (n : string) : gmap string Node :=
  with_dir (logs_dir w n) (with_dir (disk_dir w n) (with_dir (vm_path w n) (fs w))).

(** The configuration in memory is the one on disk. *)
Definition synced (st : St) : Prop :=
  fs (world st) !! config_path (world st) (name (self st))
  = Some (File (FConfig (config (self st)))).

(** What a build may change: in the VM object the configuration only, and
    of it the [disks] and [advanced] keys only; in the world the file
    system and the free ports only. *)
Definition build_frame (st st' : St) : Prop :=
  self st' = set_config (config (self st')) (self st)
  ∧ world st' = set_free_ports (free_ports (world st'))
                  (set_fs (fs (world st')) (world st))
  ∧ set_disks [] (set_advanced empty_advanced (config (self st')))
    = set_disks [] (set_advanced empty_advanced (config (self st))).

(** The two port allocations of a build have one shape: take the port the
    system gives, store it in [advanced], save. *)
Definition alloc_step (setp : Z → Advanced → Advanced) : M St Z :=
  p <- lift bind_free_port ;;
  v <- get_self ;;
  put_self (set_config (set_advanced (setp p (get_advanced (config v))) (config v)) v) ;;;
  save_config None ;;;
  ret p.

(** The state after an allocation that returned port [p]. *)
Definition allocated (setp : Z → Advanced → Advanced) (p : Z) (st : St) : St :=
  let c := set_advanced (setp p (get_advanced (config (self st)))) (config (self st)) in
  {| self := set_config c (self st);
     world := set_fs (<[config_path (world st) (name (self st)) := File (FConfig c)]>
                        (fs (world st)))
                     (set_free_ports (tail (free_ports (world st))) (world st)) |}.

(** The command around the graphics tokens [g] and the QMP port. *)
Definition cmd_of (qemu : string) (cfg0 : VMConfig) (g : list string) (cfg1 : VMConfig)
    (port : Z) (st : St) : list string :=
  [qemu] ++ machine_to_boot_args cfg0 ++ g ++ network_args cfg1
  ++ ["-qmp"; "tcp:127.0.0.1:" +:+ str_of_int port +:+ ",server,nowait"]
  ++ tail_args (world st) (name (self st)) (config (self st)).

(** A configuration without its ports. *)
Definition strip_ports (c : VMConfig) : VMConfig :=
  set_advanced (set_adv_qmp_port 0 (set_vnc_port 0 (get_advanced c))) c.

(** The VM holds no process that is still running. *)
Definition stopped (st : St) : Prop :=
  ∀ pid, proc (self st) = Some pid → is_Some (exited (world st) !! pid).

(** The request [stop] makes. *)
Definition powerdown : json := JObj [("execute", JStr "system_powerdown")].

(** [self.proc.terminate()] when there is a process. *)
Definition terminate (s : Sup) : (exn + unit) * Sup :=
  match proc (self (state s)) with
  | Some pid => send_signal pid SIGTERM s
  | None => (inr tt, s)
  end.

(** A VM name that is one path component: not empty, not [.], no slash. *)
Definition plain_name (n : string) : Prop :=
  split_head n = n ∧ n ≠ "" ∧ n ≠ ".".

(** The archive [export_bundle] writes. *)
Definition exported_members (dest : string) (include_iso : bool) (st : St)
    (cdoc : FileData) : list TarMember :=
  (name (self st) +:+ "/config.json", Some cdoc)
  :: disk_members (fs (world st)) dest (name (self st)) (get_disks (config (self st)))
  ++ iso_members (fs (world st)) dest (name (self st)) include_iso (config (self st)).

(** ** Sample states

    A host with the hypervisor installed and an empty VM store, the same
    host without the hypervisor, and the VM [web01] freshly constructed on
    each of them. *)

Definition host : World := {|
  home := "/home/u";
  search_path := {[ "qemu-system-x86_64" := "/usr/bin/qemu-system-x86_64" ]};
  fs := makedirs "/home/u/.py86/exports" (makedirs "/home/u/.py86/vms" ∅);
  free_ports := [4444; 5901];
  utcnow := "2025-01-01T00:00:00";
  qemu_img_status := 0;
  spawned := [];
  exited := ∅;
  sockets := ∅;
  threads := [];
|}.

Definition bare_host : World := {|
  home := home host; search_path := ∅; fs := fs host;
  free_ports := free_ports host; utcnow := utcnow host;
  qemu_img_status := qemu_img_status host; spawned := spawned host;
  exited := exited host; sockets := sockets host; threads := threads host;
|}.

(** The state after [vm = VM(n)] on [w] (the state is left as it is when
    the constructor raises). *)
Definition construct (n : string) (w : World) : St :=
  let blank := {| name := n; config := DEFAULT_CONFIG; proc := None;
                  qmp_sock := None; qmp_port := None;
                  display_window_id := None |} in
  match VM_init n w with
  | (inr v, w') => {| self := v; world := w' |}
  | (inl _, w') => {| self := blank; world := w' |}
  end.

Definition web01 : St := Eval vm_compute in construct "web01" host.
Definition web01_bare : St := Eval vm_compute in construct "web01" bare_host.

(** [web01] once started. *)
Definition web01_started : St :=
  Eval vm_compute in (start None true true true web01).2.

(** A stand-in for the library, to run the examples: [dumps] prints with
    Python's separators (no escaping), [loads] reads back only the reply
    [{"return": {}}]. *)
Definition join_with (sep : string) (l : list string) : string :=
  match l with
  | [] => ""
  | x :: r => foldl (λ acc y, acc +:+ sep +:+ y) x r
  end.

Fixpoint sample_dumps (j : json) : string :=
  match j with
  | JNull => "null"
  | JBool b => if b then "true" else "false"
  | JInt n => str_of_int n
  | JStr s => String "034" s +:+ String "034" ""
  | JList l => "[" +:+ join_with ", " (map sample_dumps l) +:+ "]"
  | JObj fields =>
      "{" +:+ join_with ", "
                (map (λ kv : string * json,
                        String "034" kv.1 +:+ String "034" ": " +:+ sample_dumps kv.2)
                     fields) +:+ "}"
  end.

Definition sample_lib : PyLib := {|
  json_dumps := sample_dumps;
  json_loads := λ s, if str_eqb s (sample_dumps (JObj [("return", JObj [])]))
                     then Some (JObj [("return", JObj [])]) else None;
  decode_ignore := λ s, s;
|}.

(** [web01] with its control socket connected; the peer has answered once
    properly and once with two messages in one read. *)
Definition web01_ready : St := {|
  self := {| name := name (self web01_started); config := config (self web01_started);
             proc := proc (self web01_started); qmp_sock := Some 3%nat;
             qmp_port := qmp_port (self web01_started);
             display_window_id := None |};
  world := set_sockets
             {[ 3%nat := {| connected := true; sent := [];
                            inbox := ["{}{}"; sample_dumps (JObj [("return", JObj [])])];
                            reset := false |} ]}
             (world web01_started);
|}.

(** [web01] after its hypervisor has exited: the control socket is still
    the one of the handshake, and the peer has closed its end. *)
Definition web01_hung_up : St := {|
  self := self web01_ready;
  world := set_sockets
             {[ 3%nat := {| connected := false; sent := []; inbox := [];
                            reset := false |} ]}
             (world web01_started);
|}.

(** [cfg["graphics"] = g], as the settings form does. *)
Definition set_graphics (g : string) (c : VMConfig) : VMConfig := {|
  cfg_name := cfg_name c; created := created c; version := version c;
  cpu_cores := cpu_cores c; memory_mib := memory_mib c; disk_gib := disk_gib c;
  disk_format := disk_format c; efi := efi c; boot_order := boot_order c;
  iso_path := iso_path c; extra_args := extra_args c;
  network_mode := network_mode c; enable_kvm := enable_kvm c;
  graphics := Some g; display_embed := display_embed c;
  advanced := advanced c; disks := disks c;
  usb_passthrough := usb_passthrough c; nested_virt := nested_virt c;
  autostart := autostart c; vga := vga c;
|}.

(** [web01] switched to VNC graphics, after its command was built once:
    both ports are allocated and the primary disk is registered. *)
Definition web01_vnc : St :=
  Eval vm_compute in
    (build_qemu_cmd None
       {| self := set_config (set_graphics "vnc" (config (self web01))) (self web01);
          world := world web01 |}).2.

(** Another moment on the same host: same home directory and search path,
    but no free port left, nothing on the file system, a failing
    [qemu-img]. *)
Definition later (w : World) : World := {|
  home := home w; search_path := search_path w; fs := ∅;
  free_ports := []; utcnow := "2026-06-30T12:00:00";
  qemu_img_status := 1; spawned := spawned w ++ [["sleep"; "1"]];
  exited := exited w; sockets := sockets w; threads := threads w;
|}.

(** [web01] with a second disk registered whose file is not there, and an
    install medium configured that is not there either. *)
Definition set_iso_path (p : string) (c : VMConfig) : VMConfig := {|
  cfg_name := cfg_name c; created := created c; version := version c;
  cpu_cores := cpu_cores c; memory_mib := memory_mib c; disk_gib := disk_gib c;
  disk_format := disk_format c; efi := efi c; boot_order := boot_order c;
  iso_path := Some p; extra_args := extra_args c;
  network_mode := network_mode c; enable_kvm := enable_kvm c;
  graphics := graphics c; display_embed := display_embed c;
  advanced := advanced c; disks := disks c;
  usb_passthrough := usb_passthrough c; nested_virt := nested_virt c;
  autostart := autostart c; vga := vga c;
|}.

Definition web01_missing_disk : St :=
  Eval vm_compute in
    (save_config
       (Some (set_iso_path "/home/u/install.iso"
                (set_disks (get_disks (config (self web01_vnc))
                              ++ [{| d_path := Some "/home/u/.py86/vms/web01/disks/gone.raw";
                                     d_format := Some "raw" |}])
                           (config (self web01_vnc)))))
       web01_vnc).2.

(** [web01_vnc] exported, and a host with an empty VM store that has
    received the bundle, and an archive with no member. *)
Definition exported : St :=
  Eval vm_compute in
    (export_bundle "/home/u/.py86/exports/web01.tar.gz" false web01_vnc).2.

Definition bundle_file : Node :=
  Eval vm_compute in
    default Dir (fs (world exported) !! "/home/u/.py86/exports/web01.tar.gz").

Definition other_host : World :=
  Eval vm_compute in
    set_fs (<["/home/u/empty.tar.gz" := File (FTar [])]>
              (<["/home/u/web01.tar.gz" := bundle_file]> (fs host)))
           host.

(** ** Further sample states *)

(** A configuration as an older version wrote it, without the [disks]
    key; the store of [web01] holding such a document, and holding an
    empty file in its place. *)
Definition without_disks (c : VMConfig) : VMConfig := {|
  cfg_name := cfg_name c; created := created c; version := version c;
  cpu_cores := cpu_cores c; memory_mib := memory_mib c; disk_gib := disk_gib c;
  disk_format := disk_format c; efi := efi c; boot_order := boot_order c;
  iso_path := iso_path c; extra_args := extra_args c;
  network_mode := network_mode c; enable_kvm := enable_kvm c;
  graphics := graphics c; display_embed := display_embed c;
  advanced := advanced c; disks := None;
  usb_passthrough := usb_passthrough c; nested_virt := nested_virt c;
  autostart := autostart c; vga := vga c;
|}.

Definition legacy_store : World :=
  Eval vm_compute in
    set_fs (<["/home/u/.py86/vms/web01/config.json" :=
                File (FConfig (without_disks (config (self web01))))]>
              (fs (world web01)))
           (world web01).

Definition corrupt_store : World :=
  Eval vm_compute in
    set_fs (<["/home/u/.py86/vms/web01/config.json" := File (FSparse 0)]>
              (fs (world web01)))
           (world web01).

(** The VM the constructor makes for [web02] on [host]. *)
Definition web02_vm : VM :=
  {| name := "web02";
     config := set_identity "web02" "2025-01-01T00:00:00Z" DEFAULT_CONFIG;
     proc := None; qmp_sock := None; qmp_port := None; display_window_id := None |}.

(** [web01] on a host that has [qemu-img], with the exit status of its
    runs. *)
Definition with_qemu_img (status : Z) (w : World) : World := {|
  home := home w;
  search_path := <["qemu-img" := "/usr/bin/qemu-img"]> (search_path w);
  fs := fs w; free_ports := free_ports w; utcnow := utcnow w;
  qemu_img_status := status; spawned := spawned w;
  exited := exited w; sockets := sockets w; threads := threads w;
|}.

Definition web01_img : St :=
  Eval vm_compute in {| self := self web01; world := with_qemu_img 0 (world web01) |}.

Definition web01_img_broken : St :=
  Eval vm_compute in {| self := self web01; world := with_qemu_img 1 (world web01) |}.

(** The command the first build of [web01] returns. *)
Definition web01_cmd : list string :=
  Eval vm_compute in
    match (build_qemu_cmd None web01).1 with
    | inr c => c
    | inl _ => []
    end.

(** [web01] after its configuration file was removed. *)
Definition web01_unsaved : St :=
  Eval vm_compute in {| self := self web01; world := host |}.

(** A host that has received an archive made from [./web01]. *)
Definition dot_bundle_host : World :=
  Eval vm_compute in
    set_fs (<["/home/u/dot.tar.gz" :=
                File (FTar [("./web01/config.json", Some (FConfig DEFAULT_CONFIG))])]>
              (fs host))
           host.

(** A state with no signal sent yet. *)
Definition supervised (st : St) : Sup := {| state := st; signals := [] |}.

(** * Theorems *)

(** ** Stepping through the monad *)

Lemma st_eta (st : St) : {| self := self st; world := world st |} = st.
Proof. by destruct st. Qed.

Lemma find_qemu_in_world (cs : list string) (w : World) :
  (find_qemu_in cs w).2 = w.
Proof.
  induction cs as [|c cs IH]; simpl; [done|].
  unfold bind, which. simpl.
  destruct (truthy_str (search_path w !! c)); [done|apply IH].
Qed.

Lemma find_qemu_world (w : World) : (find_qemu w).2 = w.
Proof. apply find_qemu_in_world. Qed.

(** ** The hypervisor is resolved first *)

(** C2: when no hypervisor binary is found on the search path,
    [build_qemu_cmd] raises [HypervisorNotFound] and leaves the whole state
    as it was: the VM object (its configuration and its list of disks
    included) and the world (the file system with the persisted
    configuration, the free ports, the processes, the sockets). *)
Theorem build_hypervisor_not_found (embed_window_id : option Z) (st : St) :
  (find_qemu (world st)).1 = inr None →
  build_qemu_cmd embed_window_id st = (inl HypervisorNotFound, st).
Proof.
  intros Hq. unfold build_qemu_cmd, bind, lift.
  pose proof (find_qemu_world (world st)) as Hw.
  destruct (find_qemu (world st)) as [r w]. simpl in Hq, Hw. subst r w.
  simpl. unfold raise. by rewrite st_eta.
Qed.

Lemma build_hypervisor_not_found_witness :
  (find_qemu (world web01_bare)).1 = inr None
  ∧ build_qemu_cmd (Some 77) web01_bare = (inl HypervisorNotFound, web01_bare).
Proof.
  split; [reflexivity|].
  apply (build_hypervisor_not_found (Some 77) web01_bare). reflexivity.
Defined.

(** ** A running VM is not started twice *)

(** C3: when the VM holds the handle of a process that has not exited,
    [start] raises [AlreadyRunning] and the state is unchanged: no process
    is spawned, the handle and the configuration stay as they were. *)
Theorem start_already_running
    (embed_window_id : option Z) (stdout_cb stderr_cb exit_cb : bool)
    (st : St) (pid : nat) :
  proc (self st) = Some pid →
  exited (world st) !! pid = None →
  start embed_window_id stdout_cb stderr_cb exit_cb st = (inl AlreadyRunning, st).
Proof.
  intros Hp Hlive. unfold start, is_running, bind, get_self, lift, poll.
  simpl. rewrite Hp. simpl. rewrite Hlive. simpl.
  unfold raise. by rewrite st_eta.
Qed.

Lemma start_already_running_witness :
  proc (self web01_started) = Some 0%nat
  ∧ exited (world web01_started) !! 0%nat = None
  ∧ start (Some 77) true false true web01_started = (inl AlreadyRunning, web01_started).
Proof.
  split; [reflexivity|]. split; [reflexivity|].
  apply (start_already_running (Some 77) true false true web01_started 0);
    reflexivity.
Defined.

(** ** The control protocol *)

Lemma substring_all (s : string) (n : nat) :
  (String.length s ≤ n)%nat → substring 0 n s = s.
Proof.
  revert n. induction s as [|c s IH]; intros [|n] Hn; simpl in *; try done; try lia.
  f_equal. apply IH. lia.
Qed.

Lemma sendall_connected (s : nat) (data : string) (w : World) (sk : Sock) :
  sockets w !! s = Some sk →
  connected sk = true →
  sendall s data w =
    (inr tt,
     set_sockets (<[s := {| connected := true; sent := sent sk ++ [data];
                            inbox := inbox sk; reset := reset sk |}]> (sockets w)) w).
Proof. intros Hs Hc. unfold sendall. by rewrite Hs, Hc. Qed.

Lemma recv_whole (s n : nat) (w : World) (sk : Sock) (chunk : string)
    (rest : list string) :
  sockets w !! s = Some sk →
  inbox sk = chunk :: rest →
  (String.length chunk ≤ n)%nat →
  recv s n w =
    (inr chunk,
     set_sockets (<[s := {| connected := connected sk; sent := sent sk;
                            inbox := rest; reset := reset sk |}]> (sockets w)) w).
Proof.
  intros Hs Hin Hlen. unfold recv. rewrite Hs, Hin.
  rewrite substring_all by done.
  destruct (Nat.leb_spec (String.length chunk) n); [done|lia].
Qed.

(** [sendall] raises nothing but [OSError]; when it returns, the socket
    is there and the text is the last it was given to write. *)
Lemma sendall_raises (s : nat) (data : string) (w : World) (e : exn) :
  (sendall s data w).1 = inl e → ∃ m, e = OSError m.
Proof.
  unfold sendall. destruct (sockets w !! s) as [sk|]; [|intros [= <-]; eauto].
  destruct (connected sk); [done|]. destruct (reset sk); [|done].
  intros [= <-]. eauto.
Qed.

Lemma sendall_returns (s : nat) (data : string) (w : World) :
  (sendall s data w).1 = inr tt →
  ∃ sk sk', sockets w !! s = Some sk
            ∧ sockets (sendall s data w).2 !! s = Some sk'
            ∧ sent sk' = sent sk ++ [data].
Proof.
  unfold sendall. destruct (sockets w !! s) as [sk|]; [|done].
  destruct (connected sk); [|destruct (reset sk); [done|]];
    intros _; exists sk; eexists; cbn [snd sockets set_sockets];
    rewrite lookup_insert_eq; done.
Qed.

(** [recv] raises [TimeoutError] or [OSError], and writes nothing. *)
Lemma recv_raises (s n : nat) (w : World) (e : exn) :
  (recv s n w).1 = inl e → e = TimeoutError ∨ ∃ m, e = OSError m.
Proof.
  unfold recv. destruct (sockets w !! s) as [sk|]; [|intros [= <-]; eauto].
  destruct (inbox sk); [|done]. destruct (connected sk); [|done].
  intros [= <-]. auto.
Qed.

Lemma recv_sent (s n : nat) (w : World) (sk : Sock) :
  sockets w !! s = Some sk →
  ∃ sk', sockets (recv s n w).2 !! s = Some sk' ∧ sent sk' = sent sk.
Proof.
  intros Hs. unfold recv. rewrite Hs.
  destruct (inbox sk); [destruct (connected sk); by exists sk|].
  eexists. cbn [snd sockets set_sockets]. by rewrite lookup_insert_eq.
Qed.

(** [qmp_command], by stages. *)
Lemma qmp_command_cases (L : PyLib) (cmd_obj : json) (st : St) :
  qmp_command L cmd_obj st
  = match qmp_sock (self st) with
    | None => (inl NotConnected, st)
    | Some s =>
        match sendall s (qmp_line L cmd_obj) (world st) with
        | (inl e, w1) => (inl e, {| self := self st; world := w1 |})
        | (inr _, w1) =>
            match recv s RECV_SIZE w1 with
            | (inl e, w2) => (inl e, {| self := self st; world := w2 |})
            | (inr raw, w2) =>
                (inr (qmp_reply L raw), {| self := self st; world := w2 |})
            end
        end
    end.
Proof.
  unfold qmp_command, bind, get_self, lift, raise. fold (qmp_line L cmd_obj).
  destruct (qmp_sock (self st)) as [s|]; [|done].
  destruct (sendall s (qmp_line L cmd_obj) (world st)) as [[e|[]] w1]; [done|].
  change (world {| self := self st; world := w1 |}) with w1.
  change (self {| self := self st; world := w1 |}) with (self st).
  destruct (recv s RECV_SIZE w1) as [[e|raw] w2]; [done|].
  unfold catch, loads, ret, raise, qmp_reply.
  by destruct (json_loads L (decode_ignore L raw)).
Qed.

(** C8 (as amended): [qmp_command] raises [NotConnected] exactly when no
    control socket was ever set ([qmp_sock] is [None]), and then changes
    nothing, so nothing is sent; the connection having been lost since the
    handshake does not make it raise [NotConnected].  With a connected
    socket on which one response has arrived, it writes exactly one
    message, the JSON text of the command followed by a newline, takes
    that one response off the socket and returns the parsed response, or
    [{"raw": response}] when the response does not parse.  On a socket the
    peer has closed since the handshake it writes the message all the
    same, reads the empty response of the closed connection and returns
    what that gives.  When the peer stays silent the message is written
    and the read times out; once a write has been answered by a reset,
    the call raises [OSError] and writes nothing.  No call raises a parse
    error, and every call that returns has written exactly one
    message. *)
Theorem qmp_command_contract (L : PyLib) (cmd_obj : json) (st : St) :
  ((qmp_command L cmd_obj st).1 = inl NotConnected ↔ qmp_sock (self st) = None)
  ∧ (qmp_sock (self st) = None →
     qmp_command L cmd_obj st = (inl NotConnected, st))
  ∧ (∀ (s : nat) (sk : Sock) (chunk : string) (rest : list string),
       qmp_sock (self st) = Some s →
       sockets (world st) !! s = Some sk →
       connected sk = true →
       inbox sk = chunk :: rest →
       (String.length chunk ≤ RECV_SIZE)%nat →
       qmp_command L cmd_obj st =
         (inr match json_loads L (decode_ignore L chunk) with
              | Some j => j
              | None => JObj [("raw", JStr (decode_ignore L chunk))]
              end,
          {| self := self st;
             world := set_sockets
                        (<[s := {| connected := true;
                                   sent := sent sk ++ [json_dumps L cmd_obj
                                                         +:+ String "010" EmptyString];
                                   inbox := rest; reset := reset sk |}]>
                           (sockets (world st)))
                        (world st) |}))
  ∧ (∀ (s : nat) (sk : Sock),
       qmp_sock (self st) = Some s →
       sockets (world st) !! s = Some sk →
       connected sk = false →
       reset sk = false →
       inbox sk = [] →
       qmp_command L cmd_obj st =
         (inr match json_loads L (decode_ignore L "") with
              | Some j => j
              | None => JObj [("raw", JStr (decode_ignore L ""))]
              end,
          {| self := self st;
             world := set_sockets
                        (<[s := {| connected := false;
                                   sent := sent sk ++ [json_dumps L cmd_obj
                                                         +:+ String "010" EmptyString];
                                   inbox := []; reset := true |}]>
                           (sockets (world st)))
                        (world st) |}))
  ∧ (∀ (s : nat) (sk : Sock),
       qmp_sock (self st) = Some s →
       sockets (world st) !! s = Some sk →
       connected sk = true →
       inbox sk = [] →
       qmp_command L cmd_obj st =
         (inl TimeoutError,
          {| self := self st;
             world := set_sockets
                        (<[s := {| connected := true;
                                   sent := sent sk ++ [json_dumps L cmd_obj
                                                         +:+ String "010" EmptyString];
                                   inbox := []; reset := reset sk |}]>
                           (sockets (world st)))
                        (world st) |}))
  ∧ (∀ (s : nat) (sk : Sock),
       qmp_sock (self st) = Some s →
       sockets (world st) !! s = Some sk →
       connected sk = false →
       reset sk = true →
       qmp_command L cmd_obj st = (inl (OSError "Broken pipe"), st))
  ∧ (qmp_command L cmd_obj st).1 ≠ inl JSONDecodeError
  ∧ (∀ j, (qmp_command L cmd_obj st).1 = inr j →
          ∃ s sk sk',
            qmp_sock (self st) = Some s
            ∧ sockets (world st) !! s = Some sk
            ∧ sockets (world (qmp_command L cmd_obj st).2) !! s = Some sk'
            ∧ sent sk' = sent sk ++ [json_dumps L cmd_obj +:+ String "010" EmptyString]).
Proof.
  assert (Hnot : ∀ e, qmp_sock (self st) ≠ None →
                      (qmp_command L cmd_obj st).1 = inl e →
                      e = TimeoutError ∨ ∃ m, e = OSError m).
  { intros e Hq. rewrite qmp_command_cases.
    destruct (qmp_sock (self st)) as [s|]; [|done].
    pose proof (sendall_raises s (qmp_line L cmd_obj) (world st)) as H1.
    destruct (sendall s (qmp_line L cmd_obj) (world st)) as [[e1|[]] w1].
    - intros [= <-]. right. by apply H1.
    - pose proof (recv_raises s RECV_SIZE w1) as H2.
      destruct (recv s RECV_SIZE w1) as [[e2|raw] w2]; [|done].
      intros [= <-]. by apply H2. }
  split; [|split; [|split; [|split; [|split; [|split; [|split]]]]]].
  - split.
    + intros He. destruct (qmp_sock (self st)) as [s|] eqn:Hq; [|done].
      destruct (Hnot _ ltac:(done) He) as [H|[m H]]; discriminate H.
    + intros Hq. rewrite qmp_command_cases. by rewrite Hq.
  - intros Hq. rewrite qmp_command_cases. by rewrite Hq.
  - intros s sk chunk rest Hs Hsk Hc Hin Hlen.
    rewrite qmp_command_cases, Hs. unfold qmp_line.
    rewrite (sendall_connected _ _ _ sk) by done.
    erewrite recv_whole; [| apply lookup_insert_eq | exact Hin | exact Hlen ].
    cbn [sockets set_sockets connected sent reset]. rewrite insert_insert_eq.
    reflexivity.
  - intros s sk Hs Hsk Hc Hr Hin.
    rewrite qmp_command_cases, Hs. unfold qmp_line, sendall.
    rewrite Hsk, Hc, Hr, Hin. unfold recv.
    cbn [sockets set_sockets]. rewrite lookup_insert_eq.
    cbn [inbox connected]. reflexivity.
  - intros s sk Hs Hsk Hc Hin.
    rewrite qmp_command_cases, Hs. unfold qmp_line.
    rewrite (sendall_connected _ _ _ sk) by done. unfold recv.
    cbn [sockets set_sockets]. rewrite lookup_insert_eq.
    cbn [inbox connected]. rewrite Hin. reflexivity.
  - intros s sk Hs Hsk Hc Hr.
    rewrite qmp_command_cases, Hs. unfold sendall.
    rewrite Hsk, Hc, Hr. by rewrite st_eta.
  - intros He. destruct (qmp_sock (self st)) as [s|] eqn:Hq.
    + destruct (Hnot _ ltac:(done) He) as [H|[m H]]; discriminate H.
    + rewrite qmp_command_cases, Hq in He. discriminate He.
  - intros j. rewrite qmp_command_cases.
    destruct (qmp_sock (self st)) as [s|]; [|done].
    pose proof (sendall_returns s (qmp_line L cmd_obj) (world st)) as H1.
    destruct (sendall s (qmp_line L cmd_obj) (world st)) as [[e1|[]] w1]; [done|].
    destruct (H1 eq_refl) as (sk & sk1 & Hsk & Hsk1 & Hsent). cbn [snd] in Hsk1.
    destruct (recv_sent s RECV_SIZE w1 sk1 Hsk1) as (sk2 & Hsk2 & Hsent2).
    destruct (recv s RECV_SIZE w1) as [[e2|raw] w2]; [done|].
    intros _. exists s, sk, sk2. cbn [snd] in Hsk2.
    split; [done|]. split; [done|]. split; [done|]. by rewrite Hsent2.
Qed.

Lemma qmp_command_contract_witness :
  qmp_command sample_lib (JObj [("execute", JStr "stop")]) web01_started
    = (inl NotConnected, web01_started)
  ∧ (qmp_command sample_lib (JObj [("execute", JStr "stop")]) web01_ready).1
    = inr (JObj [("raw", JStr "{}{}")]).
Proof.
  pose proof (qmp_command_contract sample_lib (JObj [("execute", JStr "stop")])
                web01_started) as (_ & Hnone & _).
  pose proof (qmp_command_contract sample_lib (JObj [("execute", JStr "stop")])
                web01_ready) as (_ & _ & Hready & _).
  split; [apply Hnone; reflexivity|].
  rewrite (Hready 3%nat
             {| connected := true; sent := [];
                inbox := ["{}{}"; sample_dumps (JObj [("return", JObj [])])];
                reset := false |}
             "{}{}" [sample_dumps (JObj [("return", JObj [])])]);
    [reflexivity|reflexivity|reflexivity|reflexivity|reflexivity|].
  apply Nat.leb_le. reflexivity.
Defined.

(** The claim as the specification words it fails where the connection
    was lost after the handshake: on [web01_hung_up] no connection is
    ready, and yet the call does not raise [NotConnected]; it writes the
    command to the socket and returns [{"raw": ""}]. *)
Lemma qmp_command_after_hang_up :
  (∃ sk, qmp_sock (self web01_hung_up) = Some 3%nat
         ∧ sockets (world web01_hung_up) !! 3%nat = Some sk
         ∧ connected sk = false)
  ∧ (qmp_command sample_lib (JObj [("execute", JStr "stop")]) web01_hung_up).1
    = inr (JObj [("raw", JStr "")])
  ∧ (∃ sk', sockets (world (qmp_command sample_lib (JObj [("execute", JStr "stop")])
                             web01_hung_up).2) !! 3%nat = Some sk'
            ∧ sent sk' = [sample_dumps (JObj [("execute", JStr "stop")])
                            +:+ String "010" EmptyString]).
Proof.
  split; [eexists; split; [reflexivity|split; [vm_compute; reflexivity|reflexivity]]|].
  split; [vm_compute; reflexivity|].
  eexists. split; [vm_compute; reflexivity|reflexivity].
Qed.

(** ** Disks *)

Ltac unfold_m :=
  unfold bind, ret, raise, catch, lift, get, put, get_self, put_self in *.

(** Closes a side condition on a concrete state by evaluation. *)
Ltac by_compute :=
  lazymatch goal with
  | |- is_Some _ => vm_compute; eexists; reflexivity
  | |- _ = _ => vm_compute; reflexivity
  | |- _ ≠ _ => vm_compute; let H := fresh in intros H; discriminate H
  | |- _ → _ => intros ?; by_compute
  | |- _ => lia
  end.

(** [create_disk] leaves the VM object as it was when it fails before the
    registration, and with the new entry last in [disks] otherwise; when
    it returns, the entry is registered. *)
Lemma create_disk_self (dname : string) (gib : Z) (fmt : string) (st : St) :
  ((create_disk dname gib fmt st).1 ≠ inr tt
   ∧ self (create_disk dname gib fmt st).2 = self st)
  ∨ self (create_disk dname gib fmt st).2 = registered st dname fmt.
Proof.
  unfold create_disk, save_config, write_config, which, run_qemu_img_create,
    open_w, truncate, write_file, registered, new_spec.
  unfold_m. simpl.
  repeat (case_match; simpl in *; simplify_eq; auto).
Qed.

Lemma create_disk_returns (dname : string) (gib : Z) (fmt : string) (st : St) :
  (create_disk dname gib fmt st).1 = inr tt →
  self (create_disk dname gib fmt st).2 = registered st dname fmt.
Proof.
  intros Hr. destruct (create_disk_self dname gib fmt st) as [[Hne _]|H]; [|done].
  by destruct Hne.
Qed.

(** When [create_disk] returns, there is a file at the target. *)
Lemma create_disk_file (dname : string) (gib : Z) (fmt : string) (st : St) :
  (create_disk dname gib fmt st).1 = inr tt →
  is_Some (fs (world (create_disk dname gib fmt st).2)
             !! path_join (disk_dir (world st) (name (self st))) dname).
Proof.
  unfold create_disk, save_config, write_config, which, run_qemu_img_create,
    open_w, truncate, write_file.
  unfold_m. simpl.
  repeat (case_match; simpl in *; simplify_eq; try done);
    intros _; repeat first [rewrite lookup_insert_is_Some' | progress simpl];
    auto 6.
Qed.

Lemma create_disk_length (dname : string) (gib : Z) (fmt : string) (st : St) :
  get_disks (config (self st)) = [] →
  (length (get_disks (config (self (create_disk dname gib fmt st).2))) ≤ 1)%nat.
Proof.
  intros He. destruct (create_disk_self dname gib fmt st) as [[_ H]|H]; rewrite H.
  - rewrite He. simpl. lia.
  - unfold registered. simpl. unfold get_disks at 1. simpl. rewrite He. simpl. lia.
Qed.

Lemma ensure_primary_disk_empty (st : St) :
  get_disks (config (self st)) = [] →
  ensure_primary_disk st
  = create_disk (primary_name st) (default 32 (disk_gib (config (self st))))
                (primary_format st) st.
Proof.
  intros He. unfold ensure_primary_disk. unfold_m. by rewrite He.
Qed.

Lemma ensure_primary_disk_nonempty (st : St) :
  get_disks (config (self st)) ≠ [] →
  ensure_primary_disk st = (inr tt, st).
Proof.
  intros Hne. unfold ensure_primary_disk. unfold_m.
  destruct (get_disks (config (self st))); [done|reflexivity].
Qed.

(** C6: [ensure_primary_disk] does nothing when [disks] is not empty: it
    returns and the VM object, the configuration and the file system are
    unchanged.  When [disks] is empty and it returns, [disks] holds exactly
    one entry, the primary disk, and there is a file at its path.  Whatever the outcomes, after one call and
    after a second one [disks] holds at most one entry, and a second call
    after a first one that returned changes nothing. *)
Theorem ensure_primary_disk_idempotent (st : St) :
  (get_disks (config (self st)) ≠ [] → ensure_primary_disk st = (inr tt, st))
  ∧ (get_disks (config (self st)) = [] →
     (ensure_primary_disk st).1 = inr tt →
     get_disks (config (self (ensure_primary_disk st).2))
     = [new_spec st (primary_name st) (primary_format st)]
     ∧ is_Some (fs (world (ensure_primary_disk st).2)
                  !! path_join (disk_dir (world st) (name (self st)))
                       (primary_name st)))
  ∧ (get_disks (config (self st)) = [] →
     (length (get_disks (config (self (ensure_primary_disk st).2))) ≤ 1)%nat
     ∧ (length (get_disks (config (self
          (ensure_primary_disk (ensure_primary_disk st).2).2))) ≤ 1)%nat)
  ∧ ((ensure_primary_disk st).1 = inr tt →
     ensure_primary_disk (ensure_primary_disk st).2
     = (inr tt, (ensure_primary_disk st).2)).
Proof.
  assert (Hone : get_disks (config (self st)) = [] →
                 (length (get_disks (config (self (ensure_primary_disk st).2))) ≤ 1)%nat).
  { intros He. rewrite ensure_primary_disk_empty by done.
    by apply create_disk_length. }
  assert (Hreg : get_disks (config (self st)) = [] →
                 (ensure_primary_disk st).1 = inr tt →
                 get_disks (config (self (ensure_primary_disk st).2))
                 = [new_spec st (primary_name st) (primary_format st)]).
  { intros He Hr. rewrite ensure_primary_disk_empty in * by done.
    rewrite create_disk_returns by done.
    unfold registered. simpl. unfold get_disks at 1. simpl. by rewrite He. }
  split; [apply ensure_primary_disk_nonempty|].
  split.
  { intros He Hr. split; [by apply Hreg|].
    rewrite ensure_primary_disk_empty in * by done. by apply create_disk_file. }
  split.
  - intros He. split; [by apply Hone|].
    pose proof (Hone He) as H1.
    assert (Hd : get_disks (config (self (ensure_primary_disk st).2)) = []
                 ∨ get_disks (config (self (ensure_primary_disk st).2)) ≠ [])
      by (destruct (get_disks (config (self (ensure_primary_disk st).2))); auto).
    destruct Hd as [Hd|Hd].
    + rewrite (ensure_primary_disk_empty _ Hd). by apply create_disk_length.
    + rewrite (ensure_primary_disk_nonempty _ Hd). exact H1.
  - intros Hr. apply ensure_primary_disk_nonempty.
    destruct (get_disks (config (self st))) eqn:He.
    + rewrite Hreg by done. done.
    + rewrite (ensure_primary_disk_nonempty st) by (by rewrite He).
      simpl. by rewrite He.
Qed.

Lemma ensure_primary_disk_idempotent_witness :
  ensure_primary_disk (ensure_primary_disk web01).2
    = (inr tt, (ensure_primary_disk web01).2)
  ∧ get_disks (config (self (ensure_primary_disk web01).2))
    = [{| d_path := Some "/home/u/.py86/vms/web01/disks/web01-disk0.raw";
          d_format := Some "raw" |}]
  ∧ (length (get_disks (config (self
       (ensure_primary_disk (ensure_primary_disk web01).2).2))) ≤ 1)%nat.
Proof.
  pose proof (ensure_primary_disk_idempotent web01) as (_ & Hreg & Hlen & Hagain).
  split; [apply Hagain; reflexivity|].
  split; [apply Hreg; reflexivity|].
  apply Hlen. reflexivity.
Defined.

(** *** Paths *)

Lemma append_cons (x : ascii) (a b : string) :
  String x a +:+ b = String x (a +:+ b).
Proof. reflexivity. Qed.

Lemma append_nil_r (a : string) : a +:+ "" = a.
Proof.
  induction a as [|x a IH]; [done|]. rewrite append_cons. by rewrite IH.
Qed.

Lemma append_ne_l (a b : string) : b ≠ "" → a +:+ b ≠ a.
Proof.
  intros Hb H. apply Hb, (inj (String.append a)). by rewrite append_nil_r.
Qed.

Lemma dirname_go_append (a b : string) :
  dirname_go b = None → dirname_go (a +:+ String "/" b) = Some a.
Proof.
  intros Hb. induction a as [|x a IH].
  - change (dirname_go (String "/" b) = Some ""). simpl. by rewrite Hb.
  - rewrite append_cons. simpl. by rewrite IH.
Qed.

Lemma dirname_append (a b : string) :
  dirname_go b = None → dirname (a +:+ String "/" b) = a.
Proof. intros Hb. unfold dirname. by rewrite dirname_go_append. Qed.

Lemma open_w_ok (p : string) (w : World) :
  fs w !! p ≠ Some Dir →
  fs w !! dirname p = Some Dir →
  open_w p w = (inr tt, set_fs (<[p := File (FSparse 0)]> (fs w)) w).
Proof.
  intros Hp Hd. unfold open_w. rewrite Hd.
  destruct (fs w !! p) as [[|d]|]; done.
Qed.

Lemma truncate_ok (p : string) (size : Z) (w : World) :
  0 ≤ size < 2 ^ 63 →
  truncate p size w = (inr tt, set_fs (<[p := File (FSparse size)]> (fs w)) w).
Proof.
  intros [H0 H1]. unfold truncate.
  destruct (Z.ltb_spec size 0); [lia|].
  destruct (Z.leb_spec (2 ^ 63) size); [lia|].
  reflexivity.
Qed.

Lemma write_config_ok (n : string) (c : VMConfig) (w : World) :
  fs w !! config_path w n ≠ Some Dir →
  fs w !! dirname (config_path w n) = Some Dir →
  write_config n c w
  = (inr tt, set_fs (<[config_path w n := File (FConfig c)]> (fs w)) w).
Proof.
  intros Hp Hd. unfold write_config. unfold_m.
  rewrite open_w_ok by done. unfold write_file. simpl.
  by rewrite insert_insert_eq.
Qed.

(** [create_disk] on its [truncate] branch (format [raw], or no [qemu-img]
    at hand), in a VM directory that is in place: it returns, the sparse
    file has the requested size, the entry is registered and the
    configuration is saved with it. *)
Lemma create_disk_sparse (dname : string) (gib : Z) (fmt : string) (st : St) :
  truthy_str (search_path (world st) !! "qemu-img") && negb (str_eqb fmt "raw") = false →
  0 ≤ gib * 1024 ^ 3 < 2 ^ 63 →
  fs (world st) !! path_join (disk_dir (world st) (name (self st))) dname ≠ Some Dir →
  fs (world st) !! dirname (path_join (disk_dir (world st) (name (self st))) dname)
    = Some Dir →
  fs (world st) !! config_path (world st) (name (self st)) ≠ Some Dir →
  fs (world st) !! dirname (config_path (world st) (name (self st))) = Some Dir →
  path_join (disk_dir (world st) (name (self st))) dname
    ≠ config_path (world st) (name (self st)) →
  path_join (disk_dir (world st) (name (self st))) dname
    ≠ dirname (config_path (world st) (name (self st))) →
  create_disk dname gib fmt st
  = (inr tt,
     {| self := registered st dname fmt;
        world :=
          set_fs (<[config_path (world st) (name (self st)) :=
                      File (FConfig (config (registered st dname fmt)))]>
                    (<[path_join (disk_dir (world st) (name (self st))) dname :=
                         File (FSparse (gib * 1024 ^ 3))]> (fs (world st))))
                 (world st) |}).
Proof.
  intros Hbr Hsz Ht Htd Hc Hcd Hne1 Hne2.
  unfold create_disk, save_config. unfold_m. unfold which. simpl.
  rewrite Hbr. rewrite open_w_ok by done. simpl.
  rewrite truncate_ok by done. simpl.
  rewrite insert_insert_eq.
  rewrite write_config_ok.
  - reflexivity.
  - simpl. change (config_path _ _) with (config_path (world st) (name (self st))).
    by rewrite lookup_insert_ne.
  - simpl. change (config_path _ _) with (config_path (world st) (name (self st))).
    by rewrite lookup_insert_ne.
Qed.

Lemma append_assoc (a b c : string) : (a +:+ b) +:+ c = a +:+ (b +:+ c).
Proof.
  induction a as [|x a IH]; [done|]. rewrite !append_cons. by rewrite IH.
Qed.

(** C1 (as amended): when [qemu-img] is not on the search path,
    [create_disk] does not fail, whatever the format asked for: in a VM
    directory that is in place and for a size in range, it returns, leaves
    at the target a sparse file of [gib * 2^30] bytes, registers the entry
    with the target path and the format asked for, and saves the
    configuration. *)
Theorem create_disk_without_qemu_img
    (dname : string) (gib : Z) (fmt : string) (st : St) :
  search_path (world st) !! "qemu-img" = None →
  0 ≤ gib < 2 ^ 33 →
  fs (world st) !! path_join (disk_dir (world st) (name (self st))) dname ≠ Some Dir →
  fs (world st) !! dirname (path_join (disk_dir (world st) (name (self st))) dname)
    = Some Dir →
  fs (world st) !! config_path (world st) (name (self st)) ≠ Some Dir →
  fs (world st) !! dirname (config_path (world st) (name (self st))) = Some Dir →
  path_join (disk_dir (world st) (name (self st))) dname
    ≠ config_path (world st) (name (self st)) →
  path_join (disk_dir (world st) (name (self st))) dname
    ≠ dirname (config_path (world st) (name (self st))) →
  (create_disk dname gib fmt st).1 = inr tt
  ∧ fs (world (create_disk dname gib fmt st).2)
      !! path_join (disk_dir (world st) (name (self st))) dname
    = Some (File (FSparse (gib * 2 ^ 30)))
  ∧ get_disks (config (self (create_disk dname gib fmt st).2))
    = get_disks (config (self st))
        ++ [{| d_path := Some (path_join (disk_dir (world st) (name (self st))) dname);
               d_format := Some fmt |}]
  ∧ fs (world (create_disk dname gib fmt st).2)
      !! config_path (world st) (name (self st))
    = Some (File (FConfig (config (self (create_disk dname gib fmt st).2)))).
Proof.
  intros Hq Hsz Ht Htd Hc Hcd Hne1 Hne2.
  rewrite create_disk_sparse; try done.
  - simpl. split; [done|]. split.
    + rewrite lookup_insert_ne by done. rewrite lookup_insert_eq.
      do 3 f_equal.
    + split; [done|]. by rewrite lookup_insert_eq.
  - by rewrite Hq.
  - change (1024 ^ 3) with (2 ^ 30). lia.
Qed.

Lemma create_disk_without_qemu_img_witness :
  search_path (world web01) !! "qemu-img" = None
  ∧ (create_disk "data.qcow2" 8 "qcow2" web01).1 = inr tt
  ∧ fs (world (create_disk "data.qcow2" 8 "qcow2" web01).2)
      !! "/home/u/.py86/vms/web01/disks/data.qcow2"
    = Some (File (FSparse (8 * 2 ^ 30))).
Proof.
  split; [by_compute|].
  unshelve epose proof
    (create_disk_without_qemu_img "data.qcow2" 8 "qcow2" web01 _ _ _ _ _ _ _ _)
    as (Hr & Hf & _); [by_compute .. |].
  split; [exact Hr | exact Hf].
Defined.

(** C1 (as stated) fails: on a host without [qemu-img], asking for a
    [qcow2] disk does not raise; a sparse file is made and the entry is
    registered, with the format [qcow2]. *)
Lemma create_disk_qcow2_falls_back :
  search_path (world web01) !! "qemu-img" = None
  ∧ "qcow2" ≠ "raw"
  ∧ fs (world web01) !! "/home/u/.py86/vms/web01/disks/data.qcow2" = None
  ∧ get_disks (config (self web01)) = []
  ∧ (create_disk "data.qcow2" 8 "qcow2" web01).1 = inr tt
  ∧ fs (world (create_disk "data.qcow2" 8 "qcow2" web01).2)
      !! "/home/u/.py86/vms/web01/disks/data.qcow2"
    = Some (File (FSparse 8589934592))
  ∧ get_disks (config (self (create_disk "data.qcow2" 8 "qcow2" web01).2))
    = [{| d_path := Some "/home/u/.py86/vms/web01/disks/data.qcow2";
          d_format := Some "qcow2" |}].
Proof. vm_compute. repeat split; discriminate. Qed.

(** C7: for the VM [web01] with no disk, format [raw] and configured size
    [gib], in its directory as the constructor lays it out,
    [ensure_primary_disk] returns; [disks] then holds exactly one entry,
    of format [raw] and path [<VMS_DIR>/web01/disks/web01-disk0.raw]; the
    file at that path has an apparent size of [gib * 2^30] bytes; the saved
    configuration is the one with the entry. *)
Theorem ensure_primary_disk_web01 (st : St) (gib : Z) :
  name (self st) = "web01" →
  get_disks (config (self st)) = [] →
  default "raw" (disk_format (config (self st))) = "raw" →
  default 32 (disk_gib (config (self st))) = gib →
  0 ≤ gib < 2 ^ 33 →
  fs (world st) !! vm_path (world st) "web01" = Some Dir →
  fs (world st) !! disk_dir (world st) "web01" = Some Dir →
  fs (world st) !! config_path (world st) "web01" ≠ Some Dir →
  fs (world st) !! (VMS_DIR (world st) +:+ "/web01/disks/web01-disk0.raw") ≠ Some Dir →
  (ensure_primary_disk st).1 = inr tt
  ∧ get_disks (config (self (ensure_primary_disk st).2))
    = [{| d_path := Some (VMS_DIR (world st) +:+ "/web01/disks/web01-disk0.raw");
          d_format := Some "raw" |}]
  ∧ fs (world (ensure_primary_disk st).2)
      !! (VMS_DIR (world st) +:+ "/web01/disks/web01-disk0.raw")
    = Some (File (FSparse (gib * 2 ^ 30)))
  ∧ fs (world (ensure_primary_disk st).2) !! config_path (world st) "web01"
    = Some (File (FConfig (config (self (ensure_primary_disk st).2)))).
Proof.
  intros Hn He Hfmt Hgib Hsz Hvm Hdd Hcp Htg.
  assert (Etarget : path_join (disk_dir (world st) "web01") "web01-disk0.raw"
                    = VMS_DIR (world st) +:+ "/web01/disks/web01-disk0.raw").
  { change (((VMS_DIR (world st) +:+ "/web01") +:+ "/disks") +:+ "/web01-disk0.raw"
            = VMS_DIR (world st) +:+ "/web01/disks/web01-disk0.raw").
    by rewrite !append_assoc. }
  assert (Edir : dirname (path_join (disk_dir (world st) "web01") "web01-disk0.raw")
                 = disk_dir (world st) "web01").
  { change (dirname (disk_dir (world st) "web01" +:+ String "/" "web01-disk0.raw")
            = disk_dir (world st) "web01").
    by apply dirname_append. }
  assert (Ecdir : dirname (config_path (world st) "web01") = vm_path (world st) "web01").
  { change (dirname (vm_path (world st) "web01" +:+ String "/" "config.json")
            = vm_path (world st) "web01").
    by apply dirname_append. }
  assert (Hne1 : path_join (disk_dir (world st) "web01") "web01-disk0.raw"
                 ≠ config_path (world st) "web01").
  { change ((vm_path (world st) "web01" +:+ "/disks") +:+ "/web01-disk0.raw"
            ≠ vm_path (world st) "web01" +:+ "/config.json").
    rewrite append_assoc. intros H%(inj (String.append _)). discriminate H. }
  assert (Hne2 : path_join (disk_dir (world st) "web01") "web01-disk0.raw"
                 ≠ vm_path (world st) "web01").
  { change ((vm_path (world st) "web01" +:+ "/disks") +:+ "/web01-disk0.raw"
            ≠ vm_path (world st) "web01").
    rewrite append_assoc. by apply append_ne_l. }
  rewrite ensure_primary_disk_empty by done.
  unfold primary_name, primary_format. rewrite Hfmt, Hgib, Hn.
  change ("web01" +:+ "-disk0." +:+ "raw") with "web01-disk0.raw".
  pose proof (create_disk_sparse "web01-disk0.raw" gib "raw" st) as Hcd.
  rewrite Hn in Hcd. rewrite Hcd; clear Hcd.
  - simpl. rewrite <- Etarget. split; [done|]. split.
    + unfold registered, new_spec, get_disks at 1. simpl. by rewrite He, Hn.
    + split.
      * rewrite lookup_insert_ne by done. rewrite lookup_insert_eq. do 3 f_equal.
      * by rewrite lookup_insert_eq.
  - by rewrite andb_false_r.
  - change (1024 ^ 3) with (2 ^ 30). lia.
  - by rewrite Etarget.
  - by rewrite Edir.
  - done.
  - by rewrite Ecdir.
  - done.
  - by rewrite Ecdir.
Qed.

Lemma ensure_primary_disk_web01_witness :
  (ensure_primary_disk web01).1 = inr tt
  ∧ get_disks (config (self (ensure_primary_disk web01).2))
    = [{| d_path := Some "/home/u/.py86/vms/web01/disks/web01-disk0.raw";
          d_format := Some "raw" |}]
  ∧ fs (world (ensure_primary_disk web01).2)
      !! "/home/u/.py86/vms/web01/disks/web01-disk0.raw"
    = Some (File (FSparse (32 * 2 ^ 30))).
Proof.
  unshelve epose proof
    (ensure_primary_disk_web01 web01 32 _ _ _ _ _ _ _ _ _)
    as (Hr & Hd & Hf & _); [by_compute .. |].
  split; [exact Hr|]. split; [exact Hd | exact Hf].
Defined.

(** ** The launch command *)

(** With the ports allocated, the graphics tokens are read off the
    configuration and nothing is written. *)
Lemma graphics_args_pure (embed_window_id : option Z) (v : VM) :
  (default "sdl" (graphics (config v)) = "vnc" →
   truthy_int (vnc_port (get_advanced (config v))) = true) →
  ∃ g, (∀ w, graphics_args embed_window_id {| self := v; world := w |}
             = (inr g, {| self := v; world := w |})).
Proof.
  intros Hv. unfold graphics_args, vnc_args. unfold_m.
  change (self {| self := v; world := ?w |}) with v.
  destruct (str_eqb _ "none"); [by eexists|].
  destruct (str_eqb _ "sdl"); [destruct (_ && _); by eexists|].
  destruct (str_eqb _ "gtk"); [by eexists|].
  destruct (str_eqb _ "vnc") eqn:E; [|by eexists].
  apply bool_decide_eq_true in E.
  eexists. intros w. change (self {| self := v; world := w |}) with v.
  rewrite (Hv E). reflexivity.
Qed.

Lemma logs_dir_home (w1 w2 : World) (n : string) :
  home w1 = home w2 → logs_dir w1 n = logs_dir w2 n.
Proof. intros H. unfold logs_dir, vm_path, VMS_DIR, BASE_DIR. by rewrite H. Qed.

Lemma disk_dir_home (w1 w2 : World) (n : string) :
  home w1 = home w2 → disk_dir w1 n = disk_dir w2 n.
Proof. intros H. unfold disk_dir, vm_path, VMS_DIR, BASE_DIR. by rewrite H. Qed.

Lemma tail_args_home (w1 w2 : World) (n : string) (c : VMConfig) :
  home w1 = home w2 → tail_args w1 n c = tail_args w2 n c.
Proof. intros H. unfold tail_args. by rewrite (logs_dir_home w1 w2). Qed.

(** With the ports allocated, [emit_cmd] returns a command line and leaves
    the state as it is; only the last tokens depend on the host, through
    the path of the log file. *)
Lemma emit_cmd_pure (qemu : string) (embed_window_id : option Z) (v : VM) :
  ports_allocated (config v) →
  ∃ pre : list string,
    ∀ w, emit_cmd qemu embed_window_id {| self := v; world := w |}
         = (inr (pre ++ tail_args w (name v) (config v)),
            {| self := v; world := w |}).
Proof.
  intros [Hq Hv].
  destruct (graphics_args_pure embed_window_id v Hv) as [g Hg].
  eexists. intros w. unfold emit_cmd. unfold_m.
  change (self {| self := v; world := w |}) with v.
  rewrite Hg.
  change (self {| self := v; world := w |}) with v.
  change (world {| self := v; world := w |}) with w.
  rewrite Hq. rewrite !app_assoc. reflexivity.
Qed.

Lemma find_qemu_in_inr (cs : list string) (w : World) :
  ∃ q, find_qemu_in cs w = (inr q, w).
Proof.
  induction cs as [|c cs IH]; simpl; [by eexists|].
  unfold bind, which. simpl.
  destruct (truthy_str (search_path w !! c)); [by eexists|apply IH].
Qed.

Lemma find_qemu_inr (w : World) : ∃ q, find_qemu w = (inr q, w).
Proof. apply find_qemu_in_inr. Qed.

(** [build_qemu_cmd] once the hypervisor is found. *)
Lemma build_qemu_cmd_found (embed_window_id : option Z) (st : St) (q : option string) :
  (find_qemu (world st)).1 = inr q →
  truthy_str q = true →
  build_qemu_cmd embed_window_id st
  = match (ensure_primary_disk st).1 with
    | inr _ => emit_cmd (default "" q) embed_window_id (ensure_primary_disk st).2
    | inl e => (inl e, (ensure_primary_disk st).2)
    end.
Proof.
  intros Hq Ht. unfold build_qemu_cmd. unfold_m.
  destruct (find_qemu_inr (world st)) as [q' Hq']. rewrite Hq' in Hq |- *.
  simpl in Hq. simplify_eq. rewrite Ht. simpl. rewrite st_eta.
  by destruct (ensure_primary_disk st) as [[e|[]] st1].
Qed.

(** [create_disk] writes to the file system and to nothing else in the
    world. *)
Lemma create_disk_world (dname : string) (gib : Z) (fmt : string) (st : St) :
  world (create_disk dname gib fmt st).2
  = set_fs (fs (world (create_disk dname gib fmt st).2)) (world st).
Proof.
  destruct st as [v w]. destruct w.
  unfold create_disk, save_config, write_config, which, run_qemu_img_create,
    open_w, truncate, write_file.
  unfold_m. simpl.
  repeat (case_match; simpl in *; simplify_eq; try reflexivity).
Qed.

(** What [ensure_primary_disk] may change: the list of disks of the
    configuration, and the file system. *)
Lemma ensure_primary_disk_frame (st : St) :
  (self (ensure_primary_disk st).2 = self st
   ∨ (get_disks (config (self st)) = []
      ∧ self (ensure_primary_disk st).2
        = registered st (primary_name st) (primary_format st)))
  ∧ world (ensure_primary_disk st).2
    = set_fs (fs (world (ensure_primary_disk st).2)) (world st).
Proof.
  assert (Hd : get_disks (config (self st)) = [] ∨ get_disks (config (self st)) ≠ [])
    by (destruct (get_disks (config (self st))); auto).
  destruct Hd as [Hd|Hd].
  - rewrite ensure_primary_disk_empty by done. split.
    + destruct (create_disk_self (primary_name st)
                  (default 32 (disk_gib (config (self st)))) (primary_format st) st)
        as [[_ H]|H]; auto.
    + apply create_disk_world.
  - rewrite ensure_primary_disk_nonempty by done. simpl. split; [by left|].
    by destruct (world st).
Qed.

Lemma ports_allocated_registered (st : St) (dname fmt : string) :
  ports_allocated (config (self st)) →
  ports_allocated (config (registered st dname fmt)).
Proof. done. Qed.

(** C5: when [advanced] holds the control port, and the VNC port if the
    graphics is [vnc], building the command leaves [advanced] as it is
    and asks the system for no port, whatever the outcome of the build. *)
Theorem build_keeps_allocated_ports (embed_window_id : option Z) (st : St) :
  ports_allocated (config (self st)) →
  advanced (config (self (build_qemu_cmd embed_window_id st).2))
  = advanced (config (self st))
  ∧ free_ports (world (build_qemu_cmd embed_window_id st).2)
    = free_ports (world st).
Proof.
  intros Hp.
  destruct (find_qemu_inr (world st)) as [q Hq].
  destruct (truthy_str q) eqn:Ht.
  - rewrite (build_qemu_cmd_found _ _ q) by (rewrite ?Hq; done).
    destruct (ensure_primary_disk_frame st) as [Hs Hw].
    assert (Hadv : advanced (config (self (ensure_primary_disk st).2))
                   = advanced (config (self st)))
      by (destruct Hs as [->|[_ ->]]; done).
    assert (Hfree : free_ports (world (ensure_primary_disk st).2)
                    = free_ports (world st)) by (by rewrite Hw).
    assert (Hp1 : ports_allocated (config (self (ensure_primary_disk st).2)))
      by (destruct Hs as [->|[_ ->]]; done).
    destruct (ensure_primary_disk st) as [[e|[]] [v1 w1]]; simpl in *; [done|].
    destruct (emit_cmd_pure (default "" q) embed_window_id v1 Hp1) as [pre Hpre].
    rewrite Hpre. done.
  - unfold build_qemu_cmd, bind, lift. rewrite Hq. simpl. by rewrite Ht.
Qed.

Lemma build_keeps_allocated_ports_witness :
  ports_allocated (config (self web01_vnc))
  ∧ advanced (config (self (build_qemu_cmd (Some 77) web01_vnc).2))
    = Some {| adv_qmp_port := Some 5901; vnc_port := Some 4444; machine := None;
              tap_name := None; ovmf_code := None |}
  ∧ free_ports (world (build_qemu_cmd (Some 77) web01_vnc).2) = [].
Proof.
  assert (Hp : ports_allocated (config (self web01_vnc))) by (split; by_compute).
  split; [exact Hp|].
  destruct (build_keeps_allocated_ports (Some 77) web01_vnc Hp) as [Ha Hf].
  split; [exact Ha | exact Hf].
Defined.

Lemma ensure_primary_disk_returns (st : St) :
  (ensure_primary_disk st).1 = inr tt →
  self (ensure_primary_disk st).2
  = match get_disks (config (self st)) with
    | [] => registered st (primary_name st) (primary_format st)
    | _ :: _ => self st
    end.
Proof.
  intros Hr. destruct (get_disks (config (self st))) eqn:Hd.
  - rewrite ensure_primary_disk_empty in * by done. by apply create_disk_returns.
  - by rewrite ensure_primary_disk_nonempty by (by rewrite Hd).
Qed.

Lemma registered_home (v : VM) (w1 w2 : World) (dname fmt : string) :
  home w1 = home w2 →
  registered {| self := v; world := w1 |} dname fmt
  = registered {| self := v; world := w2 |} dname fmt.
Proof.
  intros H. unfold registered, new_spec. simpl.
  by rewrite (disk_dir_home w1 w2).
Qed.

Lemma ensure_primary_disk_home (st : St) :
  home (world (ensure_primary_disk st).2) = home (world st).
Proof. destruct (ensure_primary_disk_frame st) as [_ ->]. done. Qed.

(** The command [build_qemu_cmd] returns, in terms of the VM object that
    [ensure_primary_disk] leaves. *)
Lemma build_qemu_cmd_returns (embed_window_id : option Z) (st : St)
    (q : option string) (c : list string) :
  (find_qemu (world st)).1 = inr q →
  ports_allocated (config (self st)) →
  (build_qemu_cmd embed_window_id st).1 = inr c →
  truthy_str q = true
  ∧ (ensure_primary_disk st).1 = inr tt
  ∧ ∃ pre, (∀ w, (emit_cmd (default "" q) embed_window_id
                    {| self := self (ensure_primary_disk st).2; world := w |}).1
                 = inr (pre ++ tail_args w (name (self (ensure_primary_disk st).2))
                                         (config (self (ensure_primary_disk st).2))))
           ∧ c = pre ++ tail_args (world (ensure_primary_disk st).2)
                                  (name (self (ensure_primary_disk st).2))
                                  (config (self (ensure_primary_disk st).2)).
Proof.
  intros Hq Hp Hc.
  destruct (truthy_str q) eqn:Ht.
  - rewrite (build_qemu_cmd_found _ _ q) in Hc by done.
    destruct (ensure_primary_disk_frame st) as [Hs _].
    assert (Hp1 : ports_allocated (config (self (ensure_primary_disk st).2)))
      by (destruct Hs as [->|[_ ->]]; done).
    destruct (emit_cmd_pure (default "" q) embed_window_id _ Hp1) as [pre Hpre].
    destruct (ensure_primary_disk st) as [[e|[]] [v1 w1]]; simpl in *; [done|].
    split; [done|]. split; [done|]. exists pre. split.
    + intros w. by rewrite Hpre.
    + rewrite Hpre in Hc. simpl in Hc. congruence.
  - destruct (find_qemu_inr (world st)) as [q' Hq']. rewrite Hq' in Hq.
    simpl in Hq. simplify_eq.
    unfold build_qemu_cmd, bind, lift in Hc. rewrite Hq' in Hc. simpl in Hc.
    by rewrite Ht in Hc.
Qed.

Lemma find_qemu_in_set_fs (cs : list string) (f : gmap string Node) (w : World) :
  (find_qemu_in cs (set_fs f w)).1 = (find_qemu_in cs w).1.
Proof.
  induction cs as [|c cs IH]; simpl; [done|].
  unfold bind, which. simpl.
  destruct (truthy_str (search_path w !! c)); [done|apply IH].
Qed.

(** With the ports allocated, a build that returned is repeated by the next
    one: same command line, and nothing changes any more. *)
Lemma build_qemu_cmd_again (embed_window_id : option Z) (st : St) (c : list string) :
  ports_allocated (config (self st)) →
  (build_qemu_cmd embed_window_id st).1 = inr c →
  build_qemu_cmd embed_window_id (build_qemu_cmd embed_window_id st).2
  = (inr c, (build_qemu_cmd embed_window_id st).2).
Proof.
  intros Hp Hc.
  destruct (find_qemu_inr (world st)) as [q Hq].
  pose proof (build_qemu_cmd_returns embed_window_id st q c)
    as (Ht & Hr & pre & He & ->); [by rewrite Hq|done|done|].
  clear Hc.
  rewrite (build_qemu_cmd_found _ st q) by (rewrite ?Hq; done).
  pose proof (ensure_primary_disk_frame st) as [Hs Hw].
  assert (Hp1 : ports_allocated (config (self (ensure_primary_disk st).2)))
    by (destruct Hs as [->|[_ ->]]; done).
  assert (Hne : get_disks (config (self (ensure_primary_disk st).2)) ≠ []).
  { rewrite ensure_primary_disk_returns by done.
    destruct (get_disks (config (self st))) eqn:Hd; [|by rewrite Hd].
    unfold registered. simpl. unfold get_disks at 1. simpl. rewrite Hd. done. }
  destruct (emit_cmd_pure (default "" q) embed_window_id _ Hp1) as [pre' Hpre].
  assert (Hq1 : (find_qemu (world (ensure_primary_disk st).2)).1 = inr q).
  { rewrite Hw. unfold find_qemu. rewrite find_qemu_in_set_fs.
    fold find_qemu. by rewrite Hq. }
  pose proof (ensure_primary_disk_nonempty _ Hne) as Hagain.
  destruct (ensure_primary_disk st) as [[e|[]] [v1 w1]] eqn:E; simpl in *; [done|].
  rewrite Hpre. simpl.
  rewrite (build_qemu_cmd_found _ _ q) by done.
  rewrite Hagain. simpl. rewrite Hpre.
  specialize (He w1). rewrite Hpre in He. simpl in He. congruence.
Qed.

(** C4: two builds of the command for the same VM object (same name, same
    configuration with the ports it needs in [advanced]) and the same embed
    surface, on two states of the world that may differ in everything but
    the home directory and the hypervisor binary found on the search path.
    Whenever both return a command line, the two are equal; when the VM
    has a disk the two outcomes are equal, with no condition; and a build
    that returned, run again on the state it left, returns the same
    command line and changes nothing. *)
Theorem build_deterministic
    (embed_window_id : option Z) (v : VM) (w1 w2 : World) :
  home w1 = home w2 →
  (find_qemu w1).1 = (find_qemu w2).1 →
  ports_allocated (config v) →
  (∀ c1 c2,
     (build_qemu_cmd embed_window_id {| self := v; world := w1 |}).1 = inr c1 →
     (build_qemu_cmd embed_window_id {| self := v; world := w2 |}).1 = inr c2 →
     c1 = c2)
  ∧ (get_disks (config v) ≠ [] →
     (build_qemu_cmd embed_window_id {| self := v; world := w1 |}).1
     = (build_qemu_cmd embed_window_id {| self := v; world := w2 |}).1)
  ∧ (∀ c,
       (build_qemu_cmd embed_window_id {| self := v; world := w1 |}).1 = inr c →
       build_qemu_cmd embed_window_id
         (build_qemu_cmd embed_window_id {| self := v; world := w1 |}).2
       = (inr c, (build_qemu_cmd embed_window_id {| self := v; world := w1 |}).2)).
Proof.
  intros Hh Hf Hp.
  destruct (find_qemu_inr w1) as [q Hq1]. destruct (find_qemu_inr w2) as [q2 Hq2].
  rewrite Hq1, Hq2 in Hf. simpl in Hf.
  assert (q2 = q) as -> by congruence. clear Hf.
  split; [|split; [|intros c Hc; by apply build_qemu_cmd_again]].
  - intros c1 c2 H1 H2.
    apply (build_qemu_cmd_returns _ _ q) in H1 as (_ & Hr1 & pre1 & He1 & ->);
      [|simpl; by rewrite Hq1|done].
    apply (build_qemu_cmd_returns _ _ q) in H2 as (_ & Hr2 & pre2 & He2 & ->);
      [|simpl; by rewrite Hq2|done].
    pose proof (ensure_primary_disk_home {| self := v; world := w1 |}) as Hh1.
    pose proof (ensure_primary_disk_home {| self := v; world := w2 |}) as Hh2.
    assert (Hv : self (ensure_primary_disk {| self := v; world := w1 |}).2
                 = self (ensure_primary_disk {| self := v; world := w2 |}).2).
    { rewrite !ensure_primary_disk_returns by done. simpl.
      destruct (get_disks (config v)); [|done].
      unfold primary_name, primary_format. simpl. by apply registered_home. }
    simpl in Hh1, Hh2.
    rewrite Hv in *.
    specialize (He1 w1). specialize (He2 w1). rewrite He1 in He2.
    simplify_eq. apply app_inv_tail in He2. subst pre2.
    f_equal. apply tail_args_home. congruence.
  - intros Hd.
    destruct (truthy_str q) eqn:Ht.
    + rewrite !(build_qemu_cmd_found _ _ q) by (simpl; rewrite ?Hq1, ?Hq2; done).
      rewrite !ensure_primary_disk_nonempty by done. simpl.
      destruct (emit_cmd_pure (default "" q) embed_window_id v Hp) as [pre Hpre].
      rewrite !Hpre. simpl. f_equal. f_equal. by apply tail_args_home.
    + unfold build_qemu_cmd, bind, lift. simpl. rewrite Hq1, Hq2. simpl.
      by rewrite Ht.
Qed.

Lemma build_deterministic_witness :
  (build_qemu_cmd (Some 77) {| self := self web01_vnc; world := world web01_vnc |}).1
  = (build_qemu_cmd (Some 77)
       {| self := self web01_vnc; world := later (world web01_vnc) |}).1
  ∧ (build_qemu_cmd (Some 77)
       {| self := self web01_vnc; world := later (world web01_vnc) |}).1
    = inr ["/usr/bin/qemu-system-x86_64"; "-machine"; "q35"; "-smp"; "2";
           "-m"; "4096"; "-drive";
           "file=/home/u/.py86/vms/web01/disks/web01-disk0.raw,format=raw,if=virtio";
           "-boot"; "cdrom,hd,menu"; "-vnc"; "127.0.0.1:-1456";
           "-netdev"; "user,id=net0"; "-device"; "virtio-net-pci,netdev=net0";
           "-qmp"; "tcp:127.0.0.1:5901,server,nowait";
           "-D"; "/home/u/.py86/vms/web01/logs/web01.log"].
Proof.
  split; [|by_compute].
  unshelve epose proof
    (build_deterministic (Some 77) (self web01_vnc) (world web01_vnc)
       (later (world web01_vnc)) _ _ _) as (_ & H & _);
    [by_compute | by_compute | split; by_compute |].
  apply H. by_compute.
Defined.

(** ** Bundles: export *)

Lemma set_fs_id (w : World) : set_fs (fs w) w = w.
Proof. by destruct w. Qed.

Lemma config_path_set_fs (f : gmap string Node) (w : World) (n : string) :
  config_path (set_fs f w) n = config_path w n.
Proof. reflexivity. Qed.

Lemma str_eqb_eq (a b : string) : str_eqb a b = true ↔ a = b.
Proof. unfold str_eqb. apply bool_decide_eq_true. Qed.

Lemma str_eqb_ne (a b : string) : str_eqb a b = false ↔ a ≠ b.
Proof. unfold str_eqb. apply bool_decide_eq_false. Qed.

Lemma disk_members_insert_dest (f : gmap string Node) (dest vmname : string)
    (nd : Node) (ds : list DiskSpec) :
  disk_members (<[dest := nd]> f) dest vmname ds = disk_members f dest vmname ds.
Proof.
  induction ds as [|d ds IH]; [done|]. simpl. rewrite IH.
  assert (E : disk_member (<[dest := nd]> f) dest vmname d = disk_member f dest vmname d).
  { unfold disk_member. destruct (d_path d) as [p|]; [|done].
    destruct (str_eqb p dest) eqn:E; [done|].
    apply str_eqb_ne in E. by rewrite lookup_insert_ne. }
  by rewrite E.
Qed.

Lemma tar_add_spec (dest p arc : string) (w : World) (ms : list TarMember) :
  fs w !! dest = Some (File (FTar ms)) →
  tar_add dest p arc w
  = if str_eqb p dest then (inr tt, w)
    else match fs w !! p with
         | None => (inl (FileNotFoundError p), w)
         | Some nd =>
             (inr tt,
              set_fs (<[dest := File (FTar (ms ++ [(arc, node_data nd)]))]> (fs w)) w)
         end.
Proof. intros H. unfold tar_add. by rewrite H. Qed.

(** The loop over the disks: it adds the entries of the disks that exist,
    in order, skips the others, and does not fail. *)
Lemma export_disks_spec (dest vmname : string) (ds : list DiskSpec) :
  ∀ (w : World) (ms : list TarMember),
    fs w !! dest = Some (File (FTar ms)) →
    Forall (λ d, is_Some (d_path d)) ds →
    export_disks dest vmname ds w
    = (inr tt,
       set_fs (<[dest := File (FTar (ms ++ disk_members (fs w) dest vmname ds))]> (fs w))
              w).
Proof.
  induction ds as [|d ds IH]; intros w ms Hdest Hds.
  - simpl. unfold ret. rewrite app_nil_r. rewrite insert_id by done.
    by rewrite set_fs_id.
  - apply Forall_cons in Hds as [[p Hp] Hds].
    cbn [export_disks]. rewrite Hp. unfold bind, path_exists.
    cbn [disk_members]. unfold disk_member at 1. rewrite Hp.
    destruct (str_eqb p dest) eqn:E.
    + apply str_eqb_eq in E. subst p. rewrite Hdest.
      rewrite bool_decide_eq_true_2 by eauto.
      rewrite (tar_add_spec _ _ _ _ ms) by done.
      rewrite (proj2 (str_eqb_eq dest dest)) by done.
      by apply IH.
    + destruct (fs w !! p) as [nd|] eqn:Hnd.
      * rewrite bool_decide_eq_true_2 by eauto.
        rewrite (tar_add_spec _ _ _ _ ms) by done. rewrite E, Hnd.
        rewrite (IH _ (ms ++ [(vmname +:+ "/disks/" +:+ basename p, node_data nd)]));
          [|by simpl; rewrite lookup_insert_eq|done].
        simpl. rewrite insert_insert_eq, disk_members_insert_dest.
        by rewrite <- app_assoc.
      * rewrite bool_decide_eq_false_2 by (intros [? ?]; done).
        unfold ret. by apply IH.
Qed.

(** C10: for a VM whose configuration document is on disk, and a
    destination that can be written, [export_bundle] returns the
    destination, whatever disk file or install medium is missing.  The
    archive holds the configuration document first, then one entry for
    every registered disk whose file exists, in order, and none for a disk
    whose file does not exist, then the install medium if it was asked
    for, is configured and exists.  Nothing else changes. *)
Theorem export_bundle_skips_missing
    (dest : string) (include_iso : bool) (st : St) (cdoc : FileData) :
  fs (world st) !! dest ≠ Some Dir →
  fs (world st) !! dirname dest = Some Dir →
  config_path (world st) (name (self st)) ≠ dest →
  fs (world st) !! config_path (world st) (name (self st)) = Some (File cdoc) →
  Forall (λ d, is_Some (d_path d)) (get_disks (config (self st))) →
  export_bundle dest include_iso st
  = (inr dest,
     {| self := self st;
        world :=
          set_fs
            (<[dest :=
                 File (FTar ((name (self st) +:+ "/config.json", Some cdoc)
                             :: disk_members (fs (world st)) dest (name (self st))
                                  (get_disks (config (self st)))
                             ++ iso_members (fs (world st)) dest (name (self st))
                                  include_iso (config (self st))))]>
               (fs (world st)))
            (world st) |}).
Proof.
  intros Hd Hdd Hcne Hc Hds.
  unfold export_bundle, export_members. unfold_m. simpl.
  unfold tar_open_w, bind. rewrite open_w_ok by done.
  unfold write_file. simpl. rewrite insert_insert_eq.
  rewrite (tar_add_spec _ _ _ _ []) by (by simpl; rewrite lookup_insert_eq).
  rewrite !config_path_set_fs.
  rewrite (proj2 (str_eqb_ne _ _) Hcne).
  simpl. rewrite lookup_insert_ne by done. rewrite Hc.
  simpl. rewrite insert_insert_eq.
  rewrite (export_disks_spec _ _ _ _ [(name (self st) +:+ "/config.json", Some cdoc)]);
    [|by simpl; rewrite lookup_insert_eq|done].
  simpl. rewrite insert_insert_eq, disk_members_insert_dest.
  unfold iso_members.
  destruct (iso_path (config (self st))) as [iso|]; simpl;
    [|rewrite andb_false_r; simpl; by rewrite app_nil_r].
  destruct (include_iso && negb (str_eqb iso "")); simpl;
    [|by rewrite app_nil_r].
  unfold path_exists. simpl.
  destruct (str_eqb iso dest) eqn:E.
  - apply str_eqb_eq in E. subst iso. rewrite lookup_insert_eq.
    rewrite bool_decide_eq_true_2 by eauto.
    erewrite tar_add_spec by (by simpl; rewrite lookup_insert_eq).
    rewrite (proj2 (str_eqb_eq dest dest)) by done.
    simpl. by rewrite app_nil_r.
  - pose proof (proj1 (str_eqb_ne _ _) E) as Hne.
    rewrite lookup_insert_ne by done.
    destruct (fs (world st) !! iso) as [nd|] eqn:Hiso.
    + rewrite bool_decide_eq_true_2 by eauto.
      erewrite tar_add_spec by (by simpl; rewrite lookup_insert_eq).
      rewrite E. simpl.
      rewrite lookup_insert_ne by done. rewrite Hiso.
      simpl. rewrite insert_insert_eq. reflexivity.
    + rewrite bool_decide_eq_false_2 by (intros [? ?]; done).
      simpl. by rewrite app_nil_r.
Qed.

Lemma export_bundle_skips_missing_witness :
  length (get_disks (config (self web01_missing_disk))) = 2%nat
  ∧ fs (world web01_missing_disk) !! "/home/u/.py86/vms/web01/disks/gone.raw" = None
  ∧ (export_bundle "/home/u/.py86/exports/web01.tar.gz" true web01_missing_disk).1
    = inr "/home/u/.py86/exports/web01.tar.gz"
  ∧ fs (world (export_bundle "/home/u/.py86/exports/web01.tar.gz" true
                 web01_missing_disk).2)
      !! "/home/u/.py86/exports/web01.tar.gz"
    = Some (File (FTar [("web01/config.json",
                         Some (FConfig (config (self web01_missing_disk))));
                        ("web01/disks/web01-disk0.raw", Some (FSparse (32 * 2 ^ 30)))])).
Proof.
  split; [by_compute|]. split; [by_compute|].
  unshelve epose proof
    (export_bundle_skips_missing "/home/u/.py86/exports/web01.tar.gz" true
       web01_missing_disk (FConfig (config (self web01_missing_disk))) _ _ _ _ _) as H;
    [by_compute | by_compute | by_compute | by_compute
    | repeat constructor; by eexists |].
  rewrite H. split; [reflexivity|]. by_compute.
Defined.

(** ** Bundles: import *)

Lemma mkdir_if_absent_keeps (f : gmap string Node) (p k : string) (x : Node) :
  f !! k = Some x → mkdir_if_absent f p !! k = Some x.
Proof.
  intros Hk. unfold mkdir_if_absent. destruct (f !! p) eqn:Hp; [done|].
  rewrite lookup_insert_ne; [done|]. intros ->. congruence.
Qed.

Lemma mkdirs_keep (ps : list string) (f : gmap string Node) (k : string) (x : Node) :
  f !! k = Some x → foldl mkdir_if_absent f ps !! k = Some x.
Proof.
  revert f. induction ps as [|p ps IH]; intros f Hk; [done|].
  simpl. by apply IH, mkdir_if_absent_keeps.
Qed.

Lemma extract_member_keeps (root : string) (f : gmap string Node) (m : TarMember)
    (k : string) (x : Node) :
  f !! k = Some x →
  (is_Some m.2 → member_target root m ≠ k) →
  extract_member root f m !! k = Some x.
Proof.
  intros Hk Hne. unfold extract_member. destruct m as [n [d|]]; simpl in *.
  - rewrite lookup_insert_ne by (apply Hne; eauto). by apply mkdirs_keep.
  - by apply mkdirs_keep.
Qed.

Lemma extract_keeps (root : string) (ms : list TarMember) (f : gmap string Node)
    (k : string) (x : Node) :
  f !! k = Some x →
  k ∉ file_targets root ms →
  foldl (extract_member root) f ms !! k = Some x.
Proof.
  revert f. induction ms as [|m ms IH]; intros f Hk Hnot; [done|].
  simpl. apply IH.
  - apply extract_member_keeps; [done|]. intros Hm Heq. apply Hnot.
    unfold file_targets. rewrite filter_cons_True by done.
    rewrite fmap_cons, Heq. left.
  - intros Hin. apply Hnot. unfold file_targets in *.
    destruct (decide (is_Some m.2)).
    + rewrite filter_cons_True by done. rewrite fmap_cons. by right.
    + by rewrite filter_cons_False by done.
Qed.

(** Every regular file of an archive whose file members go to distinct
    paths is on the file system after [extractall], with its contents. *)
Lemma extractall_complete (root : string) (ms : list TarMember)
    (f : gmap string Node) (n : string) (d : FileData) :
  NoDup (file_targets root ms) →
  (n, Some d) ∈ ms →
  foldl (extract_member root) f ms !! os_path_join root n = Some (File d).
Proof.
  revert f. induction ms as [|m ms IH]; intros f Hnd Hin.
  - by apply elem_of_nil in Hin.
  - apply elem_of_cons in Hin as [<-|Hin].
    + unfold file_targets in Hnd. rewrite filter_cons_True in Hnd by (simpl; eauto).
      rewrite fmap_cons in Hnd. apply NoDup_cons in Hnd as [Hnot _].
      simpl. apply extract_keeps; [|done].
      unfold extract_member. simpl. by rewrite lookup_insert_eq.
    + simpl. apply IH; [|done]. unfold file_targets in *.
      destruct (decide (is_Some m.2)).
      * rewrite filter_cons_True in Hnd by done. rewrite fmap_cons in Hnd.
        by apply NoDup_cons in Hnd as [_ ?].
      * by rewrite filter_cons_False in Hnd by done.
Qed.

(** C9: for a bundle that is an archive with members [ms].  With no member,
    [import_bundle] raises [EmptyBundle]; when the directory named after
    the first component of the first member's name exists in the VM store,
    it raises [AlreadyExists]; in both cases the world is unchanged, so
    nothing is extracted.  Otherwise, for members whose names stay inside
    the store (relative, no [..]) and that can be unpacked one after the
    other (no regular file in the way of a directory, no directory in the
    way of a file), every member is unpacked under [VMS_DIR], in order,
    and the outcome is that of constructing the VM of that name on the
    world so obtained; when the file members go to distinct paths, each
    of them is there with its contents. *)
Theorem import_bundle_contract
    (bundle_path : string) (w : World) (ms : list TarMember) :
  fs w !! bundle_path = Some (File (FTar ms)) →
  (ms = [] → import_bundle bundle_path w = (inl EmptyBundle, w))
  ∧ (∀ m0 rest,
       ms = m0 :: rest →
       is_Some (fs w !! path_join (VMS_DIR w) (split_head m0.1)) →
       import_bundle bundle_path w = (inl AlreadyExists, w))
  ∧ (∀ m0 rest,
       ms = m0 :: rest →
       fs w !! path_join (VMS_DIR w) (split_head m0.1) = None →
       forallb (λ m : TarMember, stays_inside m.1) ms = true →
       unpacks (VMS_DIR w) (fs w) ms = true →
       import_bundle bundle_path w
       = VM_init (split_head m0.1)
           (set_fs (foldl (extract_member (VMS_DIR w)) (fs w) ms) w)
       ∧ (NoDup (file_targets (VMS_DIR w) ms) →
          ∀ n d, (n, Some d) ∈ ms →
                 foldl (extract_member (VMS_DIR w)) (fs w) ms
                   !! os_path_join (VMS_DIR w) n
                 = Some (File d))).
Proof.
  intros Hb. split; [|split].
  - intros ->. unfold import_bundle, bind, tar_getmembers. by rewrite Hb.
  - intros m0 rest -> Hex.
    unfold import_bundle, bind, tar_getmembers, get, path_exists. rewrite Hb.
    simpl. by rewrite bool_decide_eq_true_2.
  - intros m0 rest -> Hnone _ _. split.
    + unfold import_bundle, bind, tar_getmembers, get, path_exists, extractall.
      rewrite Hb. simpl. rewrite Hnone.
      rewrite bool_decide_eq_false_2 by (intros [? ?]; done). reflexivity.
    + intros Hnd n d Hin. by apply extractall_complete.
Qed.

Lemma import_bundle_contract_witness :
  import_bundle "/home/u/empty.tar.gz" other_host = (inl EmptyBundle, other_host)
  ∧ (import_bundle "/home/u/web01.tar.gz" other_host).1
    = inr {| name := "web01"; config := config (self web01_vnc); proc := None;
             qmp_sock := None; qmp_port := None; display_window_id := None |}
  ∧ fs (import_bundle "/home/u/web01.tar.gz" other_host).2
      !! "/home/u/.py86/vms/web01/disks/web01-disk0.raw"
    = Some (File (FSparse (32 * 2 ^ 30)))
  ∧ (import_bundle "/home/u/web01.tar.gz"
       (import_bundle "/home/u/web01.tar.gz" other_host).2).1
    = inl AlreadyExists.
Proof.
  split.
  { unshelve epose proof
      (import_bundle_contract "/home/u/empty.tar.gz" other_host [] _) as [H _];
      [by_compute|]. by apply H. }
  unshelve epose proof
    (import_bundle_contract "/home/u/web01.tar.gz" other_host
       [("web01/config.json", Some (FConfig (config (self web01_vnc))));
        ("web01/disks/web01-disk0.raw", Some (FSparse (32 * 2 ^ 30)))] _)
    as (_ & _ & H); [by_compute|].
  destruct (H _ _ eq_refl) as [Himp _]; [by_compute | by_compute | by_compute |].
  unshelve epose proof
    (import_bundle_contract "/home/u/web01.tar.gz"
       (import_bundle "/home/u/web01.tar.gz" other_host).2
       [("web01/config.json", Some (FConfig (config (self web01_vnc))));
        ("web01/disks/web01-disk0.raw", Some (FSparse (32 * 2 ^ 30)))] _)
    as (_ & H2 & _); [by_compute|].
  pose proof (H2 _ _ eq_refl) as Hagain.
  split; [rewrite Himp; by_compute|].
  split; [rewrite Himp; by_compute|].
  rewrite Hagain; [reflexivity|]. by_compute.
Defined.

(** * Further properties of the code *)

(** Side conditions on a sample state. *)
Ltac no_file := let d := fresh "d" in intros d; by_compute.

Ltac by_decide := apply (bool_decide_unpack _); vm_compute; exact I.

(** ** Directories *)

Lemma mkdirs_only_dirs (ps : list string) (f : gmap string Node) (k : string) :
  foldl mkdir_if_absent f ps !! k = f !! k
  ∨ foldl mkdir_if_absent f ps !! k = Some Dir.
Proof.
  revert f. induction ps as [|p ps IH]; intros f; [by left|].
  simpl. destruct (IH (mkdir_if_absent f p)) as [H|H]; [|by right].
  rewrite H. unfold mkdir_if_absent. destruct (f !! p) eqn:Hp; [by left|].
  destruct (decide (p = k)) as [->|Hne].
  - right. by rewrite lookup_insert_eq.
  - left. by rewrite lookup_insert_ne.
Qed.

Lemma mkdirs_absent (ps : list string) (f : gmap string Node) (k : string) :
  k ∉ ps → foldl mkdir_if_absent f ps !! k = f !! k.
Proof.
  revert f. induction ps as [|p ps IH]; intros f Hk; [done|].
  apply not_elem_of_cons in Hk as [Hne Hk]. simpl. rewrite IH by done.
  unfold mkdir_if_absent. destruct (f !! p); [done|]. by rewrite lookup_insert_ne.
Qed.

Lemma makedirs_keeps (p : string) (f : gmap string Node) (k : string) (x : Node) :
  f !! k = Some x → makedirs p f !! k = Some x.
Proof. apply mkdirs_keep. Qed.

Lemma mkdir_if_absent_self (p : string) (g : gmap string Node) :
  not_file g p → mkdir_if_absent g p !! p = Some Dir.
Proof.
  intros Hnf. unfold mkdir_if_absent. destruct (g !! p) as [[|d]|] eqn:Hp.
  - exact Hp.
  - by destruct (Hnf d).
  - by rewrite lookup_insert_eq.
Qed.

Lemma makedirs_self (p : string) (f : gmap string Node) :
  not_file f p → makedirs p f !! p = Some Dir.
Proof.
  intros Hnf. unfold makedirs. rewrite foldl_app. cbn [foldl].
  apply mkdir_if_absent_self. intros d.
  destruct (mkdirs_only_dirs (parents p) f p) as [-> | ->]; [apply Hnf|done].
Qed.

Lemma with_dir_keeps (p : string) (f : gmap string Node) (k : string) (x : Node) :
  f !! k = Some x → with_dir p f !! k = Some x.
Proof. intros H. unfold with_dir. case_bool_decide; [done|by apply makedirs_keeps]. Qed.

Lemma with_dir_self (p : string) (f : gmap string Node) :
  not_file f p → with_dir p f !! p = Some Dir.
Proof.
  intros Hnf. unfold with_dir. case_bool_decide as He; [|by apply makedirs_self].
  destruct He as [[|d] Hx]; [done|by destruct (Hnf d)].
Qed.

Lemma with_dir_not_file (p : string) (f : gmap string Node) (k : string) :
  not_file f k → not_file (with_dir p f) k.
Proof.
  intros Hnf d. unfold with_dir. case_bool_decide; [apply Hnf|].
  unfold makedirs. destruct (mkdirs_only_dirs (parents p ++ [p]) f k) as [->| ->];
    [apply Hnf|done].
Qed.

Lemma with_dir_absent (p : string) (f : gmap string Node) (k : string) :
  f !! k = None → k ∉ parents p ++ [p] → with_dir p f !! k = None.
Proof.
  intros H Hk. unfold with_dir. case_bool_decide; [done|].
  unfold makedirs. by rewrite mkdirs_absent.
Qed.

Lemma ensure_dir_spec (p : string) (w : World) :
  ensure_dir p w = (inr tt, set_fs (with_dir p (fs w)) w).
Proof.
  unfold ensure_dir, bind, path_exists, with_dir, mkdir_p.
  case_bool_decide as He.
  - unfold ret. by rewrite set_fs_id.
  - destruct (fs w !! p) as [[|d]|] eqn:Hp; try done; destruct He; eauto.
Qed.

(** An ancestor of a path is a proper prefix of it. *)
Lemma parents_go_prefix (pre s x : string) :
  x ∈ parents_go pre s → ∃ s1 s2, s = s1 +:+ s2 ∧ x = pre +:+ s1 ∧ s2 ≠ "".
Proof.
  revert pre. induction s as [|c s IH]; intros pre Hx; simpl in Hx.
  - by apply elem_of_nil in Hx.
  - apply elem_of_app in Hx as [Hx|Hx].
    + destruct (_ && _); [|by apply elem_of_nil in Hx].
      apply list_elem_of_singleton in Hx as ->.
      exists "", (String c s). by rewrite append_nil_r.
    + apply IH in Hx as (s1 & s2 & -> & -> & Hne).
      exists (String c s1), s2. split; [done|]. split; [|done].
      by rewrite append_assoc.
Qed.

Lemma parents_prefix (p x : string) :
  x ∈ parents p ++ [p] → ∃ t, p = x +:+ t.
Proof.
  intros [Hx|Hx]%elem_of_app.
  - apply parents_go_prefix in Hx as (s1 & s2 & -> & -> & _). by exists s2.
  - apply list_elem_of_singleton in Hx as ->. exists "". by rewrite append_nil_r.
Qed.

(** ** The constructor *)

Lemma config_path_eq (w : World) (n : string) :
  config_path w n = vm_path w n +:+ "/config.json".
Proof. reflexivity. Qed.

Lemma disk_dir_eq (w : World) (n : string) : disk_dir w n = vm_path w n +:+ "/disks".
Proof. reflexivity. Qed.

Lemma logs_dir_eq (w : World) (n : string) : logs_dir w n = vm_path w n +:+ "/logs".
Proof. reflexivity. Qed.

Lemma dirname_config_path (w : World) (n : string) :
  dirname (config_path w n) = vm_path w n.
Proof.
  change (dirname (vm_path w n +:+ String "/" "config.json") = vm_path w n).
  by apply dirname_append.
Qed.

(** The configuration file is none of the directories the constructor
    makes, nor an ancestor of one. *)
Lemma config_path_not_made (w : World) (n : string) (p : string) :
  p = vm_path w n ∨ p = disk_dir w n ∨ p = logs_dir w n →
  config_path w n ∉ parents p ++ [p].
Proof.
  intros Hp Hin. apply parents_prefix in Hin as [t Ht].
  rewrite config_path_eq, append_assoc in Ht.
  destruct Hp as [->|[->| ->]].
  - symmetry in Ht. by apply append_ne_l in Ht.
  - rewrite disk_dir_eq in Ht. apply (inj (String.append _)) in Ht. discriminate Ht.
  - rewrite logs_dir_eq in Ht. apply (inj (String.append _)) in Ht. discriminate Ht.
Qed.

Lemma with_layout_keeps (w : World) (n k : string) (x : Node) :
  fs w !! k = Some x → with_layout w n !! k = Some x.
Proof. intros H. unfold with_layout. by do 3 apply with_dir_keeps. Qed.

Lemma with_layout_dirs (w : World) (n : string) :
  not_file (fs w) (vm_path w n) →
  not_file (fs w) (disk_dir w n) →
  not_file (fs w) (logs_dir w n) →
  with_layout w n !! vm_path w n = Some Dir
  ∧ with_layout w n !! disk_dir w n = Some Dir
  ∧ with_layout w n !! logs_dir w n = Some Dir.
Proof.
  intros Hv Hd Hl. unfold with_layout. split; [|split].
  - do 2 apply with_dir_keeps. by apply with_dir_self.
  - apply with_dir_keeps. by apply with_dir_self, with_dir_not_file.
  - by apply with_dir_self; do 2 apply with_dir_not_file.
Qed.

Lemma with_layout_config_absent (w : World) (n : string) :
  fs w !! config_path w n = None → with_layout w n !! config_path w n = None.
Proof.
  intros H. unfold with_layout.
  apply with_dir_absent; [|apply config_path_not_made; auto].
  apply with_dir_absent; [|apply config_path_not_made; auto].
  apply with_dir_absent; [done|apply config_path_not_made; auto].
Qed.

(** [_load_or_init] after its three [mkdir]s. *)
Lemma load_or_init_layout (n : string) (w : World) :
  _load_or_init n w
  = (e <- path_exists (config_path w n) ;;
     cfg <- (if e then load_config (config_path w n)
             else (t <- now_iso ;;
                   let cfg := set_identity n t DEFAULT_CONFIG in
                   write_config n cfg ;;;
                   ret cfg)) ;;
     match disks cfg with
     | Some _ => ret cfg
     | None =>
         let cfg' := set_disks [] cfg in
         write_config n cfg' ;;;
         ret cfg'
     end) (set_fs (with_layout w n) w).
Proof.
  unfold _load_or_init. unfold bind at 1. unfold get at 1.
  unfold bind at 1. rewrite ensure_dir_spec.
  unfold bind at 1. rewrite ensure_dir_spec.
  unfold bind at 1. rewrite ensure_dir_spec.
  reflexivity.
Qed.

Lemma config_path_other (w : World) (n : string) (p : string) :
  p = vm_path w n ∨ p = disk_dir w n ∨ p = logs_dir w n →
  config_path w n ≠ p.
Proof.
  intros Hp Heq. apply (config_path_not_made w n p Hp). rewrite Heq.
  apply elem_of_app. right. by apply list_elem_of_singleton.
Qed.

(** The constructor on a store that has no configuration file for [n]. *)
Lemma VM_init_new (n : string) (w : World) :
  not_file (fs w) (vm_path w n) →
  fs w !! config_path w n = None →
  VM_init n w
  = (inr (fresh_vm n (set_identity n (utcnow w +:+ "Z") DEFAULT_CONFIG)),
     set_fs (<[config_path w n :=
                 File (FConfig (set_identity n (utcnow w +:+ "Z") DEFAULT_CONFIG))]>
               (with_layout w n)) w).
Proof.
  intros Hv Hc.
  pose proof (with_layout_config_absent w n Hc) as Lc.
  unfold VM_init. unfold bind at 1. rewrite load_or_init_layout.
  unfold bind, path_exists, now_iso, ret. cbn [fs set_fs utcnow].
  rewrite bool_decide_eq_false_2 by (rewrite Lc; by intros [? ?]).
  rewrite write_config_ok; cbn [fs set_fs];
    [|change (config_path _ n) with (config_path w n); by rewrite Lc
     |change (config_path _ n) with (config_path w n);
      rewrite dirname_config_path; unfold with_layout;
      do 2 apply with_dir_keeps; by apply with_dir_self].
  reflexivity.
Qed.

(** X1: a VM that is new to the store, where no regular file is in the
    way of its directories.  The constructor returns a VM of that name;
    its settings are those of [DEFAULT_CONFIG] with the name and the
    creation time set.  Of the [disks] and [advanced] objects only the
    presence is stated: they are the objects of [DEFAULT_CONFIG] itself,
    which the VMs made from it in one run of the program share and
    change.  The three directories exist, the configuration returned is
    the one on disk, and whatever was on the file system is still
    there. *)
Theorem VM_init_fresh (n : string) (w : World) :
  clear_above (fs w) (vm_path w n) = true →
  not_file (fs w) (vm_path w n) →
  not_file (fs w) (disk_dir w n) →
  not_file (fs w) (logs_dir w n) →
  fs w !! config_path w n = None →
  ∃ v, (VM_init n w).1 = inr v
       ∧ name v = n
       ∧ own_settings (config v)
         = own_settings (set_identity n (utcnow w +:+ "Z") DEFAULT_CONFIG)
       ∧ is_Some (disks (config v))
       ∧ is_Some (advanced (config v))
       ∧ fs (VM_init n w).2 !! vm_path w n = Some Dir
       ∧ fs (VM_init n w).2 !! disk_dir w n = Some Dir
       ∧ fs (VM_init n w).2 !! logs_dir w n = Some Dir
       ∧ fs (VM_init n w).2 !! config_path w n = Some (File (FConfig (config v)))
       ∧ (∀ k x, fs w !! k = Some x → fs (VM_init n w).2 !! k = Some x).
Proof.
  intros _ Hv Hd Hl Hc.
  destruct (with_layout_dirs w n Hv Hd Hl) as (Lv & Ld & Ll).
  exists (fresh_vm n (set_identity n (utcnow w +:+ "Z") DEFAULT_CONFIG)).
  rewrite (VM_init_new n w Hv Hc). cbn [fst snd fs set_fs].
  rewrite !lookup_insert_ne by (apply config_path_other; auto).
  rewrite lookup_insert_eq.
  split; [done|]. split; [done|]. split; [done|].
  split; [by eexists|]. split; [by eexists|].
  split; [done|]. split; [done|]. split; [done|]. split; [done|].
  intros k x Hk. rewrite lookup_insert_ne by (intros <-; congruence).
  by apply with_layout_keeps.
Qed.

Lemma VM_init_fresh_witness :
  ∃ v, (VM_init "web02" host).1 = inr v
       ∧ name v = "web02"
       ∧ fs (VM_init "web02" host).2 !! logs_dir host "web02" = Some Dir.
Proof.
  unshelve epose proof (VM_init_fresh "web02" host _ _ _ _ _)
    as (v & H1 & H2 & _ & _ & _ & _ & _ & H8 & _);
    [by_compute | no_file | no_file | no_file | by_compute |].
  exists v. split; [exact H1|]. split; [exact H2|exact H8].
Defined.

(** [_load_or_init] on a store that holds a configuration file for [n]. *)
Lemma VM_init_stored (n : string) (w : World) (d : FileData) :
  fs w !! config_path w n = Some (File d) →
  VM_init n w
  = match d with
    | FConfig doc =>
        match disks doc with
        | Some _ => (inr (fresh_vm n doc), set_fs (with_layout w n) w)
        | None =>
            match write_config n (set_disks [] doc) (set_fs (with_layout w n) w) with
            | (inr _, w') => (inr (fresh_vm n (set_disks [] doc)), w')
            | (inl e, w') => (inl e, w')
            end
        end
    | _ => (inl JSONDecodeError, set_fs (with_layout w n) w)
    end.
Proof.
  intros Hc. pose proof (with_layout_keeps w n _ _ Hc) as Lc.
  unfold VM_init. unfold bind at 1. rewrite load_or_init_layout.
  unfold bind, path_exists, load_config, ret. cbn [fs set_fs].
  rewrite bool_decide_eq_true_2 by eauto. cbn [fs set_fs]. rewrite Lc.
  destruct d as [doc| | | |]; try reflexivity.
  destruct (disks doc); [reflexivity|].
  by destruct (write_config n (set_disks [] doc) (set_fs (with_layout w n) w))
    as [[e|[]] w'].
Qed.

Lemma VM_init_config_dir (n : string) (w : World) :
  fs w !! config_path w n = Some Dir →
  VM_init n w
  = (inl (IsADirectoryError (config_path w n)), set_fs (with_layout w n) w).
Proof.
  intros Hc. pose proof (with_layout_keeps w n _ _ Hc) as Lc.
  unfold VM_init. unfold bind at 1. rewrite load_or_init_layout.
  unfold bind, path_exists, load_config, ret. cbn [fs set_fs].
  rewrite bool_decide_eq_true_2 by eauto. cbn [fs set_fs]. by rewrite Lc.
Qed.

Lemma with_layout_exists (w : World) (n : string) :
  is_Some (fs w !! vm_path w n) →
  is_Some (fs w !! disk_dir w n) →
  is_Some (fs w !! logs_dir w n) →
  with_layout w n = fs w.
Proof.
  intros Hv Hd Hl. unfold with_layout, with_dir.
  rewrite (bool_decide_eq_true_2 _ Hv), (bool_decide_eq_true_2 _ Hd).
  by rewrite (bool_decide_eq_true_2 _ Hl).
Qed.

(** X2: a VM that is in the store, with a configuration that has a [disks]
    key.  The constructor returns the stored configuration as it is; no
    file is changed, and when the three directories exist the world is
    left exactly as it was. *)
Theorem VM_init_reload (n : string) (w : World) (doc : VMConfig) :
  fs w !! vm_path w n = Some Dir →
  fs w !! config_path w n = Some (File (FConfig doc)) →
  is_Some (disks doc) →
  (VM_init n w).1 = inr (fresh_vm n doc)
  ∧ (∀ k x, fs w !! k = Some x → fs (VM_init n w).2 !! k = Some x)
  ∧ (is_Some (fs w !! vm_path w n) →
     is_Some (fs w !! disk_dir w n) →
     is_Some (fs w !! logs_dir w n) →
     (VM_init n w).2 = w).
Proof.
  intros _ Hc [ds Hds]. rewrite (VM_init_stored n w _ Hc), Hds.
  cbn [fst snd fs set_fs]. split; [done|]. split.
  - intros k x Hk. by apply with_layout_keeps.
  - intros Hv Hd Hl. rewrite with_layout_exists by done. apply set_fs_id.
Qed.

Lemma VM_init_reload_witness :
  (VM_init "web01" (world web01)).1 = inr (fresh_vm "web01" (config (self web01)))
  ∧ (VM_init "web01" (world web01)).2 = world web01.
Proof.
  unshelve epose proof
    (VM_init_reload "web01" (world web01) (config (self web01)) _ _ _)
    as (H1 & _ & H3); [by_compute | by_compute | by_compute |].
  split; [exact H1|]. apply H3; by_compute.
Defined.

(** X3: a stored configuration without a [disks] key, as an older version
    wrote it.  The constructor returns it with an empty list of disks and
    writes it back so. *)
Theorem VM_init_adds_disks (n : string) (w : World) (doc : VMConfig) :
  fs w !! vm_path w n = Some Dir →
  fs w !! config_path w n = Some (File (FConfig doc)) →
  disks doc = None →
  (VM_init n w).1 = inr (fresh_vm n (set_disks [] doc))
  ∧ fs (VM_init n w).2 !! config_path w n
    = Some (File (FConfig (set_disks [] doc))).
Proof.
  intros Hv' Hc Hds.
  assert (Hv : not_file (fs w) (vm_path w n)) by (intros d; by rewrite Hv').
  rewrite (VM_init_stored n w _ Hc), Hds.
  rewrite write_config_ok; cbn [fs set_fs].
  - change (config_path _ n) with (config_path w n).
    cbn [fst snd fs set_fs]. by rewrite lookup_insert_eq.
  - change (config_path _ n) with (config_path w n).
    by rewrite (with_layout_keeps w n _ _ Hc).
  - change (config_path _ n) with (config_path w n).
    rewrite dirname_config_path. unfold with_layout.
    do 2 apply with_dir_keeps. by apply with_dir_self.
Qed.

Lemma VM_init_adds_disks_witness :
  (VM_init "web01" legacy_store).1
  = inr (fresh_vm "web01" (set_disks [] (without_disks (config (self web01))))).
Proof.
  unshelve epose proof
    (VM_init_adds_disks "web01" legacy_store (without_disks (config (self web01)))
       _ _ _) as [H1 _]; [by_compute | by_compute | by_compute |].
  exact H1.
Defined.

(** X4: a configuration file that is empty or filled with zeros, as a
    save that was interrupted after [open] leaves it.  The constructor
    raises [JSONDecodeError], after having made the directories that were
    missing; the file is left as it is. *)
Theorem VM_init_corrupt (n : string) (w : World) (size : Z) :
  fs w !! vm_path w n = Some Dir →
  fs w !! config_path w n = Some (File (FSparse size)) →
  (VM_init n w).1 = inl JSONDecodeError
  ∧ fs (VM_init n w).2 !! config_path w n = Some (File (FSparse size)).
Proof.
  intros _ Hc. rewrite (VM_init_stored n w _ Hc). cbn [fst snd fs set_fs].
  split; [done|by apply with_layout_keeps].
Qed.

Lemma VM_init_corrupt_witness :
  (VM_init "web01" corrupt_store).1 = inl JSONDecodeError.
Proof.
  unshelve epose proof (VM_init_corrupt "web01" corrupt_store 0 _ _) as [H1 _];
    [by_compute | by_compute |].
  exact H1.
Defined.

Lemma write_config_returns (n : string) (c : VMConfig) (w : World) :
  (write_config n c w).1 = inr tt →
  write_config n c w
  = (inr tt, set_fs (<[config_path w n := File (FConfig c)]> (fs w)) w).
Proof.
  unfold write_config, bind, get, open_w, write_file.
  destruct (fs w !! config_path w n) as [[|d]|]; [done|..];
    (destruct (fs w !! dirname (config_path w n)) as [[|d']|]; [|done..]);
    intros _; cbn [fs set_fs]; by rewrite insert_insert_eq.
Qed.

(** X5: on a store where the configuration file of the VM is absent or
    holds a configuration document, whenever the constructor returns, the
    VM it returns is stopped and not connected, its configuration has a
    [disks] key and is the one on disk, and its three directories
    exist. *)
Theorem VM_init_invariant (n : string) (w : World) (v : VM) :
  not_file (fs w) (vm_path w n) →
  not_file (fs w) (disk_dir w n) →
  not_file (fs w) (logs_dir w n) →
  (fs w !! config_path w n = None
   ∨ ∃ doc, fs w !! config_path w n = Some (File (FConfig doc))) →
  (VM_init n w).1 = inr v →
  name v = n ∧ proc v = None ∧ qmp_sock v = None
  ∧ is_Some (disks (config v))
  ∧ fs (VM_init n w).2 !! vm_path w n = Some Dir
  ∧ fs (VM_init n w).2 !! disk_dir w n = Some Dir
  ∧ fs (VM_init n w).2 !! logs_dir w n = Some Dir
  ∧ synced {| self := v; world := (VM_init n w).2 |}.
Proof.
  intros Hv Hd Hl _ Hr.
  destruct (fs w !! config_path w n) as [nd|] eqn:Hc.
  - destruct (with_layout_dirs w n Hv Hd Hl) as (Lv & Ld & Ll).
    pose proof (config_path_other w n) as Hne.
    destruct nd as [|d].
    + by rewrite (VM_init_config_dir n w Hc) in Hr.
    + rewrite (VM_init_stored n w _ Hc) in Hr |- *.
      destruct d as [doc| | | |]; try done.
      destruct (disks doc) as [ds|] eqn:Hds.
      * cbn [fst snd fs set_fs] in *. simplify_eq. unfold synced, fresh_vm. cbn [self world name config proc qmp_sock fs set_fs fst snd].
        rewrite Hds. repeat split; eauto.
        change (config_path _ n) with (config_path w n).
        by apply with_layout_keeps.
      * destruct (write_config n (set_disks [] doc) (set_fs (with_layout w n) w))
          as [[e|[]] w'] eqn:Hw; [done|].
        pose proof (write_config_returns n (set_disks [] doc)
                      (set_fs (with_layout w n) w)) as Hwr.
        rewrite Hw in Hwr. specialize (Hwr eq_refl). simplify_eq.
        cbn [fst snd fs set_fs] in *. simplify_eq. unfold synced, fresh_vm. cbn [self world name config proc qmp_sock fs set_fs fst snd].
        change (config_path _ n) with (config_path w n).
        rewrite !lookup_insert_ne by (apply Hne; auto). rewrite lookup_insert_eq.
        repeat split; eauto.
  - destruct (with_layout_dirs w n Hv Hd Hl) as (Lv & Ld & Ll).
    pose proof (config_path_other w n) as Hne.
    rewrite (VM_init_new n w Hv Hc) in Hr |- *.
    cbn [fst snd fs set_fs] in *. simplify_eq. unfold synced, fresh_vm. cbn [self world name config proc qmp_sock fs set_fs fst snd].
    change (config_path _ n) with (config_path w n).
    rewrite !lookup_insert_ne by (apply Hne; auto). rewrite lookup_insert_eq.
    repeat split; eauto.
Qed.

Lemma VM_init_invariant_witness :
  is_Some (disks (config web02_vm))
  ∧ fs (VM_init "web02" host).2 !! disk_dir host "web02" = Some Dir.
Proof.
  unshelve epose proof (VM_init_invariant "web02" host web02_vm _ _ _ _ _)
    as (_ & _ & _ & H4 & _ & H6 & _);
    [no_file | no_file | no_file | left; by_compute | by_compute |].
  exact (conj H4 H6).
Defined.

(** ** Saving and loading again *)

Lemma save_config_returns (cfg : option VMConfig) (st : St) :
  (save_config cfg st).1 = inr tt →
  save_config cfg st
  = (inr tt,
     {| self := set_config (default (config (self st)) cfg) (self st);
        world := set_fs (<[config_path (world st) (name (self st)) :=
                            File (FConfig (default (config (self st)) cfg))]>
                          (fs (world st)))
                        (world st) |}).
Proof.
  intros Hr.
  assert (E : save_config cfg st
              = let '(r, w') := write_config (name (self st))
                                  (default (config (self st)) cfg) (world st) in
                (r, {| self := set_config (default (config (self st)) cfg) (self st);
                       world := w' |})).
  { unfold save_config. unfold_m. destruct cfg as [c|]; cbn; [done|].
    by destruct (self st). }
  rewrite E in Hr |- *.
  pose proof (write_config_returns (name (self st)) (default (config (self st)) cfg)
                (world st)) as Hw.
  destruct (write_config _ _ _) as [r w']. cbn in Hr. subst r.
  specialize (Hw eq_refl). injection Hw as ->. reflexivity.
Qed.

(** X6: saving and loading again.  After a [save_config] that returned,
    the configuration in memory is the one on disk, and constructing the
    VM anew gives that configuration back (when it has a [disks] key, as
    every configuration the constructor returned has). *)
Theorem save_config_reload (cfg : option VMConfig) (st : St) :
  (save_config cfg st).1 = inr tt →
  is_Some (disks (default (config (self st)) cfg)) →
  synced (save_config cfg st).2
  ∧ (VM_init (name (self st)) (world (save_config cfg st).2)).1
    = inr (fresh_vm (name (self st)) (default (config (self st)) cfg)).
Proof.
  intros Hr Hd. rewrite (save_config_returns cfg st Hr). cbn [snd world self].
  assert (Hc : fs (set_fs (<[config_path (world st) (name (self st)) :=
                               File (FConfig (default (config (self st)) cfg))]>
                             (fs (world st))) (world st))
               !! config_path (world st) (name (self st))
               = Some (File (FConfig (default (config (self st)) cfg))))
    by (cbn [fs set_fs]; by rewrite lookup_insert_eq).
  split; [exact Hc|].
  destruct Hd as [ds Hds]. by rewrite (VM_init_stored _ _ _ Hc), Hds.
Qed.

Lemma save_config_reload_witness :
  synced (save_config None web01).2
  ∧ (VM_init "web01" (world (save_config None web01).2)).1
    = inr (fresh_vm "web01" (config (self web01))).
Proof.
  unshelve epose proof (save_config_reload None web01 _ _) as [H1 H2];
    [by_compute | by_compute |].
  exact (conj H1 H2).
Defined.

(** ** Disks: the other branches *)

(** X7: a format other than [raw] with [qemu-img] at hand and a run of the
    tool that succeeds.  The disk is the image the tool made, for the size
    ["<gib>G"]; the entry is registered with the format asked for, and the
    configuration is saved. *)
Theorem create_disk_with_qemu_img
    (dname : string) (gib : Z) (fmt : string) (st : St) :
  truthy_str (search_path (world st) !! "qemu-img") = true →
  fmt ≠ "raw" →
  qemu_img_status (world st) = 0 →
  fs (world st) !! config_path (world st) (name (self st)) ≠ Some Dir →
  fs (world st) !! dirname (config_path (world st) (name (self st))) = Some Dir →
  path_join (disk_dir (world st) (name (self st))) dname
    ≠ config_path (world st) (name (self st)) →
  path_join (disk_dir (world st) (name (self st))) dname
    ≠ dirname (config_path (world st) (name (self st))) →
  (create_disk dname gib fmt st).1 = inr tt
  ∧ fs (world (create_disk dname gib fmt st).2)
      !! path_join (disk_dir (world st) (name (self st))) dname
    = Some (File (FImage fmt (str_of_int gib +:+ "G")))
  ∧ self (create_disk dname gib fmt st).2 = registered st dname fmt
  ∧ synced (create_disk dname gib fmt st).2.
Proof.
  intros Hq Hf Hs Hc Hcd Hne1 Hne2.
  assert (E : create_disk dname gib fmt st
              = (inr tt,
                 {| self := registered st dname fmt;
                    world :=
                      set_fs (<[config_path (world st) (name (self st)) :=
                                  File (FConfig (config (registered st dname fmt)))]>
                                (<[path_join (disk_dir (world st) (name (self st))) dname :=
                                     File (FImage fmt (str_of_int gib +:+ "G"))]>
                                   (fs (world st))))
                             (world st) |})).
  { unfold create_disk, save_config. unfold_m. unfold which. simpl.
    rewrite Hq. rewrite (proj2 (str_eqb_ne fmt "raw") Hf). simpl.
    unfold run_qemu_img_create. rewrite Hs. simpl.
    rewrite write_config_ok.
    - reflexivity.
    - simpl. change (config_path _ _) with (config_path (world st) (name (self st))).
      by rewrite lookup_insert_ne.
    - simpl. change (config_path _ _) with (config_path (world st) (name (self st))).
      by rewrite lookup_insert_ne. }
  rewrite E. cbn [fst snd self world fs set_fs]. unfold synced.
  cbn [self world fs set_fs].
  split; [done|]. split.
  - rewrite lookup_insert_ne by done. by rewrite lookup_insert_eq.
  - split; [done|].
    change (name (registered st dname fmt)) with (name (self st)).
    change (config_path _ _) with (config_path (world st) (name (self st))).
    by rewrite lookup_insert_eq.
Qed.

Lemma create_disk_with_qemu_img_witness :
  (create_disk "data.qcow2" 8 "qcow2" web01_img).1 = inr tt
  ∧ fs (world (create_disk "data.qcow2" 8 "qcow2" web01_img).2)
      !! path_join (disk_dir (world web01_img) (name (self web01_img))) "data.qcow2"
    = Some (File (FImage "qcow2" (str_of_int 8 +:+ "G"))).
Proof.
  unshelve epose proof
    (create_disk_with_qemu_img "data.qcow2" 8 "qcow2" web01_img _ _ _ _ _ _ _)
    as (H1 & H2 & _);
    [by_compute | by_compute | by_compute | by_compute | by_compute
    | by_compute | by_compute |].
  exact (conj H1 H2).
Defined.

Lemma create_disk_tool_fails
    (dname : string) (gib : Z) (fmt : string) (st : St) :
  truthy_str (search_path (world st) !! "qemu-img") = true →
  fmt ≠ "raw" →
  qemu_img_status (world st) ≠ 0 →
  create_disk dname gib fmt st
  = (inl (CalledProcessError (qemu_img_status (world st))), st).
Proof.
  intros Hq Hf Hs.
  unfold create_disk. unfold_m. unfold which. simpl.
  rewrite Hq. rewrite (proj2 (str_eqb_ne fmt "raw") Hf). simpl.
  unfold run_qemu_img_create.
  destruct (Z.eqb_spec (qemu_img_status (world st)) 0); [done|].
  by rewrite st_eta.
Qed.

(** X8: a run of [qemu-img] that fails.  [create_disk] raises
    [CalledProcessError] with the status of the tool; no entry is
    registered, and the configuration file is not written. *)
Theorem create_disk_tool_failure
    (dname : string) (gib : Z) (fmt : string) (st : St) :
  truthy_str (search_path (world st) !! "qemu-img") = true →
  fmt ≠ "raw" →
  qemu_img_status (world st) ≠ 0 →
  (create_disk dname gib fmt st).1
  = inl (CalledProcessError (qemu_img_status (world st)))
  ∧ self (create_disk dname gib fmt st).2 = self st
  ∧ fs (world (create_disk dname gib fmt st).2)
      !! config_path (world st) (name (self st))
    = fs (world st) !! config_path (world st) (name (self st)).
Proof.
  intros Hq Hf Hs. by rewrite create_disk_tool_fails.
Qed.

Lemma create_disk_tool_failure_witness :
  (create_disk "data.qcow2" 8 "qcow2" web01_img_broken).1
  = inl (CalledProcessError (qemu_img_status (world web01_img_broken)))
  ∧ self (create_disk "data.qcow2" 8 "qcow2" web01_img_broken).2
    = self web01_img_broken.
Proof.
  unshelve epose proof
    (create_disk_tool_failure "data.qcow2" 8 "qcow2" web01_img_broken _ _ _)
    as (H1 & H2 & _); [by_compute | by_compute | by_compute |].
  exact (conj H1 H2).
Defined.

(** X9: a size that [truncate] refuses (negative, or [2^63] bytes and
    more) on the branch without [qemu-img].  [create_disk] raises, nothing
    is registered and the configuration on disk is not written; but the
    target was opened for writing first, so it is left as an empty file,
    whatever it held. *)
Theorem create_disk_bad_size
    (dname : string) (gib : Z) (fmt : string) (st : St) :
  truthy_str (search_path (world st) !! "qemu-img") && negb (str_eqb fmt "raw") = false →
  gib < 0 ∨ 2 ^ 33 ≤ gib →
  fs (world st) !! path_join (disk_dir (world st) (name (self st))) dname ≠ Some Dir →
  fs (world st) !! dirname (path_join (disk_dir (world st) (name (self st))) dname)
    = Some Dir →
  create_disk dname gib fmt st
  = (inl (if Z.ltb gib 0 then OSError "Invalid argument" else OverflowError),
     {| self := self st;
        world := set_fs (<[path_join (disk_dir (world st) (name (self st))) dname :=
                             File (FSparse 0)]> (fs (world st)))
                        (world st) |}).
Proof.
  intros Hbr Hsz Ht Htd.
  unfold create_disk. unfold_m. unfold which. simpl.
  rewrite Hbr. rewrite open_w_ok by done. simpl. unfold truncate.
  change (1024 ^ 3) with (2 ^ 30).
  destruct (Z.ltb_spec gib 0).
  - destruct (Z.ltb_spec (gib * 2 ^ 30) 0); [done|lia].
  - destruct (Z.ltb_spec (gib * 2 ^ 30) 0); [lia|].
    destruct (Z.leb_spec (2 ^ 63) (gib * 2 ^ 30)); [done|lia].
Qed.

Lemma create_disk_bad_size_witness :
  (create_disk "d.raw" (-1) "raw" web01).1 = inl (OSError "Invalid argument")
  ∧ (create_disk "d.raw" (2 ^ 33) "raw" web01).1 = inl OverflowError.
Proof.
  unshelve epose proof (create_disk_bad_size "d.raw" (-1) "raw" web01 _ _ _ _) as H1;
    [by_compute | left; lia | by_compute | by_compute |].
  unshelve epose proof (create_disk_bad_size "d.raw" (2 ^ 33) "raw" web01 _ _ _ _) as H2;
    [by_compute | right; lia | by_compute | by_compute |].
  rewrite H1, H2. split; reflexivity.
Defined.

(** ** The launch command: what a build changes *)

Lemma build_frame_refl (st : St) : build_frame st st.
Proof. destruct st as [[] []]. by repeat split. Qed.

Lemma build_frame_trans (a b c : St) :
  build_frame a b → build_frame b c → build_frame a c.
Proof.
  intros (Hs1 & Hw1 & Hc1) (Hs2 & Hw2 & Hc2). split; [|split].
  - rewrite Hs2 at 1. by rewrite Hs1.
  - rewrite Hw2 at 1. by rewrite Hw1.
  - by rewrite Hc2.
Qed.

Lemma save_config_frame (st : St) : build_frame st (save_config None st).2.
Proof.
  destruct st as [[] []].
  unfold save_config, write_config, open_w, write_file. unfold_m. simpl.
  repeat (case_match; simpl in *; simplify_eq; try by repeat split).
Qed.

Lemma allocate_qmp_port_step : _allocate_qmp_port = alloc_step set_adv_qmp_port.
Proof. reflexivity. Qed.

Lemma alloc_step_returns (setp : Z → Advanced → Advanced) (st : St) (p : Z) :
  (alloc_step setp st).1 = inr p →
  head (free_ports (world st)) = Some p
  ∧ (alloc_step setp st).2 = allocated setp p st.
Proof.
  unfold alloc_step. unfold_m. unfold bind_free_port.
  destruct (free_ports (world st)) as [|p' rest] eqn:Hf; [done|].
  cbn [self world].
  set (st1 := {| self := set_config _ (self st); world := set_free_ports rest (world st) |}).
  pose proof (save_config_returns None st1) as Hs.
  destruct (save_config None st1) as [[e|[]] st2]; [done|].
  specialize (Hs eq_refl). injection Hs as ->.
  cbn [fst snd]. intros [= ->]. split; [done|].
  unfold allocated. by rewrite Hf.
Qed.

Lemma alloc_step_frame (setp : Z → Advanced → Advanced) (st : St) :
  build_frame st (alloc_step setp st).2.
Proof.
  unfold alloc_step. unfold_m. unfold bind_free_port.
  destruct (free_ports (world st)) as [|p' rest] eqn:Hf.
  - cbn. rewrite st_eta. apply build_frame_refl.
  - cbn [self world].
    set (st1 := {| self := set_config _ (self st); world := set_free_ports rest (world st) |}).
    assert (H1 : build_frame st st1).
    { destruct st as [[] []]. by repeat split. }
    pose proof (save_config_frame st1) as H2.
    destruct (save_config None st1) as [[e|[]] st2]; cbn [snd] in *;
      by apply (build_frame_trans _ st1).
Qed.

(** [vnc_args], by cases. *)
Lemma vnc_args_cases (st : St) :
  vnc_args st
  = if truthy_int (vnc_port (get_advanced (config (self st))))
    then (inr ["-vnc"; "127.0.0.1:"
                 +:+ str_of_int (default 0 (vnc_port (get_advanced (config (self st))))
                                 - 5900)], st)
    else match alloc_step set_vnc_port st with
         | (inr p, st') => (inr ["-vnc"; "127.0.0.1:" +:+ str_of_int (p - 5900)], st')
         | (inl e, st') => (inl e, st')
         end.
Proof.
  unfold vnc_args. unfold bind at 1. unfold get_self at 1.
  destruct (truthy_int _); [done|].
  fold (alloc_step set_vnc_port). unfold bind.
  by destruct (alloc_step set_vnc_port st) as [[e|p] st'].
Qed.

Lemma graphics_args_frame (embed_window_id : option Z) (st : St) :
  build_frame st (graphics_args embed_window_id st).2.
Proof.
  unfold graphics_args. unfold bind at 1. unfold get_self at 1.
  repeat (case_match; try apply build_frame_refl).
  rewrite vnc_args_cases. destruct (truthy_int _); [apply build_frame_refl|].
  pose proof (alloc_step_frame set_vnc_port st) as Hfr.
  by destruct (alloc_step set_vnc_port st) as [[e|p] st'].
Qed.

(** [graphics_args] when it returns: nothing changed, the VNC port being
    there if the graphics is [vnc]; or the VNC port was allocated. *)
Lemma graphics_args_returns (embed_window_id : option Z) (st : St) (g : list string) :
  (graphics_args embed_window_id st).1 = inr g →
  ((graphics_args embed_window_id st).2 = st
   ∧ (default "sdl" (graphics (config (self st))) = "vnc" →
      truthy_int (vnc_port (get_advanced (config (self st)))) = true))
  ∨ (∃ p, head (free_ports (world st)) = Some p
          ∧ (graphics_args embed_window_id st).2 = allocated set_vnc_port p st).
Proof.
  unfold graphics_args, bind, get_self. cbn beta.
  destruct (str_eqb _ "none") eqn:E1.
  { intros _. left. split; [done|]. apply str_eqb_eq in E1.
    intros Hv. rewrite E1 in Hv. discriminate Hv. }
  destruct (str_eqb _ "sdl") eqn:E2.
  { intros _. left. apply str_eqb_eq in E2.
    split; [by destruct (_ && _)|].
    intros Hv. rewrite E2 in Hv. discriminate Hv. }
  destruct (str_eqb _ "gtk") eqn:E3.
  { intros _. left. split; [done|]. apply str_eqb_eq in E3.
    intros Hv. rewrite E3 in Hv. discriminate Hv. }
  destruct (str_eqb _ "vnc") eqn:E4.
  2:{ intros _. left. split; [done|]. apply str_eqb_ne in E4. done. }
  rewrite vnc_args_cases. destruct (truthy_int _) eqn:Ht.
  { intros _. by left. }
  pose proof (alloc_step_returns set_vnc_port st) as H.
  destruct (alloc_step set_vnc_port st) as [[e|p] st']; [done|].
  intros _. right. exists p. by destruct (H p eq_refl).
Qed.

(** [emit_cmd], by stages. *)
Lemma emit_cmd_cases (qemu : string) (embed_window_id : option Z) (st : St) :
  emit_cmd qemu embed_window_id st
  = match graphics_args embed_window_id st with
    | (inl e, st1) => (inl e, st1)
    | (inr g, st1) =>
        let cfg0 := config (self st) in
        let cfg1 := config (self st1) in
        if truthy_int (adv_qmp_port (get_advanced cfg1))
        then (inr (cmd_of qemu cfg0 g cfg1
                     (default 0 (adv_qmp_port (get_advanced cfg1))) st1), st1)
        else match alloc_step set_adv_qmp_port st1 with
             | (inl e, st2) => (inl e, st2)
             | (inr port, st2) => (inr (cmd_of qemu cfg0 g cfg1 port st2), st2)
             end
    end.
Proof.
  unfold emit_cmd. unfold bind at 1. unfold get_self at 1. unfold bind at 1.
  destruct (graphics_args embed_window_id st) as [[e|g] st1]; [done|].
  unfold bind at 1. unfold get_self at 1. unfold bind at 1. cbn zeta.
  destruct (truthy_int _).
  - unfold_m. cbn. rewrite st_eta. unfold cmd_of. by rewrite <- !app_assoc.
  - rewrite allocate_qmp_port_step.
    destruct (alloc_step set_adv_qmp_port st1) as [[e|p] st2]; [done|].
    unfold_m. cbn. rewrite st_eta. unfold cmd_of. by rewrite <- !app_assoc.
Qed.

Lemma emit_cmd_frame (qemu : string) (embed_window_id : option Z) (st : St) :
  build_frame st (emit_cmd qemu embed_window_id st).2.
Proof.
  rewrite emit_cmd_cases.
  pose proof (graphics_args_frame embed_window_id st) as Hg.
  destruct (graphics_args embed_window_id st) as [[e|g] st1]; [done|].
  cbn [snd] in Hg. cbn zeta.
  destruct (truthy_int _); [done|].
  pose proof (alloc_step_frame set_adv_qmp_port st1) as Ha.
  destruct (alloc_step set_adv_qmp_port st1) as [[e|p] st2]; cbn [snd] in *;
    by apply (build_frame_trans _ st1).
Qed.

(** [emit_cmd] when it returns: the two stages, and the command. *)
Lemma emit_cmd_returns (qemu : string) (embed_window_id : option Z) (st : St)
    (c : list string) :
  (emit_cmd qemu embed_window_id st).1 = inr c →
  ∃ (g : list string) (port : Z) (st1 : St),
    graphics_args embed_window_id st = (inr g, st1)
    ∧ ((st1 = st
      ∧ (default "sdl" (graphics (config (self st))) = "vnc" →
         truthy_int (vnc_port (get_advanced (config (self st)))) = true))
     ∨ (∃ p, head (free_ports (world st)) = Some p
             ∧ st1 = allocated set_vnc_port p st))
    ∧ (((emit_cmd qemu embed_window_id st).2 = st1
        ∧ truthy_int (adv_qmp_port (get_advanced (config (self st1)))) = true
        ∧ adv_qmp_port (get_advanced (config (self st1))) = Some port)
       ∨ (head (free_ports (world st1)) = Some port
          ∧ truthy_int (adv_qmp_port (get_advanced (config (self st1)))) = false
          ∧ (emit_cmd qemu embed_window_id st).2 = allocated set_adv_qmp_port port st1))
    ∧ c = cmd_of qemu (config (self st)) g (config (self st1)) port
            (emit_cmd qemu embed_window_id st).2.
Proof.
  rewrite emit_cmd_cases.
  pose proof (graphics_args_returns embed_window_id st) as Hg.
  destruct (graphics_args embed_window_id st) as [[e|g] st1] eqn:Eg; [done|].
  specialize (Hg g eq_refl). cbn [snd] in Hg. cbn zeta.
  destruct (truthy_int (adv_qmp_port (get_advanced (config (self st1))))) eqn:Ht.
  - cbn [fst snd]. intros [= <-].
    exists g, (default 0 (adv_qmp_port (get_advanced (config (self st1))))), st1.
    split; [done|].
    split; [destruct Hg as [[-> ?]|[p [? ->]]]; eauto|].
    split; [|done].
    left. split; [done|]. split; [done|].
    destruct (adv_qmp_port _); [done|discriminate Ht].
  - pose proof (alloc_step_returns set_adv_qmp_port st1) as Ha.
    destruct (alloc_step set_adv_qmp_port st1) as [[e|p] st2]; [done|].
    destruct (Ha p eq_refl) as [Hh Hst2]. cbn [snd] in Hst2.
    cbn [fst snd]. intros [= <-].
    exists g, p, st1.
    split; [done|].
    split; [destruct Hg as [[-> ?]|[p' [? ->]]]; eauto|].
    split; [|done]. right. done.
Qed.

Lemma machine_to_boot_args_strip (c : VMConfig) :
  machine_to_boot_args (strip_ports c) = machine_to_boot_args c.
Proof. by destruct c as [? ? ? ? ? ? ? ? ? ? ? ? ? ? ? [[]|] ? ? ? ? ?]. Qed.

Lemma network_args_strip (c : VMConfig) :
  network_args (strip_ports c) = network_args c.
Proof. by destruct c as [? ? ? ? ? ? ? ? ? ? ? ? ? ? ? [[]|] ? ? ? ? ?]. Qed.

Lemma tail_args_strip (w : World) (n : string) (c : VMConfig) :
  tail_args w n (strip_ports c) = tail_args w n c.
Proof. by destruct c as [? ? ? ? ? ? ? ? ? ? ? ? ? ? ? [[]|] ? ? ? ? ?]. Qed.

Lemma strip_ports_allocated (setp : Z → Advanced → Advanced) (p : Z) (st : St) :
  setp = set_vnc_port ∨ setp = set_adv_qmp_port →
  strip_ports (config (self (allocated setp p st))) = strip_ports (config (self st)).
Proof.
  destruct st as [[n c pr qs qp dw] w]. intros [-> | ->];
    by destruct c as [? ? ? ? ? ? ? ? ? ? ? ? ? ? ? [[]|] ? ? ? ? ?].
Qed.

Lemma allocated_synced (setp : Z → Advanced → Advanced) (p : Z) (st : St) :
  synced (allocated setp p st).
Proof.
  unfold synced, allocated. cbn [self world fs set_fs]. simpl.
  destruct st as [[] []]. simpl. apply lookup_insert_eq.
Qed.

Lemma truthy_int_Some (p : Z) : p ≠ 0 → truthy_int (Some p) = true.
Proof. intros H. simpl. by destruct (Z.eqb_spec p 0). Qed.

Lemma head_nonzero (l : list Z) (p : Z) :
  Forall (λ x, x ≠ 0) l → head l = Some p → p ≠ 0.
Proof. destruct l; [done|]. intros H [= <-]. by inversion H. Qed.

Lemma tail_nonzero (l : list Z) :
  Forall (λ x, x ≠ 0) l → Forall (λ x, x ≠ 0) (tail l).
Proof. destruct l; [done|]. intros H. by inversion H. Qed.

Lemma find_qemu_in_frame (cs : list string) (f : gmap string Node) (ps : list Z)
    (w : World) :
  (find_qemu_in cs (set_free_ports ps (set_fs f w))).1 = (find_qemu_in cs w).1.
Proof.
  induction cs as [|c cs IH]; simpl; [done|].
  unfold bind, which. simpl.
  destruct (truthy_str (search_path w !! c)); [done|apply IH].
Qed.

Lemma ensure_primary_disk_build_frame (st : St) :
  build_frame st (ensure_primary_disk st).2.
Proof.
  destruct (ensure_primary_disk_frame st) as [Hs Hw].
  split; [|split].
  - destruct Hs as [->|[_ ->]]; [by destruct (self st)|done].
  - assert (free_ports (world (ensure_primary_disk st).2) = free_ports (world st))
      as -> by (by rewrite Hw).
    rewrite Hw at 1. by destruct (world st).
  - destruct Hs as [->|[_ ->]]; [done|].
    unfold registered. simpl. by destruct (config (self st)).
Qed.

(** [build_qemu_cmd] when it returns: the hypervisor was found, the
    primary disk is there, and the rest is [emit_cmd]. *)
Lemma build_qemu_cmd_stages (embed_window_id : option Z) (st : St) (c : list string) :
  (build_qemu_cmd embed_window_id st).1 = inr c →
  ∃ q, (find_qemu (world st)).1 = inr (Some q)
       ∧ q ≠ ""
       ∧ (ensure_primary_disk st).1 = inr tt
       ∧ build_qemu_cmd embed_window_id st
         = emit_cmd q embed_window_id (ensure_primary_disk st).2.
Proof.
  intros Hc. destruct (find_qemu_inr (world st)) as [q Hq].
  destruct (truthy_str q) eqn:Ht.
  - rewrite (build_qemu_cmd_found _ _ q) in Hc |- * by (rewrite ?Hq; done).
    destruct q as [q|]; [|done]. exists q. rewrite Hq.
    split; [done|]. split.
    { intros ->. done. }
    destruct (ensure_primary_disk st) as [[e|[]] st0]; [done|]. done.
  - unfold build_qemu_cmd, bind, lift in Hc. rewrite Hq in Hc. simpl in Hc.
    by rewrite Ht in Hc.
Qed.

Lemma build_qemu_cmd_not_found (embed_window_id : option Z) (st : St) (q : option string) :
  (find_qemu (world st)).1 = inr q →
  truthy_str q = false →
  build_qemu_cmd embed_window_id st = (inl HypervisorNotFound, st).
Proof.
  intros Hq Ht. destruct (find_qemu_inr (world st)) as [q' Hq'].
  rewrite Hq' in Hq. simpl in Hq. simplify_eq.
  unfold build_qemu_cmd, bind, lift. rewrite Hq'. simpl. rewrite Ht. simpl.
  by rewrite st_eta.
Qed.

Lemma build_frame_of_build (embed_window_id : option Z) (st : St) :
  build_frame st (build_qemu_cmd embed_window_id st).2.
Proof.
  destruct (find_qemu_inr (world st)) as [q Hq].
  destruct (truthy_str q) eqn:Ht.
  - rewrite (build_qemu_cmd_found _ _ q) by (rewrite ?Hq; done).
    pose proof (ensure_primary_disk_build_frame st) as H0.
    destruct (ensure_primary_disk st) as [[e|[]] st0]; cbn [fst snd] in *; [done|].
    apply (build_frame_trans _ st0); [done|]. apply emit_cmd_frame.
  - rewrite (build_qemu_cmd_not_found _ _ q) by (rewrite ?Hq; done).
    apply build_frame_refl.
Qed.

(** X10: building the command changes, in the VM object, the [disks] and
    [advanced] keys of the configuration and nothing else; in the world,
    files and the free ports and nothing else: whatever the outcome, no
    process is spawned, no thread is started, and the connected sockets
    are as they were. *)
Theorem build_qemu_cmd_frame (embed_window_id : option Z) (st : St) :
  build_frame st (build_qemu_cmd embed_window_id st).2.
Proof. apply build_frame_of_build. Qed.

Lemma drive_opt_in (ds : list DiskSpec) (d : DiskSpec) :
  d ∈ ds → drive_opt d ∈ drive_args ds.
Proof.
  induction 1 as [d ds|d d' ds _ IH]; unfold drive_args; simpl.
  - apply elem_of_cons. right. apply elem_of_cons. by left.
  - apply elem_of_cons. right. apply elem_of_cons. by right.
Qed.

Lemma strip_ports_disks (c1 c2 : VMConfig) :
  strip_ports c1 = strip_ports c2 → get_disks c1 = get_disks c2.
Proof.
  intros H. unfold get_disks.
  change (disks c1) with (disks (strip_ports c1)). by rewrite H.
Qed.

(** The configuration after [emit_cmd] returned is the one before, ports
    apart. *)
Lemma emit_cmd_strip (qemu : string) (embed_window_id : option Z) (st : St)
    (c : list string) :
  (emit_cmd qemu embed_window_id st).1 = inr c →
  strip_ports (config (self (emit_cmd qemu embed_window_id st).2))
  = strip_ports (config (self st)).
Proof.
  intros Hc. apply emit_cmd_returns in Hc as (g & port & st1 & _ & H1 & H2 & _).
  assert (E1 : strip_ports (config (self st1)) = strip_ports (config (self st))).
  { destruct H1 as [[-> _]|(p & _ & ->)]; [done|].
    apply strip_ports_allocated; auto. }
  destruct H2 as [(-> & _)|(_ & _ & ->)]; [done|].
  rewrite strip_ports_allocated by auto. done.
Qed.

Lemma build_leaves_drives (embed_window_id : option Z) (st : St) (c : list string) :
  (build_qemu_cmd embed_window_id st).1 = inr c →
  get_disks (config (self (build_qemu_cmd embed_window_id st).2)) ≠ []
  ∧ ∀ d, d ∈ get_disks (config (self (build_qemu_cmd embed_window_id st).2)) →
         "-drive" ∈ c ∧ drive_opt d ∈ c.
Proof.
  intros Hc.
  destruct (build_qemu_cmd_stages _ _ _ Hc) as (q & Hq & Hne & Hr & Hb).
  rewrite Hb in Hc |- *.
  assert (Hd0 : get_disks (config (self (ensure_primary_disk st).2)) ≠ []).
  { rewrite ensure_primary_disk_returns by done.
    destruct (get_disks (config (self st))) eqn:Hd; [|by rewrite Hd].
    unfold registered. simpl. unfold get_disks at 1. simpl. rewrite Hd. done. }
  set (st0 := (ensure_primary_disk st).2) in *.
  pose proof (emit_cmd_strip _ _ _ _ Hc) as Hs. apply strip_ports_disks in Hs.
  rewrite Hs. split; [done|].
  intros d Hd.
  apply emit_cmd_returns in Hc as (g & port & st1 & _ & _ & _ & ->).
  unfold cmd_of, machine_to_boot_args.
  assert (Hin : drive_opt d ∈ drive_args (get_disks (config (self st0))))
    by by apply drive_opt_in.
  assert (Hdr : "-drive" ∈ drive_args (get_disks (config (self st0)))).
  { destruct (get_disks (config (self st0))); [done|].
    apply elem_of_cons. by left. }
  rewrite !elem_of_app. split; right; left; do 5 right; by left.
Qed.

(** X11: a build that returns leaves at least one disk registered, and the
    command has a [-drive] option for every registered disk. *)
Theorem build_qemu_cmd_drives (embed_window_id : option Z) (st : St) (c : list string) :
  (build_qemu_cmd embed_window_id st).1 = inr c →
  get_disks (config (self (build_qemu_cmd embed_window_id st).2)) ≠ []
  ∧ ∀ d, d ∈ get_disks (config (self (build_qemu_cmd embed_window_id st).2)) →
         "-drive" ∈ c ∧ drive_opt d ∈ c.
Proof. apply build_leaves_drives. Qed.

Lemma build_qemu_cmd_drives_witness :
  get_disks (config (self (build_qemu_cmd None web01).2)) ≠ [].
Proof.
  unshelve epose proof (build_qemu_cmd_drives None web01 web01_cmd _) as [H _];
    [by_compute|].
  exact H.
Defined.

Lemma save_config_synced (cfg : option VMConfig) (st : St) :
  (save_config cfg st).1 = inr tt → synced (save_config cfg st).2.
Proof.
  intros Hr. rewrite (save_config_returns cfg st Hr).
  unfold synced. cbn [snd self world fs set_fs].
  change (config_path _ _) with (config_path (world st) (name (self st))).
  by rewrite lookup_insert_eq.
Qed.

(** [create_disk] ends with [save_config]. *)
Lemma create_disk_tail (dname : string) (gib : Z) (fmt : string) (st : St) :
  (create_disk dname gib fmt st).1 = inr tt →
  ∃ st1, create_disk dname gib fmt st = save_config None st1.
Proof.
  unfold create_disk, which, run_qemu_img_create, open_w, truncate.
  unfold_m. cbn -[save_config].
  repeat (case_match; cbn -[save_config] in *; simplify_eq; try done);
    intros _; eexists; reflexivity.
Qed.

Lemma create_disk_synced (dname : string) (gib : Z) (fmt : string) (st : St) :
  (create_disk dname gib fmt st).1 = inr tt →
  synced (create_disk dname gib fmt st).2.
Proof.
  intros Hr. destruct (create_disk_tail _ _ _ _ Hr) as [st1 E].
  rewrite E in Hr |- *. by apply save_config_synced.
Qed.

Lemma ensure_primary_disk_synced (st : St) :
  synced st →
  (ensure_primary_disk st).1 = inr tt →
  synced (ensure_primary_disk st).2.
Proof.
  intros Hs Hr. destruct (get_disks (config (self st))) eqn:Hd.
  - rewrite ensure_primary_disk_empty in * by done. by apply create_disk_synced.
  - by rewrite ensure_primary_disk_nonempty by (by rewrite Hd).
Qed.

Lemma emit_cmd_synced (qemu : string) (embed_window_id : option Z) (st : St)
    (c : list string) :
  synced st →
  (emit_cmd qemu embed_window_id st).1 = inr c →
  synced (emit_cmd qemu embed_window_id st).2.
Proof.
  intros Hs Hc. apply emit_cmd_returns in Hc as (g & port & st1 & _ & H1 & H2 & _).
  destruct H2 as [(-> & _)|(_ & _ & ->)]; [|apply allocated_synced].
  destruct H1 as [[-> _]|(p & _ & ->)]; [done|apply allocated_synced].
Qed.

(** X12: a build that returns leaves nothing unsaved: when the configuration
    in memory was the one on disk before, it is afterwards, with every
    disk the build registered and every port it allocated. *)
Theorem build_qemu_cmd_synced (embed_window_id : option Z) (st : St) (c : list string) :
  synced st →
  (build_qemu_cmd embed_window_id st).1 = inr c →
  synced (build_qemu_cmd embed_window_id st).2.
Proof.
  intros Hs Hc.
  destruct (build_qemu_cmd_stages _ _ _ Hc) as (q & Hq & Hne & Hr & Hb).
  rewrite Hb in Hc |- *.
  eapply emit_cmd_synced; [|done]. by apply ensure_primary_disk_synced.
Qed.

Lemma build_qemu_cmd_synced_witness : synced (build_qemu_cmd None web01).2.
Proof.
  unshelve epose proof (build_qemu_cmd_synced None web01 web01_cmd _ _) as H;
    [unfold synced; by_compute | by_compute |].
  exact H.
Defined.

Lemma config_allocated (setp : Z → Advanced → Advanced) (p : Z) (st : St) :
  config (self (allocated setp p st))
  = set_advanced (setp p (get_advanced (config (self st)))) (config (self st)).
Proof. by destruct st as [[] ?]. Qed.

Lemma free_ports_allocated (setp : Z → Advanced → Advanced) (p : Z) (st : St) :
  free_ports (world (allocated setp p st)) = tail (free_ports (world st)).
Proof. done. Qed.

Lemma graphics_strip (c : VMConfig) : graphics (strip_ports c) = graphics c.
Proof. done. Qed.

Lemma display_embed_strip (c : VMConfig) :
  display_embed (strip_ports c) = display_embed c.
Proof. done. Qed.

(** Once [graphics_args] returned, it returns the same tokens and changes
    nothing on any state with the same graphics settings and VNC port. *)
Lemma graphics_args_again (embed_window_id : option Z) (st st1 st2 : St)
    (g : list string) :
  graphics_args embed_window_id st = (inr g, st1) →
  (∀ p, head (free_ports (world st)) = Some p → p ≠ 0) →
  graphics (config (self st2)) = graphics (config (self st)) →
  display_embed (config (self st2)) = display_embed (config (self st)) →
  vnc_port (get_advanced (config (self st2)))
  = vnc_port (get_advanced (config (self st1))) →
  graphics_args embed_window_id st2 = (inr g, st2).
Proof.
  intros Hg Hp Hgr Hde Hv. revert Hg.
  unfold graphics_args, bind, get_self. cbn beta. rewrite Hgr, Hde.
  destruct (str_eqb _ "none"); [by intros [= <- <-]|].
  destruct (str_eqb _ "sdl").
  { destruct (_ && _); by intros [= <- <-]. }
  destruct (str_eqb _ "gtk"); [by intros [= <- <-]|].
  destruct (str_eqb _ "vnc"); [|by intros [= <- <-]].
  rewrite !vnc_args_cases.
  destruct (truthy_int (vnc_port (get_advanced (config (self st))))) eqn:Ht.
  - intros [= <- <-]. by rewrite Hv, Ht.
  - pose proof (alloc_step_returns set_vnc_port st) as Ha.
    destruct (alloc_step set_vnc_port st) as [[e|p] st']; [done|].
    destruct (Ha p eq_refl) as [Hh Hst]. cbn [snd] in Hst.
    intros [= <- <-]. rewrite Hv, Hst, config_allocated.
    change (vnc_port (get_advanced (set_advanced (set_vnc_port p _) _)))
      with (Some p).
    rewrite truthy_int_Some by auto. done.
Qed.

(** X13: the first build settles the ports.  When the ports the system
    hands out are not 0, a build that returns leaves in [advanced] every
    port the command needs, and building again on the state it left
    returns the same command line and changes nothing. *)
Theorem build_qemu_cmd_settles (embed_window_id : option Z) (st : St) (c : list string) :
  Forall (λ p, p ≠ 0) (free_ports (world st)) →
  (build_qemu_cmd embed_window_id st).1 = inr c →
  ports_allocated (config (self (build_qemu_cmd embed_window_id st).2))
  ∧ build_qemu_cmd embed_window_id (build_qemu_cmd embed_window_id st).2
    = (inr c, (build_qemu_cmd embed_window_id st).2).
Proof.
  intros Hf Hc.
  pose proof (build_frame_of_build embed_window_id st) as (_ & Hw & _).
  pose proof (build_leaves_drives _ _ _ Hc) as [Hd _].
  destruct (build_qemu_cmd_stages _ _ _ Hc) as (q & Hq & Hne & Hr & Hb).
  rewrite Hb in Hc, Hw, Hd |- *.
  destruct (ensure_primary_disk_frame st) as [_ Hw0].
  assert (Hf0 : Forall (λ p, p ≠ 0) (free_ports (world (ensure_primary_disk st).2)))
    by (by rewrite Hw0).
  set (st0 := (ensure_primary_disk st).2) in *. clearbody st0.
  pose proof (emit_cmd_strip _ _ _ _ Hc) as Hstrip.
  destruct (emit_cmd_returns _ _ _ _ Hc) as (g & port & st1 & Hg & H1 & H2 & Hcmd).
  set (st' := (emit_cmd q embed_window_id st0).2) in *.
  assert (Hf1 : Forall (λ p, p ≠ 0) (free_ports (world st1))).
  { destruct H1 as [[-> _]|(p & _ & ->)]; [done|].
    rewrite free_ports_allocated. by apply tail_nonzero. }
  assert (Hstrip1 : strip_ports (config (self st1)) = strip_ports (config (self st0))).
  { destruct H1 as [[-> _]|(p & _ & ->)]; [done|].
    apply strip_ports_allocated; auto. }
  assert (Hv1 : default "sdl" (graphics (config (self st0))) = "vnc" →
                truthy_int (vnc_port (get_advanced (config (self st1)))) = true).
  { destruct H1 as [[-> H]|(p & Hp & ->)]; [done|]. intros _.
    rewrite config_allocated.
    change (vnc_port (get_advanced (set_advanced (set_vnc_port p _) _)))
      with (Some p).
    apply truthy_int_Some. exact (head_nonzero _ _ Hf0 Hp). }
  assert (Hv' : vnc_port (get_advanced (config (self st')))
                = vnc_port (get_advanced (config (self st1)))).
  { destruct H2 as [(-> & _)|(_ & _ & ->)]; [done|].
    rewrite config_allocated. done. }
  assert (Hq' : adv_qmp_port (get_advanced (config (self st'))) = Some port
                ∧ port ≠ 0).
  { destruct H2 as [(-> & Ht & Hp)|(Hp & _ & ->)].
    - split; [done|]. rewrite Hp in Ht. simpl in Ht.
      intros ->. done.
    - rewrite config_allocated. split; [done|]. exact (head_nonzero _ _ Hf1 Hp). }
  destruct Hq' as [Hq' Hport].
  assert (Hpa : ports_allocated (config (self st'))).
  { split.
    - rewrite Hq'. by apply truthy_int_Some.
    - rewrite <- graphics_strip, Hstrip, graphics_strip, Hv'. done. }
  split; [done|].
  assert (Hq1 : (find_qemu (world st')).1 = inr (Some q)).
  { rewrite Hw. unfold find_qemu. rewrite find_qemu_in_frame.
    fold find_qemu. done. }
  rewrite (build_qemu_cmd_found _ _ (Some q)); [|done|].
  2:{ simpl. by rewrite (proj2 (str_eqb_ne q "") Hne). }
  rewrite (ensure_primary_disk_nonempty _ Hd). cbn [fst snd].
  rewrite emit_cmd_cases.
  rewrite (graphics_args_again embed_window_id st0 st1 st' g Hg).
  - cbn zeta. destruct Hpa as [-> _]. rewrite Hq'. cbn [default].
    f_equal. rewrite Hcmd. unfold cmd_of.
    rewrite <- (machine_to_boot_args_strip (config (self st'))), Hstrip,
      machine_to_boot_args_strip.
    rewrite <- (network_args_strip (config (self st'))), Hstrip, <- Hstrip1,
      network_args_strip.
    done.
  - intros p Hp. exact (head_nonzero _ _ Hf0 Hp).
  - by rewrite <- graphics_strip, Hstrip, graphics_strip.
  - by rewrite <- display_embed_strip, Hstrip, display_embed_strip.
  - done.
Qed.

Lemma build_qemu_cmd_settles_witness :
  ports_allocated (config (self (build_qemu_cmd None web01).2))
  ∧ build_qemu_cmd None (build_qemu_cmd None web01).2
    = (inr web01_cmd, (build_qemu_cmd None web01).2).
Proof.
  unshelve epose proof (build_qemu_cmd_settles None web01 web01_cmd _ _) as H;
    [repeat constructor; lia | by_compute |].
  exact H.
Defined.

Lemma qmp_port_of_build (embed_window_id : option Z) (st : St) (c : list string) :
  (build_qemu_cmd embed_window_id st).1 = inr c →
  ∃ port pre post,
    adv_qmp_port (get_advanced (config (self (build_qemu_cmd embed_window_id st).2)))
    = Some port
    ∧ c = pre ++ ["-qmp"; "tcp:127.0.0.1:" +:+ str_of_int port +:+ ",server,nowait"]
            ++ post.
Proof.
  intros Hc.
  destruct (build_qemu_cmd_stages _ _ _ Hc) as (q & Hq & Hne & Hr & Hb).
  rewrite Hb in Hc |- *.
  destruct (emit_cmd_returns _ _ _ _ Hc) as (g & port & st1 & Hg & H1 & H2 & Hcmd).
  exists port,
    ([q] ++ machine_to_boot_args (config (self (ensure_primary_disk st).2)) ++ g
     ++ network_args (config (self st1))),
    (tail_args (world (emit_cmd q embed_window_id (ensure_primary_disk st).2).2)
       (name (self (emit_cmd q embed_window_id (ensure_primary_disk st).2).2))
       (config (self (emit_cmd q embed_window_id (ensure_primary_disk st).2).2))).
  split.
  - destruct H2 as [(-> & _ & Hp)|(_ & _ & ->)]; [done|].
    by rewrite config_allocated.
  - rewrite Hcmd. unfold cmd_of. by rewrite <- !app_assoc.
Qed.

(** X14: the control port of the command is the one in the configuration.
    A build that returns leaves a port in [advanced], and the command has
    [-qmp tcp:127.0.0.1:<that port>,server,nowait]. *)
Theorem build_qemu_cmd_qmp_port (embed_window_id : option Z) (st : St) (c : list string) :
  (build_qemu_cmd embed_window_id st).1 = inr c →
  ∃ port pre post,
    adv_qmp_port (get_advanced (config (self (build_qemu_cmd embed_window_id st).2)))
    = Some port
    ∧ c = pre ++ ["-qmp"; "tcp:127.0.0.1:" +:+ str_of_int port +:+ ",server,nowait"]
            ++ post.
Proof. apply qmp_port_of_build. Qed.

Lemma build_qemu_cmd_qmp_port_witness :
  ∃ port pre post,
    adv_qmp_port (get_advanced (config (self (build_qemu_cmd None web01).2)))
    = Some port
    ∧ web01_cmd
      = pre ++ ["-qmp"; "tcp:127.0.0.1:" +:+ str_of_int port +:+ ",server,nowait"]
            ++ post.
Proof.
  unshelve epose proof (build_qemu_cmd_qmp_port None web01 web01_cmd _) as H;
    [by_compute|].
  exact H.
Defined.

(** ** Starting *)

Lemma is_running_world (st : St) : (is_running st).2 = st.
Proof.
  unfold is_running, bind, get_self, lift, poll, ret.
  destruct (proc (self st)); cbn; by rewrite ?st_eta.
Qed.

Lemma is_running_stopped (st : St) : stopped st → is_running st = (inr false, st).
Proof.
  intros Hs. unfold is_running, bind, get_self, lift, poll, ret.
  destruct (proc (self st)) as [pid|] eqn:Hp; [|done].
  destruct (Hs pid Hp) as [rc Hrc]. cbn. rewrite Hrc, st_eta.
  by rewrite bool_decide_eq_false_2.
Qed.

(** [start], by stages. *)
Lemma start_cases (embed_window_id : option Z) (stdout_cb stderr_cb exit_cb : bool)
    (st : St) :
  start embed_window_id stdout_cb stderr_cb exit_cb st
  = match (is_running st).1 with
    | inl e => (inl e, st)
    | inr true => (inl AlreadyRunning, st)
    | inr false =>
        match build_qemu_cmd embed_window_id st with
        | (inl e, st1) => (inl e, st1)
        | (inr c, st1) =>
            let pid := length (spawned (world st1)) in
            (inr tt,
             {| self := set_qmp_port (adv_qmp_port (get_advanced (config (self st1))))
                          (set_proc (Some pid) (self st1));
                world :=
                  add_thread ConnectQmp
                    (add_thread (WaitProc pid exit_cb)
                       ((if stderr_cb then add_thread (ReadStderr pid) else id)
                          ((if stdout_cb then add_thread (ReadStdout pid) else id)
                             (set_spawned (spawned (world st1) ++ [c]) (world st1))))) |})
        end
    end.
Proof.
  unfold start. unfold bind at 1.
  pose proof (is_running_world st) as Hw.
  destruct (is_running st) as [[e|[]] st0]; cbn [fst snd] in *; subst st0;
    [done|done|].
  unfold bind at 1.
  destruct (build_qemu_cmd embed_window_id st) as [[e|c] st1]; [done|].
  unfold bind, lift, Popen, get_self, put_self, start_thread, ret.
  destruct stdout_cb, stderr_cb; reflexivity.
Qed.

Lemma build_frame_world (st st' : St) :
  build_frame st st' →
  spawned (world st') = spawned (world st)
  ∧ threads (world st') = threads (world st)
  ∧ sockets (world st') = sockets (world st)
  ∧ exited (world st') = exited (world st).
Proof. intros (_ & -> & _). done. Qed.

Lemma build_frame_self (st st' : St) :
  build_frame st st' →
  name (self st') = name (self st)
  ∧ proc (self st') = proc (self st)
  ∧ qmp_sock (self st') = qmp_sock (self st)
  ∧ qmp_port (self st') = qmp_port (self st)
  ∧ display_window_id (self st') = display_window_id (self st).
Proof. intros (-> & _ & _). done. Qed.

(** X15: starting a VM that is not running (no process yet, or one that has
    exited), when the build returns the command [c].  [start] returns;
    exactly one process is spawned, with [c] as its argument vector, and
    the VM holds its handle; [qmp_port] is the control port of the
    configuration, the one in [c]; the reader threads asked for, the
    waiter and the connector are started, in this order; the control
    socket of the VM is left as it was. *)
Theorem start_spawns_once
    (embed_window_id : option Z) (stdout_cb stderr_cb exit_cb : bool)
    (st : St) (c : list string) :
  stopped st →
  (build_qemu_cmd embed_window_id st).1 = inr c →
  let st' := (start embed_window_id stdout_cb stderr_cb exit_cb st).2 in
  let pid := length (spawned (world st)) in
  (start embed_window_id stdout_cb stderr_cb exit_cb st).1 = inr tt
  ∧ spawned (world st') = spawned (world st) ++ [c]
  ∧ proc (self st') = Some pid
  ∧ qmp_port (self st') = adv_qmp_port (get_advanced (config (self st')))
  ∧ (∃ port pre post,
       qmp_port (self st') = Some port
       ∧ c = pre ++ ["-qmp"; "tcp:127.0.0.1:" +:+ str_of_int port +:+ ",server,nowait"]
               ++ post)
  ∧ threads (world st')
    = threads (world st)
      ++ (if stdout_cb then [ReadStdout pid] else [])
      ++ (if stderr_cb then [ReadStderr pid] else [])
      ++ [WaitProc pid exit_cb; ConnectQmp]
  ∧ qmp_sock (self st') = qmp_sock (self st).
Proof.
  intros Hs Hc.
  pose proof (build_frame_of_build embed_window_id st) as Hf.
  destruct (build_frame_world _ _ Hf) as (Hsp & Hth & _).
  destruct (build_frame_self _ _ Hf) as (_ & _ & Hqs & _).
  pose proof (qmp_port_of_build _ _ _ Hc) as (port & pre & post & Hp & Hcmd).
  cbn zeta. rewrite start_cases, (is_running_stopped st Hs). cbn [fst].
  destruct (build_qemu_cmd embed_window_id st) as [[e|c'] st1]; [done|].
  cbn [fst snd] in *. injection Hc as ->.
  cbn [self world qmp_port proc set_qmp_port set_proc config qmp_sock].
  rewrite <- Hsp, <- Hth, <- Hqs.
  split; [done|]. split; [by destruct stdout_cb, stderr_cb|].
  split; [done|]. split; [done|].
  split; [by exists port, pre, post|].
  split; [|done].
  destruct stdout_cb, stderr_cb; cbn; by rewrite <- ?app_assoc.
Qed.

Lemma start_spawns_once_witness :
  (start None true false true web01).1 = inr tt
  ∧ spawned (world (start None true false true web01).2)
    = spawned (world web01) ++ [web01_cmd].
Proof.
  unshelve epose proof (start_spawns_once None true false true web01 web01_cmd _ _)
    as (H1 & H2 & _);
    [intros pid H; vm_compute in H; discriminate H | by_compute |].
  exact (conj H1 H2).
Defined.

(** X16: a [start] that raises has spawned nothing: no process, no thread,
    and the VM holds the handle and the control socket it held. *)
Theorem start_raises_spawns_nothing
    (embed_window_id : option Z) (stdout_cb stderr_cb exit_cb : bool)
    (st : St) (e : exn) :
  (start embed_window_id stdout_cb stderr_cb exit_cb st).1 = inl e →
  let st' := (start embed_window_id stdout_cb stderr_cb exit_cb st).2 in
  spawned (world st') = spawned (world st)
  ∧ threads (world st') = threads (world st)
  ∧ proc (self st') = proc (self st)
  ∧ qmp_sock (self st') = qmp_sock (self st)
  ∧ (e = AlreadyRunning ∨ (build_qemu_cmd embed_window_id st).1 = inl e).
Proof.
  cbn zeta. rewrite start_cases.
  pose proof (is_running_world st) as Hw.
  destruct (is_running st) as [[e0|[]] st0] eqn:Hr; cbn [fst snd] in *.
  - revert Hr. unfold is_running, bind, get_self, lift, poll, ret.
    destruct (proc (self st)); done.
  - intros [= <-]. auto 10.
  - pose proof (build_frame_of_build embed_window_id st) as Hf.
    destruct (build_frame_world _ _ Hf) as (Hsp & Hth & _).
    destruct (build_frame_self _ _ Hf) as (_ & Hpr & Hqs & _).
    destruct (build_qemu_cmd embed_window_id st) as [[e1|c] st1]; [|done].
    cbn [fst snd] in *. intros [= <-]. auto 10.
Qed.

Lemma start_raises_spawns_nothing_witness :
  (start None true true true web01_bare).1 = inl HypervisorNotFound
  ∧ spawned (world (start None true true true web01_bare).2)
    = spawned (world web01_bare).
Proof.
  assert (H : (start None true true true web01_bare).1 = inl HypervisorNotFound)
    by by_compute.
  split; [exact H|].
  exact (proj1 (start_raises_spawns_nothing None true true true web01_bare
                  HypervisorNotFound H)).
Defined.

(** ** Stopping *)

Lemma sup_eta (s : Sup) : {| state := state s; signals := signals s |} = s.
Proof. by destruct s. Qed.

(** [stop], by stages. *)
Lemma stop_cases (L : PyLib) (s : Sup) :
  stop L s
  = match qmp_sock (self (state s)) with
    | Some _ =>
        match qmp_command L powerdown (state s) with
        | (inr _, st') => (inr tt, {| state := st'; signals := signals s |})
        | (inl _, st') =>
            ((inr tt), (terminate {| state := st'; signals := signals s |}).2)
        end
    | None => (inr tt, (terminate s).2)
    end.
Proof.
  unfold stop, terminate, catch, bind, lift_st, get_self, ret, send_signal.
  fold powerdown. generalize (qmp_command L powerdown). intros q.
  destruct s as [st sg]. cbv beta iota zeta delta [state signals].
  destruct (qmp_sock (self st)).
  - destruct (q st) as [[e|j] st']; cbv beta iota zeta delta [state signals snd];
      [|done].
    destruct (proc (self st')) as [pid|]; [|done].
    by destruct (exited (world st') !! pid).
  - destruct (proc (self st)) as [pid|]; [|done].
    by destruct (exited (world st) !! pid).
Qed.

Lemma sendall_frame (sid : nat) (data : string) (w : World) :
  (sendall sid data w).2 = set_sockets (sockets (sendall sid data w).2) w.
Proof.
  unfold sendall. destruct (sockets w !! sid) as [sk|]; [|by destruct w].
  destruct (connected sk); [|destruct (reset sk)]; by destruct w.
Qed.

Lemma recv_frame (sid n : nat) (w : World) :
  (recv sid n w).2 = set_sockets (sockets (recv sid n w).2) w.
Proof.
  unfold recv. destruct (sockets w !! sid) as [sk|]; [|by destruct w].
  destruct (inbox sk); [destruct (connected sk)|]; by destruct w.
Qed.

(** [qmp_command] touches the sockets and nothing else. *)
Lemma qmp_command_frame (L : PyLib) (cmd_obj : json) (st : St) :
  self (qmp_command L cmd_obj st).2 = self st
  ∧ world (qmp_command L cmd_obj st).2
    = set_sockets (sockets (world (qmp_command L cmd_obj st).2)) (world st).
Proof.
  assert (Hid : ∀ w, w = set_sockets (sockets w) w) by (by intros []).
  unfold qmp_command, bind, get_self, lift, raise.
  destruct (qmp_sock (self st)) as [sid|]; [|split; [reflexivity|apply Hid]].
  pose proof (sendall_frame sid (json_dumps L cmd_obj +:+ String "010" EmptyString)
                (world st)) as H1.
  destruct (sendall sid _ (world st)) as [[e|[]] w1]; cbn [snd] in H1;
    [split; [reflexivity|exact H1]|].
  change (world {| self := self st; world := w1 |}) with w1.
  pose proof (recv_frame sid RECV_SIZE w1) as H2.
  destruct (recv sid RECV_SIZE w1) as [[e|raw] w2]; cbn [snd] in H2.
  - split; [reflexivity|]. change (w2 = set_sockets (sockets w2) (world st)).
    rewrite H2 at 1. by rewrite H1.
  - unfold catch, loads, ret, raise.
    destruct (json_loads L _); (split; [reflexivity|]);
      change (w2 = set_sockets (sockets w2) (world st));
      rewrite H2 at 1; by rewrite H1.
Qed.

Lemma terminate_spec (s : Sup) :
  state (terminate s).2 = state s
  ∧ signals (terminate s).2
    = signals s
      ++ match proc (self (state s)) with
         | Some pid =>
             if bool_decide (exited (world (state s)) !! pid = None)
             then [(pid, SIGTERM)] else []
         | None => []
         end.
Proof.
  unfold terminate, send_signal.
  destruct (proc (self (state s))) as [pid|]; [|by rewrite app_nil_r].
  destruct (exited (world (state s)) !! pid); cbn; [by rewrite app_nil_r|done].
Qed.

(** X17: [stop] never raises, whatever the socket and the process do.  It
    leaves the VM object as it is, and in the world touches the control
    socket only; it sends no signal, or one [SIGTERM] to the process the
    VM holds, and that only to a process that has not exited. *)
Theorem stop_never_raises (L : PyLib) (s : Sup) :
  (stop L s).1 = inr tt
  ∧ self (state (stop L s).2) = self (state s)
  ∧ world (state (stop L s).2)
    = set_sockets (sockets (world (state (stop L s).2))) (world (state s))
  ∧ (signals (stop L s).2 = signals s
     ∨ ∃ pid, proc (self (state s)) = Some pid
              ∧ exited (world (state s)) !! pid = None
              ∧ signals (stop L s).2 = signals s ++ [(pid, SIGTERM)]).
Proof.
  rewrite stop_cases.
  destruct (qmp_command_frame L powerdown (state s)) as [Hs Hw].
  destruct (qmp_sock (self (state s))).
  - destruct (qmp_command L powerdown (state s)) as [[e|j] st']; cbn [fst snd] in *.
    + destruct (terminate_spec {| state := st'; signals := signals s |}) as [E1 E2].
      cbn [state signals] in *. rewrite E1, E2, Hs. split; [done|].
      split; [done|]. split; [done|].
      destruct (proc (self (state s))) as [pid|]; [|left; by rewrite app_nil_r].
      rewrite Hw. cbn [exited set_sockets].
      destruct (exited (world (state s)) !! pid) eqn:Hx.
      * left. rewrite bool_decide_eq_false_2 by done. by rewrite app_nil_r.
      * right. exists pid. by rewrite bool_decide_eq_true_2.
    + cbn [state signals]. auto.
  - destruct (terminate_spec s) as [E1 E2]. cbn [fst snd]. rewrite E1, E2.
    split; [done|]. split; [done|]. split; [by destruct (world (state s))|].
    destruct (proc (self (state s))) as [pid|]; [|left; by rewrite app_nil_r].
    destruct (exited (world (state s)) !! pid) eqn:Hx.
    * left. rewrite bool_decide_eq_false_2 by done. by rewrite app_nil_r.
    * right. exists pid. by rewrite bool_decide_eq_true_2.
Qed.

(** X18: the graceful path.  With a connected control socket on which a
    response arrives, [stop] writes the power-down request, one message,
    and sends no signal: whatever the response says, an error or a text
    that is not JSON included, the process is not terminated. *)
Theorem stop_powerdown (L : PyLib) (s : Sup) (sid : nat) (sk : Sock)
    (chunk : string) (rest : list string) :
  qmp_sock (self (state s)) = Some sid →
  sockets (world (state s)) !! sid = Some sk →
  connected sk = true →
  inbox sk = chunk :: rest →
  signals (stop L s).2 = signals s
  ∧ ∃ sk', sockets (world (state (stop L s).2)) !! sid = Some sk'
           ∧ sent sk' = sent sk ++ [json_dumps L powerdown +:+ String "010" EmptyString].
Proof.
  intros Hq Hs Hc Hin. rewrite stop_cases, Hq.
  unfold qmp_command, bind, get_self, lift. rewrite Hq.
  rewrite (sendall_connected _ _ _ sk) by done. cbn [fst snd world self].
  unfold recv. cbn [sockets set_sockets]. rewrite lookup_insert_eq.
  cbn [inbox connected sent]. rewrite Hin.
  cbn [fst snd world self sockets set_sockets].
  unfold catch, loads, ret, raise.
  destruct (json_loads L _); cbn [fst snd state signals world sockets set_sockets];
    (split; [done|]); rewrite lookup_insert_eq; eexists; (split; [done|]); done.
Qed.

Lemma stop_powerdown_witness :
  signals (stop sample_lib (supervised web01_ready)).2 = [].
Proof.
  unshelve epose proof
    (stop_powerdown sample_lib (supervised web01_ready) 3%nat
       {| connected := true; sent := [];
          inbox := ["{}{}"; sample_dumps (JObj [("return", JObj [])])];
          reset := false |}
       "{}{}" [sample_dumps (JObj [("return", JObj [])])] _ _ _ _) as [H _];
    [by_compute | by_compute | by_compute | by_compute |].
  exact H.
Defined.

(** X19: the fallback.  When the power-down request cannot be made
    ([qmp_command] raises: there is no control socket, a write on it was
    already answered by a reset, or no response comes before the
    timeout) and the VM holds a process that has not exited, [stop] sends
    it [SIGTERM], once. *)
Theorem stop_terminates (L : PyLib) (s : Sup) (e : exn) (pid : nat) :
  (qmp_command L powerdown (state s)).1 = inl e →
  proc (self (state s)) = Some pid →
  exited (world (state s)) !! pid = None →
  signals (stop L s).2 = signals s ++ [(pid, SIGTERM)].
Proof.
  intros He Hp Hx. rewrite stop_cases.
  destruct (qmp_command_frame L powerdown (state s)) as [Hs Hw].
  destruct (qmp_sock (self (state s))).
  - destruct (qmp_command L powerdown (state s)) as [[e'|j] st']; [|done].
    cbn [fst snd] in *.
    destruct (terminate_spec {| state := st'; signals := signals s |}) as [_ E2].
    cbn [state signals] in *. rewrite E2, Hs, Hp, Hw. cbn [exited set_sockets].
    by rewrite bool_decide_eq_true_2.
  - destruct (terminate_spec s) as [_ E2]. cbn [snd]. rewrite E2, Hp.
    by rewrite bool_decide_eq_true_2.
Qed.

Lemma stop_terminates_witness :
  signals (stop sample_lib (supervised web01_started)).2 = [] ++ [(0%nat, SIGTERM)].
Proof.
  unshelve epose proof
    (stop_terminates sample_lib (supervised web01_started) NotConnected 0%nat _ _ _)
    as H; [by_compute | by_compute | by_compute |].
  exact H.
Defined.

(** X25: a control socket whose peer has closed its end since the
    handshake, before any write was refused.  [stop] writes the
    power-down request all the same, takes the empty response of the
    closed connection for a reply, and returns: it sends no signal, so a
    process that is still running is not terminated.  The write is the
    one after which every other is refused, so the next [stop] goes the
    other way. *)
Theorem stop_after_hang_up (L : PyLib) (s : Sup) (sid : nat) (sk : Sock) :
  qmp_sock (self (state s)) = Some sid →
  sockets (world (state s)) !! sid = Some sk →
  connected sk = false →
  reset sk = false →
  signals (stop L s).2 = signals s
  ∧ ∃ sk', sockets (world (state (stop L s).2)) !! sid = Some sk'
           ∧ sent sk' = sent sk ++ [json_dumps L powerdown +:+ String "010" EmptyString]
           ∧ connected sk' = false
           ∧ reset sk' = true.
Proof.
  intros Hq Hs Hc Hr. rewrite stop_cases, Hq, qmp_command_cases, Hq.
  unfold qmp_line, sendall. rewrite Hs, Hc, Hr. unfold recv.
  cbn [sockets set_sockets]. rewrite lookup_insert_eq. cbn [inbox connected].
  destruct (inbox sk) as [|c rest];
    cbn [fst snd state signals world sockets set_sockets];
    (split; [done|]); rewrite ?insert_insert_eq, lookup_insert_eq;
    eexists; (split; [done|]); done.
Qed.

Lemma stop_after_hang_up_witness :
  signals (stop sample_lib (supervised web01_hung_up)).2 = [].
Proof.
  unshelve epose proof
    (stop_after_hang_up sample_lib (supervised web01_hung_up) 3%nat
       {| connected := false; sent := []; inbox := []; reset := false |} _ _ _ _)
    as [H _]; [by_compute | by_compute | by_compute | by_compute |].
  exact H.
Defined.

(** ** Bundles: restoring *)

Lemma split_head_append (n r : string) :
  split_head n = n → split_head (n +:+ String "/" r) = n.
Proof.
  induction n as [|c n IH]; [done|]. rewrite append_cons. cbn [split_head].
  destruct (Ascii.eqb c "/"); [done|]. intros [= H]. by rewrite IH.
Qed.

Lemma plain_name_prefix (n : string) : plain_name n → String.prefix "/" n = false.
Proof.
  intros (Hs & Hne & _). destruct n as [|c n]; [done|].
  cbn [split_head] in Hs. cbn [String.prefix].
  destruct (Ascii.eqb_spec c "/") as [->|Hc]; [done|].
  destruct (ascii_dec "/" c) as [<-|?]; done.
Qed.

Lemma prefix_nil (s : string) : String.prefix "" s = true.
Proof. by destruct s. Qed.

Lemma prefix_slash_cons (c : ascii) (r r' : string) :
  String.prefix "/" (String c r) = String.prefix "/" (String c r').
Proof.
  cbn [String.prefix]. destruct (ascii_dec "/" c); [by rewrite !prefix_nil|done].
Qed.

Lemma vm_path_plain (w : World) (n : string) :
  plain_name n → vm_path w n = VMS_DIR w +:+ "/" +:+ n.
Proof.
  intros Hn. unfold vm_path, path_join. rewrite (plain_name_prefix n Hn).
  destruct Hn as (_ & H1 & H2).
  by rewrite (proj2 (str_eqb_ne n "") H1), (proj2 (str_eqb_ne n ".") H2).
Qed.

Lemma config_path_member (w : World) (n : string) :
  plain_name n →
  os_path_join (VMS_DIR w) (n +:+ "/config.json") = config_path w n.
Proof.
  intros Hn. unfold os_path_join.
  assert (Hp : String.prefix "/" (n +:+ "/config.json") = false).
  { pose proof (plain_name_prefix n Hn) as H. destruct Hn as (_ & Hne & _).
    destruct n as [|c n]; [done|]. rewrite append_cons.
    by rewrite (prefix_slash_cons c _ n). }
  rewrite Hp, config_path_eq, vm_path_plain by done.
  by rewrite !append_assoc.
Qed.

(** [import_bundle] of an archive that begins with the configuration
    document of a VM that is not in the store. *)
Lemma import_bundle_config (bundle_path : string) (w : World) (n : string)
    (doc : VMConfig) (rest : list TarMember) :
  fs w !! bundle_path
  = Some (File (FTar ((n +:+ "/config.json", Some (FConfig doc)) :: rest))) →
  plain_name n →
  fs w !! vm_path w n = None →
  NoDup (file_targets (VMS_DIR w)
           ((n +:+ "/config.json", Some (FConfig doc)) :: rest)) →
  is_Some (disks doc) →
  (import_bundle bundle_path w).1 = inr (fresh_vm n doc)
  ∧ ∀ m d, (m, Some d) ∈ (n +:+ "/config.json", Some (FConfig doc)) :: rest →
           fs (import_bundle bundle_path w).2 !! os_path_join (VMS_DIR w) m
           = Some (File d).
Proof.
  intros Hb Hn Hv Hnd [ds Hds].
  set (ms := (n +:+ "/config.json", Some (FConfig doc)) :: rest) in *.
  set (w' := set_fs (foldl (extract_member (VMS_DIR w)) (fs w) ms) w).
  assert (E : import_bundle bundle_path w = VM_init n w').
  { unfold import_bundle, bind, tar_getmembers, get, path_exists, extractall.
    rewrite Hb. cbn [fst snd ms].
    change (split_head (n +:+ String "/" "config.json")) with
      (split_head (n +:+ String "/" "config.json")).
    rewrite (split_head_append n "config.json") by apply Hn.
    fold (vm_path w n). rewrite Hv.
    rewrite bool_decide_eq_false_2 by (intros [? ?]; done). reflexivity. }
  assert (Hall : ∀ m d, (m, Some d) ∈ ms →
                        fs w' !! os_path_join (VMS_DIR w) m = Some (File d)).
  { intros m d Hin. by apply extractall_complete. }
  assert (Hc : fs w' !! config_path w' n = Some (File (FConfig doc))).
  { change (config_path w' n) with (config_path w n).
    rewrite <- config_path_member by done.
    apply Hall. apply elem_of_cons. by left. }
  rewrite E, (VM_init_stored n w' _ Hc), Hds. cbn [fst snd fs set_fs].
  split; [done|]. intros m d Hin. by apply with_layout_keeps, Hall.
Qed.

(** X20: importing an archive that begins with the configuration document
    of a VM that is not in the store: a one-component name [n], the entry
    [n/config.json] first, members that can be unpacked into the store,
    the files among them going to distinct paths.  The
    VM returned has that name and that configuration, as it is in the
    archive (the disk paths it records are not changed), and every file
    of the archive is in the store with its contents. *)
Theorem import_bundle_restores (bundle_path : string) (w : World) (n : string)
    (doc : VMConfig) (rest : list TarMember) :
  fs w !! bundle_path
  = Some (File (FTar ((n +:+ "/config.json", Some (FConfig doc)) :: rest))) →
  plain_name n →
  fs w !! VMS_DIR w = Some Dir →
  unpacks (VMS_DIR w) (fs w)
    ((n +:+ "/config.json", Some (FConfig doc)) :: rest) = true →
  fs w !! vm_path w n = None →
  NoDup (file_targets (VMS_DIR w)
           ((n +:+ "/config.json", Some (FConfig doc)) :: rest)) →
  is_Some (disks doc) →
  (import_bundle bundle_path w).1 = inr (fresh_vm n doc)
  ∧ ∀ m d, (m, Some d) ∈ (n +:+ "/config.json", Some (FConfig doc)) :: rest →
           fs (import_bundle bundle_path w).2 !! os_path_join (VMS_DIR w) m
           = Some (File d).
Proof. intros Hb Hn _ _. by apply import_bundle_config. Qed.

Lemma import_bundle_restores_witness :
  (import_bundle "/home/u/web01.tar.gz" other_host).1
  = inr (fresh_vm "web01" (config (self web01_vnc))).
Proof.
  unshelve epose proof
    (import_bundle_restores "/home/u/web01.tar.gz" other_host "web01"
       (config (self web01_vnc))
       [("web01/disks/web01-disk0.raw", Some (FSparse (32 * 2 ^ 30)))]
       _ _ _ _ _ _ _) as [H _];
    [by_compute | split; [by_compute | split; by_compute] | by_compute | by_compute
    | by_compute | by_decide | by_compute |].
  exact H.
Defined.

Lemma export_bundle_archive
    (dest : string) (include_iso : bool) (st : St) (cdoc : FileData) :
  fs (world st) !! dest ≠ Some Dir →
  fs (world st) !! dirname dest = Some Dir →
  config_path (world st) (name (self st)) ≠ dest →
  fs (world st) !! config_path (world st) (name (self st)) = Some (File cdoc) →
  Forall (λ d, is_Some (d_path d)) (get_disks (config (self st))) →
  export_bundle dest include_iso st
  = (inr dest,
     {| self := self st;
        world :=
          set_fs (<[dest := File (FTar (exported_members dest include_iso st cdoc))]>
                    (fs (world st)))
                 (world st) |}).
Proof.
  intros Hd Hdd Hcne Hc Hds. unfold exported_members.
  unfold export_bundle, export_members. unfold_m. simpl.
  unfold tar_open_w, bind. rewrite open_w_ok by done.
  unfold write_file. simpl. rewrite insert_insert_eq.
  rewrite (tar_add_spec _ _ _ _ []) by (by simpl; rewrite lookup_insert_eq).
  rewrite !config_path_set_fs.
  rewrite (proj2 (str_eqb_ne _ _) Hcne).
  simpl. rewrite lookup_insert_ne by done. rewrite Hc.
  simpl. rewrite insert_insert_eq.
  rewrite (export_disks_spec _ _ _ _ [(name (self st) +:+ "/config.json", Some cdoc)]);
    [|by simpl; rewrite lookup_insert_eq|done].
  simpl. rewrite insert_insert_eq, disk_members_insert_dest.
  unfold iso_members.
  destruct (iso_path (config (self st))) as [iso|]; simpl;
    [|rewrite andb_false_r; simpl; by rewrite app_nil_r].
  destruct (include_iso && negb (str_eqb iso "")); simpl;
    [|by rewrite app_nil_r].
  unfold path_exists. simpl.
  destruct (str_eqb iso dest) eqn:E.
  - apply str_eqb_eq in E. subst iso. rewrite lookup_insert_eq.
    rewrite bool_decide_eq_true_2 by eauto.
    erewrite tar_add_spec by (by simpl; rewrite lookup_insert_eq).
    rewrite (proj2 (str_eqb_eq dest dest)) by done.
    simpl. by rewrite app_nil_r.
  - pose proof (proj1 (str_eqb_ne _ _) E) as Hne.
    rewrite lookup_insert_ne by done.
    destruct (fs (world st) !! iso) as [nd|] eqn:Hiso.
    + rewrite bool_decide_eq_true_2 by eauto.
      erewrite tar_add_spec by (by simpl; rewrite lookup_insert_eq).
      rewrite E. simpl.
      rewrite lookup_insert_ne by done. rewrite Hiso.
      simpl. rewrite insert_insert_eq. reflexivity.
    + rewrite bool_decide_eq_false_2 by (intros [? ?]; done).
      simpl. by rewrite app_nil_r.
Qed.

(** X21: export, then import on a host where the VM is not in the store.
    For a VM with a one-component name whose configuration is saved and
    whose disks are regular files, a bundle written by [export_bundle]
    and brought to a world [w2] is imported by [import_bundle] as a VM of
    the same name with the same configuration, when the members of the
    bundle can be unpacked into the store of [w2] and go to distinct paths
    (two disks with the same file name would not). *)
Theorem export_import_round_trip
    (dest : string) (include_iso : bool) (st : St) (bundle_path : string)
    (w2 : World) :
  fs (world st) !! dest ≠ Some Dir →
  fs (world st) !! dirname dest = Some Dir →
  config_path (world st) (name (self st)) ≠ dest →
  Forall (λ d, is_Some (d_path d)) (get_disks (config (self st))) →
  synced st →
  is_Some (disks (config (self st))) →
  plain_name (name (self st)) →
  Forall (λ m : TarMember, is_Some m.2)
    (exported_members dest include_iso st (FConfig (config (self st)))) →
  fs w2 !! bundle_path = fs (world (export_bundle dest include_iso st).2) !! dest →
  fs w2 !! VMS_DIR w2 = Some Dir →
  unpacks (VMS_DIR w2) (fs w2)
    (exported_members dest include_iso st (FConfig (config (self st)))) = true →
  fs w2 !! vm_path w2 (name (self st)) = None →
  NoDup (file_targets (VMS_DIR w2)
           (exported_members dest include_iso st (FConfig (config (self st))))) →
  (export_bundle dest include_iso st).1 = inr dest
  ∧ (import_bundle bundle_path w2).1
    = inr (fresh_vm (name (self st)) (config (self st))).
Proof.
  intros Hd Hdd Hcne Hds Hsync Hdisks Hn _ Hb _ _ Hv Hnd.
  rewrite (export_bundle_archive dest include_iso st (FConfig (config (self st))))
    in Hb |- * by done.
  split; [done|].
  cbn [snd world fs set_fs] in Hb. rewrite lookup_insert_eq in Hb.
  by apply (import_bundle_config bundle_path w2 _ _ _ Hb).
Qed.

Lemma export_import_round_trip_witness :
  (import_bundle "/home/u/web01.tar.gz" other_host).1
  = inr (fresh_vm (name (self web01_vnc)) (config (self web01_vnc))).
Proof.
  unshelve epose proof
    (export_import_round_trip "/home/u/.py86/exports/web01.tar.gz" false web01_vnc
       "/home/u/web01.tar.gz" other_host _ _ _ _ _ _ _ _ _ _ _ _ _) as [_ H];
    [by_compute | by_compute | by_compute | by_decide | unfold synced; by_compute
    | by_compute | split; [by_compute | split; by_compute] | by_decide
    | by_compute | by_compute | by_compute | by_compute | by_decide |].
  exact H.
Defined.

(** X22: exporting a VM whose configuration file is missing.  The export
    raises [FileNotFoundError] for that file, and the destination has been
    made all the same, in place of whatever was there: it is left as a
    compressed stream with no tar data in it, which is no bundle that can
    be imported ([import_bundle] of it raises [ReadError]). *)
Theorem export_bundle_missing_config (dest : string) (include_iso : bool) (st : St) :
  fs (world st) !! dest ≠ Some Dir →
  fs (world st) !! dirname dest = Some Dir →
  config_path (world st) (name (self st)) ≠ dest →
  fs (world st) !! config_path (world st) (name (self st)) = None →
  export_bundle dest include_iso st
  = (inl (FileNotFoundError (config_path (world st) (name (self st)))),
     {| self := self st;
        world := set_fs (<[dest := File NO_TAR_DATA]> (fs (world st))) (world st) |})
  ∧ (import_bundle dest (world (export_bundle dest include_iso st).2)).1
    = inl ReadError.
Proof.
  intros Hd Hdd Hcne Hc.
  assert (E : export_bundle dest include_iso st
              = (inl (FileNotFoundError (config_path (world st) (name (self st)))),
                 {| self := self st;
                    world := set_fs (<[dest := File NO_TAR_DATA]> (fs (world st)))
                                    (world st) |})).
  { unfold export_bundle, export_members. unfold_m. simpl.
    unfold tar_open_w, bind. rewrite open_w_ok by done.
    unfold write_file. simpl. rewrite insert_insert_eq.
    rewrite (tar_add_spec _ _ _ _ []) by (by simpl; rewrite lookup_insert_eq).
    rewrite !config_path_set_fs.
    rewrite (proj2 (str_eqb_ne _ _) Hcne).
    simpl. rewrite lookup_insert_ne by done. rewrite Hc. simpl.
    unfold tar_abort. simpl. rewrite lookup_insert_eq. simpl.
    by rewrite insert_insert_eq. }
  rewrite E. split; [reflexivity|].
  unfold import_bundle, bind, tar_getmembers. cbn [snd world fs set_fs].
  by rewrite lookup_insert_eq.
Qed.

Lemma export_bundle_missing_config_witness :
  (export_bundle "/home/u/.py86/exports/web01.tar.gz" false web01_unsaved).1
  = inl (FileNotFoundError (config_path (world web01_unsaved) (name (self web01_unsaved))))
  ∧ (import_bundle "/home/u/.py86/exports/web01.tar.gz"
       (world (export_bundle "/home/u/.py86/exports/web01.tar.gz" false
                 web01_unsaved).2)).1
    = inl ReadError.
Proof.
  unshelve epose proof
    (export_bundle_missing_config "/home/u/.py86/exports/web01.tar.gz" false
       web01_unsaved _ _ _ _) as [H1 H2];
    [by_compute | by_compute | by_compute | by_compute |].
  split; [by rewrite H1|exact H2].
Defined.

(** X23: an archive whose first member is named [.], or begins with [./]
    or with a slash, is never imported: the directory looked for is the
    VM store itself, which exists, so [import_bundle] raises
    [AlreadyExists] and extracts nothing. *)
Theorem import_bundle_rooted (bundle_path : string) (w : World)
    (m0 : TarMember) (rest : list TarMember) (r : string) :
  fs w !! bundle_path = Some (File (FTar (m0 :: rest))) →
  m0.1 = "." ∨ m0.1 = "./" +:+ r ∨ m0.1 = "/" +:+ r →
  is_Some (fs w !! VMS_DIR w) →
  import_bundle bundle_path w = (inl AlreadyExists, w).
Proof.
  intros Hb Hm Hv.
  assert (Hp : path_join (VMS_DIR w) (split_head m0.1) = VMS_DIR w).
  { destruct Hm as [-> | [-> | ->]]; reflexivity. }
  unfold import_bundle, bind, tar_getmembers, get, path_exists. rewrite Hb.
  cbn [fst snd]. rewrite Hp. by rewrite bool_decide_eq_true_2.
Qed.

Lemma import_bundle_rooted_witness :
  import_bundle "/home/u/dot.tar.gz" dot_bundle_host
  = (inl AlreadyExists, dot_bundle_host).
Proof.
  unshelve epose proof
    (import_bundle_rooted "/home/u/dot.tar.gz" dot_bundle_host
       ("./web01/config.json", Some (FConfig DEFAULT_CONFIG)) [] "web01/config.json"
       _ _ _) as H;
    [by_compute | right; left; reflexivity | by_compute |].
  exact H.
Defined.

(** ** The module's directories *)

Lemma mkdir_p_ok (p : string) (w : World) :
  not_file (fs w) p → mkdir_p p w = (inr tt, set_fs (makedirs p (fs w)) w).
Proof.
  intros Hnf. unfold mkdir_p. destruct (fs w !! p) as [[|d]|] eqn:Hp; try done.
  by destruct (Hnf d).
Qed.

Lemma makedirs_not_file (p : string) (f : gmap string Node) (k : string) :
  not_file f k → not_file (makedirs p f) k.
Proof.
  intros Hnf d. unfold makedirs.
  destruct (mkdirs_only_dirs (parents p ++ [p]) f k) as [->| ->]; [apply Hnf|done].
Qed.

Lemma mkdirs_present (ps : list string) (f : gmap string Node) (q : string) :
  q ∈ ps → is_Some (foldl mkdir_if_absent f ps !! q).
Proof.
  revert f. induction ps as [|p ps IH]; intros f Hq; [by apply elem_of_nil in Hq|].
  apply elem_of_cons in Hq as [->|Hq]; [|by apply IH].
  simpl. assert (H : is_Some (mkdir_if_absent f p !! p)).
  { unfold mkdir_if_absent. destruct (f !! p) eqn:Hp; [by rewrite Hp|].
    rewrite lookup_insert_eq. eauto. }
  destruct H as [x Hx]. exists x. by apply mkdirs_keep.
Qed.

Lemma mkdirs_id (ps : list string) (f : gmap string Node) :
  (∀ q, q ∈ ps → is_Some (f !! q)) → foldl mkdir_if_absent f ps = f.
Proof.
  induction ps as [|p ps IH]; intros H; [done|]. simpl.
  assert (E : mkdir_if_absent f p = f).
  { unfold mkdir_if_absent. destruct (H p) as [x ->]; [|done].
    apply elem_of_cons. by left. }
  rewrite E. apply IH. intros q Hq. apply H. apply elem_of_cons. by right.
Qed.

(** [makedirs] does nothing more once it has been run, whatever was made
    in between. *)
Lemma makedirs_again (p : string) (f g : gmap string Node) :
  (∀ k x, makedirs p f !! k = Some x → g !! k = Some x) →
  makedirs p g = g.
Proof.
  intros Hk. unfold makedirs. apply mkdirs_id. intros q Hq.
  destruct (mkdirs_present (parents p ++ [p]) f q Hq) as [x Hx].
  exists x. by apply Hk.
Qed.

(** X24: loading the module on a home directory where no regular file is in
    the way.  The three directories of the application exist afterwards,
    nothing that was on the file system is lost, and loading the module
    once more changes nothing. *)
Theorem module_init_dirs (w : World) :
  clear_above (fs w) (BASE_DIR w) = true →
  not_file (fs w) (BASE_DIR w) →
  not_file (fs w) (VMS_DIR w) →
  not_file (fs w) (EXPORTS_DIR w) →
  (module_init w).1 = inr tt
  ∧ fs (module_init w).2 !! BASE_DIR w = Some Dir
  ∧ fs (module_init w).2 !! VMS_DIR w = Some Dir
  ∧ fs (module_init w).2 !! EXPORTS_DIR w = Some Dir
  ∧ (∀ k x, fs w !! k = Some x → fs (module_init w).2 !! k = Some x)
  ∧ module_init (module_init w).2 = (inr tt, (module_init w).2).
Proof.
  intros _ Hb Hv He.
  set (f1 := makedirs (BASE_DIR w) (fs w)).
  set (f2 := makedirs (VMS_DIR w) f1).
  set (f3 := makedirs (EXPORTS_DIR w) f2).
  assert (Hv1 : not_file f1 (VMS_DIR w)) by by apply makedirs_not_file.
  assert (He2 : not_file f2 (EXPORTS_DIR w)) by by do 2 apply makedirs_not_file.
  assert (E : module_init w = (inr tt, set_fs f3 w)).
  { unfold module_init, bind, get. rewrite mkdir_p_ok by done.
    rewrite mkdir_p_ok by done. rewrite mkdir_p_ok by done. reflexivity. }
  assert (Lb : f3 !! BASE_DIR w = Some Dir)
    by (do 2 apply makedirs_keeps; by apply makedirs_self).
  assert (Lv : f3 !! VMS_DIR w = Some Dir)
    by (apply makedirs_keeps; by apply makedirs_self).
  assert (Le : f3 !! EXPORTS_DIR w = Some Dir) by by apply makedirs_self.
  rewrite E. cbn [fst snd fs set_fs].
  split; [done|]. split; [done|]. split; [done|]. split; [done|]. split.
  - intros k x Hk. by do 3 apply makedirs_keeps.
  - unfold module_init, bind, get.
    change (BASE_DIR (set_fs f3 w)) with (BASE_DIR w).
    change (VMS_DIR (set_fs f3 w)) with (VMS_DIR w).
    change (EXPORTS_DIR (set_fs f3 w)) with (EXPORTS_DIR w).
    rewrite mkdir_p_ok by (intros d; cbn [fs set_fs]; by rewrite Lb).
    cbn [fs set_fs].
    rewrite (makedirs_again (BASE_DIR w) (fs w) f3)
      by (intros k x Hk; by do 2 apply makedirs_keeps).
    rewrite mkdir_p_ok by (intros d; cbn [fs set_fs]; by rewrite Lv).
    cbn [fs set_fs].
    rewrite (makedirs_again (VMS_DIR w) f1 f3)
      by (intros k x Hk; by apply makedirs_keeps).
    rewrite mkdir_p_ok by (intros d; cbn [fs set_fs]; by rewrite Le).
    cbn [fs set_fs].
    rewrite (makedirs_again (EXPORTS_DIR w) f2 f3) by done.
    reflexivity.
Qed.

Lemma module_init_dirs_witness :
  (module_init (later host)).1 = inr tt
  ∧ fs (module_init (later host)).2 !! EXPORTS_DIR (later host) = Some Dir.
Proof.
  unshelve epose proof (module_init_dirs (later host) _ _ _ _)
    as (H1 & _ & _ & H4 & _); [by_compute | no_file | no_file | no_file |].
  exact (conj H1 H4).
Defined.
